(** * asym-rlpo: a shallow embedding of the POE-ADQN losses, its acting
    policy, the configuration singleton and the A2C run loop.

    Source files embedded here:
    - [asym_rlpo/algorithms/poe_adqn.py]  (modules [Torch], [Re], [PoeAdqn])
    - [asym_rlpo/utils/config.py]         (module [Config])
    - [main_a2c.py]                       (module [MainA2C])

    Tensors are lists (one list per dimension); scalar arithmetic is kept
    abstract in the class [Scalar], so that every statement below holds for
    whatever arithmetic the tensor library performs on its elements.
    Python exceptions are the [Raise] branch of the [result] monad. *)

From Stdlib Require Import NArith ZArith QArith Ascii String.
From stdpp Require Import base option list gmap strings.

Local Open Scope Z_scope.
Local Open Scope list_scope.

(** ** Exceptions and the error monad *)

Inductive exn : Type :=
| IndexError
| KeyError
| TypeError
| RuntimeError
| AssertionError
| ZeroDivisionError
| NotImplementedError.

Inductive result (A : Type) : Type :=
| Ok (a : A)
| Raise (e : exn).
Arguments Ok {A} a.
Arguments Raise {A} e.

Definition bind {A B} (m : result A) (f : A -> result B) : result B :=
  match m with
  | Ok a => f a
  | Raise e => Raise e
  end.

Notation "'let*' x := m 'in' f" := (bind m (fun x => f))
  (at level 10, x name, m at level 100, f at level 200).
Notation "'let*' ' p := m 'in' f" :=
  (bind m (fun x => match x with p => f end))
  (at level 10, p pattern, m at level 100, f at level 200).

Fixpoint mapR {A B} (f : A -> result B) (xs : list A) : result (list B) :=
  match xs with
  | [] => Ok []
  | x :: xs' => let* y := f x in let* ys := mapR f xs' in Ok (y :: ys)
  end.

Definition is_ok {A} (m : result A) : bool :=
  match m with Ok _ => true | Raise _ => false end.

(** ** Tensor operations *)

Module Torch.

(** Element arithmetic of a floating tensor.  [gt x y] is the order used by
    [argmax] (strictly greater). *)
Class Scalar (R : Type) : Type := {
  zero : R;
  add : R -> R -> R;
  sub : R -> R -> R;
  mul : R -> R -> R;
  div : R -> R -> R;
  of_nat : nat -> R;
  gt : R -> R -> bool
}.

#[global] Instance Q_scalar : Scalar Q := {|
  zero := 0%Q;
  add := Qplus;
  sub := Qminus;
  mul := Qmult;
  div := Qdiv;
  of_nat := fun n => inject_Z (Z.of_nat n);
  gt := fun x y => negb (Qle_bool x y)
|}.

#[global] Instance Z_scalar : Scalar Z := {|
  zero := 0;
  add := Z.add;
  sub := Z.sub;
  mul := Z.mul;
  div := Z.div;
  of_nat := Z.of_nat;
  gt := Z.gtb
|}.

Section Ops.
Context {R : Type} `{Scalar R}.

(** [t.roll(shift, 0)]: element [i] moves to index [(i + shift) mod n]. *)
Definition roll {A} (shift : Z) (xs : list A) : list A :=
  match xs with
  | [] => []
  | _ => rotate (Z.to_nat ((- shift) mod Z.of_nat (length xs))) xs
  end.

(** Broadcasting of two 1-d tensors: equal sizes, or one of size 1. *)
Definition broadcast2 {A B C} (f : A -> B -> C) (xs : list A) (ys : list B)
  : result (list C) :=
  if decide (length xs = length ys) then Ok (zip_with f xs ys)
  else match xs, ys with
       | [x], _ => Ok (map (f x) ys)
       | _, [y] => Ok (map (fun x => f x y) xs)
       | _, _ => Raise RuntimeError
       end.

(** [torch.tensor(0.0).where(cond, other)]: 0 where [cond] holds. *)
Definition where0 (cond : list bool) (other : list R) : result (list R) :=
  broadcast2 (fun (c : bool) y => if c then zero else y) cond other.

(** [values.gather(1, index.unsqueeze(-1)).squeeze(-1)] *)
Definition gather_at (row : list R) (i : Z) : result R :=
  if decide (0 <= i) then
    match row !! Z.to_nat i with
    | Some x => Ok x
    | None => Raise RuntimeError
    end
  else Raise RuntimeError.

Fixpoint gather_rows (values : list (list R)) (index : list Z)
    {struct index} : result (list R) :=
  match index, values with
  | [], _ => Ok []
  | _ :: _, [] => Raise RuntimeError
  | i :: index', row :: values' =>
      let* x := gather_at row i in
      let* xs := gather_rows values' index' in
      Ok (x :: xs)
  end.

(** [row.argmax()]: index of the first maximal element. *)
Fixpoint argmax_from (best_i : nat) (best : R) (i : nat) (xs : list R) : nat :=
  match xs with
  | [] => best_i
  | x :: xs' =>
      if gt x best then argmax_from i x (S i) xs'
      else argmax_from best_i best (S i) xs'
  end.

Definition argmax (xs : list R) : result Z :=
  match xs with
  | [] => Raise IndexError
  | x :: xs' => Ok (Z.of_nat (argmax_from 0 x 1 xs'))
  end.

(** [values.argmax(-1)] *)
Definition argmax_rows (values : list (list R)) : result (list Z) :=
  mapR argmax values.

(** [torch.cat([a, b], dim=-1)] on 2-d tensors. *)
Definition cat_last (a b : list (list R)) : result (list (list R)) :=
  if decide (length a = length b) then Ok (zip_with (@app R) a b)
  else Raise RuntimeError.

(** [t[0, :] = 0.0] *)
Definition zero_first_row (t : list (list R)) : result (list (list R)) :=
  match t with
  | [] => Raise IndexError
  | row :: rest => Ok (map (fun _ => zero) row :: rest)
  end.

(** [torch.zeros(n)] *)
Definition zeros (n : nat) : list R := replicate n zero.

(** Python's [sum(xs, start)] *)
Definition sum_from (start : R) (xs : list R) : R := fold_left add xs start.

(** [t.mean()] *)
Definition mean (xs : list R) : R :=
  div (sum_from zero xs) (of_nat (length xs)).

(** [F.mse_loss(input, target)] *)
Definition mse_loss (input target : list R) : result R :=
  let* sq := broadcast2 (fun x y => mul (sub x y) (sub x y)) input target in
  Ok (mean sq).

End Ops.
End Torch.

(** ** Regular expressions, as far as [re.fullmatch] is used *)

Module Re.

(** A character of a Python [str] is a Unicode code point. *)
Definition char : Type := N.

(** The [str] that an ASCII literal of the source denotes. *)
Definition literal (s : string) : list char :=
  map N_of_ascii (list_ascii_of_string s).

Inductive regex : Type :=
| Void
| Eps
| Chr (c : char)
| Digit
| Cat (r1 r2 : regex)
| Alt (r1 r2 : regex)
| Star (r : regex).

(** [r+] *)
Definition Plus (r : regex) : regex := Cat r (Star r).

(** A literal string. *)
Fixpoint Lit (s : list char) : regex :=
  match s with
  | [] => Eps
  | c :: s' => Cat (Chr c) (Lit s')
  end.

Fixpoint nullable (r : regex) : bool :=
  match r with
  | Void => false
  | Eps => true
  | Chr _ => false
  | Digit => false
  | Cat r1 r2 => nullable r1 && nullable r2
  | Alt r1 r2 => nullable r1 || nullable r2
  | Star _ => true
  end.

Section Matcher.
(** [\d]: in a [str] pattern compiled without [re.ASCII] it matches every
    Unicode decimal digit, the characters of category Nd: '0' .. '9' and
    the decimal digits of the other scripts, such as U+0661 and U+FF11.
    The table is the one of the Unicode database of the interpreter
    ([str.isdecimal]). *)
Variable is_decimal : char -> bool.

Fixpoint deriv (c : char) (r : regex) : regex :=
  match r with
  | Void => Void
  | Eps => Void
  | Chr c' => if N.eqb c c' then Eps else Void
  | Digit => if is_decimal c then Eps else Void
  | Cat r1 r2 =>
      if nullable r1 then Alt (Cat (deriv c r1) r2) (deriv c r2)
      else Cat (deriv c r1) r2
  | Alt r1 r2 => Alt (deriv c r1) (deriv c r2)
  | Star r1 => Cat (deriv c r1) (Star r1)
  end.

Fixpoint matches_list (r : regex) (s : list char) : bool :=
  match s with
  | [] => nullable r
  | c :: s' => matches_list (deriv c r) s'
  end.

(** [re.fullmatch(pattern, string)], as a truth value. *)
Definition fullmatch (r : regex) (s : list char) : bool :=
  matches_list r s.

(** The language of a pattern. *)
Inductive matches : regex -> list char -> Prop :=
| M_Eps : matches Eps []
| M_Chr c : matches (Chr c) [c]
| M_Digit c : is_decimal c = true -> matches Digit [c]
| M_Cat r1 r2 s1 s2 :
    matches r1 s1 -> matches r2 s2 -> matches (Cat r1 r2) (s1 ++ s2)
| M_AltL r1 r2 s : matches r1 s -> matches (Alt r1 r2) s
| M_AltR r1 r2 s : matches r2 s -> matches (Alt r1 r2) s
| M_Star0 r : matches (Star r) []
| M_StarS r s1 s2 :
    matches r s1 -> matches (Star r) s2 -> matches (Star r) (s1 ++ s2).

End Matcher.

End Re.

(** ** asym_rlpo/algorithms/poe_adqn.py: losses and policies *)

Module PoeAdqn.
Import Torch.

Section Algorithm.
Context {R : Type} `{Scalar R}.
(** Observations, privileged states and the recurrent hidden state. *)
Context {Obs State Hid : Type}.

(** [nn.ModuleDict] built by [make_models_box2d].  The representation and
    network classes are defined outside this file of the repository, so the
    modules are fields of a record: feature models and Q heads act on the
    last dimension (a batch is mapped row by row); [history_model inputs
    hidden] takes the sequence of input rows and the optional hidden state
    and returns the sequence of feature rows with the new hidden state. *)
Record Models : Type := {
  action_dim : nat;
  action_model : Z -> list R;
  observation_model : Obs -> list R;
  state_model : State -> list R;
  history_model : list (list R) -> option Hid -> list (list R) * Hid;
  qh_model : list R -> list R;
  qhs_model : list R -> list R
}.

Record Episode : Type := {
  states : list State;
  observations : list Obs;
  actions : list Z;
  rewards : list R;
  dones : list bool
}.

(** [compute_q_values], local to [POE_ADQN.episodic_loss]: first the part
    that ends with the assignment of [history_features], *)
Definition compute_history_features (models : Models)
    (acts : list Z) (obs : list Obs) : result (list (list R)) :=
  let action_features := map (action_model models) acts in
  let action_features := roll 1 action_features in
  let* action_features := zero_first_row action_features in
  let observation_features := map (observation_model models) obs in
  let* inputs := cat_last action_features observation_features in
  let '(history_features, _) := history_model models inputs None in
  Ok history_features.

(** then the whole function. *)
Definition compute_q_values (models : Models)
    (acts : list Z) (obs : list Obs) (sts : list State)
  : result (list (list R) * list (list R)) :=
  let* history_features := compute_history_features models acts obs in
  let qh_values := map (qh_model models) history_features in
  let state_features := map (state_model models) sts in
  let* inputs := cat_last history_features state_features in
  let qhs_values := map (qhs_model models) inputs in
  Ok (qh_values, qhs_values).

(** The two arguments of the final [F.mse_loss] call of [qhs_loss]. *)
Definition qhs_loss_terms (episode : Episode) (discount : R)
    (qh_values qhs_values target_qh_values target_qhs_values : list (list R))
  : result (list R * list R) :=
  let* qhs_values := gather_rows qhs_values (actions episode) in
  let* greedy := argmax_rows target_qh_values in
  let* selected := gather_rows target_qhs_values greedy in
  let* qhs_values_bootstrap := where0 (dones episode) (roll (-1) selected) in
  let* target :=
    broadcast2 add (rewards episode) (map (mul discount) qhs_values_bootstrap) in
  Ok (qhs_values, target).

Definition qhs_loss (episode : Episode) (discount : R)
    (qh_values qhs_values target_qh_values target_qhs_values : list (list R))
  : result R :=
  let* '(input, target) :=
    qhs_loss_terms episode discount
      qh_values qhs_values target_qh_values target_qhs_values in
  mse_loss input target.

(** The two arguments of the final [F.mse_loss] call of [qh_loss]. *)
Definition qh_loss_terms (episode : Episode) (discount : R)
    (qh_values qhs_values target_qh_values target_qhs_values : list (list R))
  : result (list R * list R) :=
  let* qh_values := gather_rows qh_values (actions episode) in
  let* greedy := argmax_rows target_qh_values in
  let* selected := gather_rows target_qhs_values greedy in
  let* qhs_values_bootstrap := where0 (dones episode) (roll (-1) selected) in
  let* target :=
    broadcast2 add (rewards episode) (map (mul discount) qhs_values_bootstrap) in
  Ok (qh_values, target).

Definition qh_loss (episode : Episode) (discount : R)
    (qh_values qhs_values target_qh_values target_qhs_values : list (list R))
  : result R :=
  let* '(input, target) :=
    qh_loss_terms episode discount
      qh_values qhs_values target_qh_values target_qhs_values in
  mse_loss input target.

(** Body of the [for episode in episodes] loop: the loss of one episode. *)
Definition episode_loss (models target_models : Models) (discount : R)
    (episode : Episode) : result R :=
  let* '(qh_values, qhs_values) :=
    compute_q_values models
      (actions episode) (observations episode) (states episode) in
  let* '(target_qh_values, target_qhs_values) :=
    compute_q_values target_models
      (actions episode) (observations episode) (states episode) in
  let* l1 := qhs_loss episode discount
               qh_values qhs_values target_qh_values target_qhs_values in
  let* l2 := qh_loss episode discount
               qh_values qhs_values target_qh_values target_qhs_values in
  Ok (div (add l1 l2) (of_nat 2)).

(** The loop itself, appending to [losses]. *)
Fixpoint episodic_loss_loop (models target_models : Models) (discount : R)
    (episodes : list Episode) (losses : list R) : result (list R) :=
  match episodes with
  | [] => Ok losses
  | episode :: rest =>
      let* loss := episode_loss models target_models discount episode in
      episodic_loss_loop models target_models discount rest (losses ++ [loss])
  end.

(** [POE_ADQN.episodic_loss] *)
Definition episodic_loss (models target_models : Models) (discount : R)
    (episodes : list Episode) : result R :=
  let* losses :=
    episodic_loss_loop models target_models discount episodes [] in
  Ok (div (sum_from zero losses) (of_nat (length losses))).

(** *** TargetPolicy *)

(** The mutable attributes of a [TargetPolicy].  [history_features] holds
    the feature rows returned by the history model: the two [squeeze(0)]
    calls drop the batch dimension and, when there is one row, the sequence
    dimension; [po_sample_action] flattens what is left. *)
Record TargetPolicy : Type := {
  history_features : option (list (list R));
  hidden : option Hid
}.

(** [TargetPolicy.__init__] *)
Definition TargetPolicy_init : TargetPolicy :=
  {| history_features := None; hidden := None |}.

(** [TargetPolicy._update] *)
Definition _update (models : Models) (self : TargetPolicy)
    (action_features observation_features : list R) : TargetPolicy :=
  let input_features := [action_features ++ observation_features] in
  let '(features, hid) := history_model models input_features (hidden self) in
  {| history_features := Some features; hidden := Some hid |}.

(** [TargetPolicy.reset] *)
Definition reset (models : Models) (self : TargetPolicy) (observation : Obs)
  : TargetPolicy :=
  let action_features := zeros (action_dim models) in
  let observation_features := observation_model models observation in
  _update models self action_features observation_features.

(** [TargetPolicy.step] *)
Definition step (models : Models) (self : TargetPolicy)
    (action : Z) (observation : Obs) : TargetPolicy :=
  let action_features := action_model models action in
  let observation_features := observation_model models observation in
  _update models self action_features observation_features.

(** [TargetPolicy.po_sample_action] *)
Definition po_sample_action (models : Models) (self : TargetPolicy)
  : result Z :=
  match history_features self with
  | None => Raise TypeError
  | Some features => argmax (concat (map (qh_model models) features))
  end.

End Algorithm.

Arguments Models R Obs State Hid : clear implicits.
Arguments Episode R Obs State : clear implicits.
Arguments TargetPolicy R Hid : clear implicits.

(** *** make_models *)

Section MakeModels.
(** Gym spaces and network modules; their classes and constructors are
    imported by [poe_adqn.py] from the rest of the package. *)
Context {Space Module : Type}.

(** [env.spec.id] is a [str]. *)
Record Env : Type := {
  spec_id : list Re.char;
  action_space : Space;
  action_space_n : Z;
  state_space : Space;
  observation_space : Space
}.

Record Representations : Type := {
  OneHotRepresentation : Space -> Module;
  IdentityRepresentation : Space -> Module;
  RNNHistoryRepresentation : Module -> Module -> Z -> string -> Module;
  dim : Module -> Z;
  make_module : string -> string -> Z -> Z -> Module;
  LeakyReLU : Module;
  Sequential : list Module -> Module
}.

(** [make_models_box2d]; an [nn.ModuleDict] is an ordered dictionary. *)
Definition make_models_box2d (lib : Representations) (env : Env)
  : list (string * Module) :=
  let action_model := OneHotRepresentation lib (action_space env) in
  let state_model := IdentityRepresentation lib (state_space env) in
  let observation_model :=
    IdentityRepresentation lib (observation_space env) in
  let history_model :=
    RNNHistoryRepresentation lib action_model observation_model 128 "tanh" in
  let qh_model :=
    Sequential lib
      [ make_module lib "linear" "leaky_relu" (dim lib history_model) 512;
        LeakyReLU lib;
        make_module lib "linear" "leaky_relu" 512 256;
        LeakyReLU lib;
        make_module lib "linear" "linear" 256 (action_space_n env) ] in
  let qhs_model :=
    Sequential lib
      [ make_module lib "linear" "leaky_relu"
          (dim lib history_model + dim lib state_model) 512;
        LeakyReLU lib;
        make_module lib "linear" "leaky_relu" 512 256;
        LeakyReLU lib;
        make_module lib "linear" "linear" 256 (action_space_n env) ] in
  [ ("action_model", action_model);
    ("observation_model", observation_model);
    ("state_model", state_model);
    ("history_model", history_model);
    ("qh_model", qh_model);
    ("qhs_model", qhs_model) ]%string.

(** The three patterns of [POE_ADQN.make_models]. *)
Definition pat_CartPole : Re.regex :=
  Re.Cat (Re.Lit (Re.literal "CartPole-v")) (Re.Plus Re.Digit).
Definition pat_Acrobot : Re.regex :=
  Re.Cat (Re.Lit (Re.literal "Acrobot-v")) (Re.Plus Re.Digit).
Definition pat_LunarLander : Re.regex :=
  Re.Cat (Re.Lit (Re.literal "LunarLander-v")) (Re.Plus Re.Digit).

(** [POE_ADQN.make_models]; [is_decimal] is the class [\d] of the
    interpreter. *)
Definition make_models (is_decimal : Re.char -> bool)
    (lib : Representations) (env : Env)
  : result (list (string * Module)) :=
  if Re.fullmatch is_decimal pat_CartPole (spec_id env)
     || Re.fullmatch is_decimal pat_Acrobot (spec_id env)
     || Re.fullmatch is_decimal pat_LunarLander (spec_id env)
  then Ok (make_models_box2d lib env)
  else Raise NotImplementedError.

End MakeModels.

Arguments Env Space : clear implicits.
Arguments Representations Space Module : clear implicits.

End PoeAdqn.

(** ** asym_rlpo/utils/config.py *)

Module Config.

(** Object identities. *)
Abbreviation ref := positive.

Section WithFloat.
(** The type of Python floats. *)
Variable F : Type.

(** [BasicType] *)
Inductive BasicType : Type :=
| VStr (s : string)
| VFloat (x : F)
| VInt (z : Z)
| VBool (b : bool)
| VNone.

(** The part of the interpreter state the module deals with: the [dict]
    objects, the [Config] objects (each holds a reference to its [_config]
    dictionary) and the module-level variable [_config]. *)
Record PyState : Type := {
  dicts : gmap ref (gmap string BasicType);
  configs : gmap ref ref;
  global_config : option ref
}.

(** Initial state of the module: nothing allocated, [_config = None]. *)
Definition module_init : PyState :=
  {| dicts := empty; configs := empty; global_config := None |}.

Definition new_ref (st : PyState) : ref :=
  fresh (dom (dicts st) ∪ dom (configs st)).

Definition alloc_dict (d : gmap string BasicType) (st : PyState)
  : ref * PyState :=
  let r := new_ref st in
  (r, {| dicts := <[r := d]> (dicts st);
         configs := configs st;
         global_config := global_config st |}).

Definition alloc_config (d : ref) (st : PyState) : ref * PyState :=
  let r := new_ref st in
  (r, {| dicts := dicts st;
         configs := <[r := d]> (configs st);
         global_config := global_config st |}).

(** Contents of the dictionary object [r]. *)
Definition dict_read (r : ref) (st : PyState)
  : result (gmap string BasicType) :=
  match dicts st !! r with
  | Some d => Ok d
  | None => Raise TypeError
  end.

(** Any in-place mutation of the dictionary object [r]:
    [f] maps the old contents to the new ones. *)
Definition dict_mutate (r : ref) (f : gmap string BasicType -> gmap string BasicType)
    (st : PyState) : result PyState :=
  let* d := dict_read r st in
  Ok {| dicts := <[r := f d]> (dicts st);
        configs := configs st;
        global_config := global_config st |}.

(** [self._config] *)
Definition self_config (self : ref) (st : PyState) : result ref :=
  match configs st !! self with
  | Some d => Ok d
  | None => Raise TypeError
  end.

(** [Config.__init__], with the allocation of the object. *)
Definition Config_new (st : PyState) : ref * PyState :=
  let '(d, st) := alloc_dict empty st in
  alloc_config d st.

(** [Config._clear] *)
Definition _clear (self : ref) (st : PyState) : result PyState :=
  let* d := self_config self st in
  dict_mutate d (fun _ => empty) st.

(** [Config._update]; [cd] is the dictionary object passed in. *)
Definition _update (self : ref) (cd : ref) (st : PyState) : result PyState :=
  let* d := self_config self st in
  let* new := dict_read cd st in
  dict_mutate d (fun old => new ∪ old) st.

(** [dict.get(name, default)] *)
Definition dict_get (d : gmap string BasicType) (name : string)
    (default : BasicType) : BasicType :=
  match d !! name with
  | Some v => v
  | None => default
  end.

(** [dict[name]] *)
Definition dict_getitem (d : gmap string BasicType) (name : string)
  : result BasicType :=
  match d !! name with
  | Some v => Ok v
  | None => Raise KeyError
  end.

(** [Config._get] *)
Definition _get (self : ref) (name : string) (default : BasicType)
    (st : PyState) : result BasicType :=
  let* d := self_config self st in
  let* m := dict_read d st in
  Ok (dict_get m name default).

(** [Config._as_dict] *)
Definition _as_dict (self : ref) (st : PyState) : result (ref * PyState) :=
  let* d := self_config self st in
  let* m := dict_read d st in
  Ok (alloc_dict m st).

(** [Config.__getattr__], the method itself.  Python calls it for an
    attribute access only when normal lookup does not find the name, so the
    names [_config], [_clear], [_update], [_get], [_as_dict] and the
    attributes of [object] never reach it. *)
Definition __getattr__ (self : ref) (name : string) (st : PyState)
  : result BasicType :=
  let* d := self_config self st in
  let* m := dict_read d st in
  dict_getitem m name.

(** [get_config] *)
Definition get_config (st : PyState) : ref * PyState :=
  match global_config st with
  | None =>
      let '(c, st) := Config_new st in
      (c, {| dicts := dicts st;
             configs := configs st;
             global_config := Some c |})
  | Some c => (c, st)
  end.

(** What a client of the module can do between two calls of [get_config]:
    call [get_config] or a method of a [Config], create a dictionary or
    mutate one. *)
Inductive call : Type :=
| CallGetConfig
| CallClear (self : ref)
| CallUpdate (self cd : ref)
| CallGet (self : ref) (name : string) (default : BasicType)
| CallAsDict (self : ref)
| CallGetattr (self : ref) (name : string)
| CallNewDict (d : gmap string BasicType)
| CallMutate (r : ref) (f : gmap string BasicType -> gmap string BasicType).

(** The state after a call; a call that raises leaves the state as it is. *)
Definition run_call (c : call) (st : PyState) : PyState :=
  match c with
  | CallGetConfig => snd (get_config st)
  | CallClear self =>
      match _clear self st with Ok st' => st' | Raise _ => st end
  | CallUpdate self cd =>
      match _update self cd st with Ok st' => st' | Raise _ => st end
  | CallGet _ _ _ => st
  | CallAsDict self =>
      match _as_dict self st with Ok (_, st') => st' | Raise _ => st end
  | CallGetattr _ _ => st
  | CallNewDict d => snd (alloc_dict d st)
  | CallMutate r f =>
      match dict_mutate r f st with Ok st' => st' | Raise _ => st end
  end.

Definition run_calls (cs : list call) (st : PyState) : PyState :=
  fold_left (fun st c => run_call c st) cs st.

End WithFloat.

Arguments VStr {F} s.
Arguments VFloat {F} x.
Arguments VInt {F} z.
Arguments VBool {F} b.
Arguments VNone {F}.
Arguments dicts {F} _.
Arguments configs {F} _.
Arguments global_config {F} _.
Arguments module_init {F}.
Arguments new_ref {F} st.
Arguments alloc_dict {F} d st.
Arguments alloc_config {F} d st.
Arguments dict_read {F} r st.
Arguments dict_mutate {F} r f st.
Arguments self_config {F} self st.
Arguments Config_new {F} st.
Arguments _clear {F} self st.
Arguments _update {F} self cd st.
Arguments dict_get {F} d name default.
Arguments dict_getitem {F} d name.
Arguments _get {F} self name default st.
Arguments _as_dict {F} self st.
Arguments __getattr__ {F} self name st.
Arguments get_config {F} st.
Arguments CallGetConfig {F}.
Arguments CallClear {F} self.
Arguments CallUpdate {F} self cd.
Arguments CallGet {F} self name default.
Arguments CallAsDict {F} self.
Arguments CallGetattr {F} self name.
Arguments CallNewDict {F} d.
Arguments CallMutate {F} r f.
Arguments run_call {F} c st.
Arguments run_calls {F} cs st.

End Config.

(** ** main_a2c.py: run state, checkpoints, control flow, training step *)

Module MainA2C.
Import Torch.
Import Config.

(** The classes [main_a2c.py] imports from the rest of the package. *)
Record World : Type := {
  Environment : Type;
  A2C : Type;
  StateDict : Type;
  DataLogger : Type;
  Timer : Type;
  InfiniteRunningAverage : Type;
  WindowRunningAverage : Type;
  Dispenser : Type;
  TimeDispenser : Type;
  TargetUpdater : Type;
  EpisodesFactory : Type;
  Device : Type;
  Q_Estimator : Type;
  Episode : Type;
  GradientNormDict : Type
}.

Section Main.
Context {R : Type} `{Scalar R} {W : World}.

(** [LossDict] *)
Abbreviation LossDict := (gmap string R).
(** The contents of the configuration dictionary. *)
Abbreviation ConfigDict := (gmap string (BasicType R)).

(** The functions and methods of those classes that the code below calls.
    [new_Dispenser n period] is the constructor [Dispenser(n, period)];
    [dispense d n] returns the answer of [d.dispense(n)] and the dispenser
    after the call. *)
Record Lib : Type := {
  state_dict : A2C W -> StateDict W;
  load_state_dict : A2C W -> StateDict W -> result (A2C W);
  new_Dispenser : Z -> Z -> Dispenser W;
  dispense : Dispenser W -> Z -> bool * Dispenser W;
  to_device : Episode W -> Device W -> Episode W;
  compute_losses : A2C W -> Episode W -> R -> Q_Estimator W -> result LossDict;
  gradient_step : A2C W -> gmap string R -> GradientNormDict W
}.

(** [XStats]: the counters read by [log_xstats]. *)
Record XStats : Type := {
  epoch : Z;
  simulation_episodes : Z;
  simulation_timesteps : Z;
  training_episodes : Z;
  training_timesteps : Z;
  optimizer_steps : Z
}.

Record Controlflow : Type := {
  log_data : bool;
  update_target_parameters : bool;
  evaluate : bool;
  save_modelseq : bool
}.

Record RunstateAverages : Type := {
  target : InfiniteRunningAverage W;
  behavior : InfiniteRunningAverage W;
  behavior100 : WindowRunningAverage W
}.

Record RunstateDispensers : Type := {
  target_update : Dispenser W;
  datalog : Dispenser W;
  checkpoint : TimeDispenser W
}.

Record RunstateEpisodesFactories : Type := {
  behavior_factory : EpisodesFactory W;
  evaluation_factory : EpisodesFactory W
}.

Record Runstate : Type := {
  env : Environment W;
  algo : A2C W;
  datalogger : DataLogger W;
  timer : Timer W;
  xstats : XStats;
  averages : RunstateAverages;
  dispensers : RunstateDispensers;
  target_updater : TargetUpdater W;
  episodes_factories : RunstateEpisodesFactories;
  device : Device W;
  negentropy_schedule : Z -> R;
  q_estimator : Q_Estimator W
}.

Record CheckpointMetadata : Type := {
  config : ConfigDict;
  wandb_run_id : string
}.

Record CheckpointData : Type := {
  algo_state_dict : StateDict W;
  cp_datalogger : DataLogger W;
  cp_timer : Timer W;
  cp_xstats : XStats;
  cp_averages : RunstateAverages;
  cp_dispensers : RunstateDispensers
}.

Record Checkpoint : Type := {
  metadata : CheckpointMetadata;
  data : CheckpointData
}.

(** *** Reading the configuration

    [config.name] is [Config.__getattr__] on the contents of the dictionary.
    Values have the types [parse_args] gives them; another type is a
    [TypeError] here. *)
Definition attr (cfg : ConfigDict) (name : string) : result (BasicType R) :=
  dict_getitem cfg name.

Definition as_int (v : BasicType R) : result Z :=
  match v with VInt z => Ok z | _ => Raise TypeError end.
Definition as_bool (v : BasicType R) : result bool :=
  match v with VBool b => Ok b | _ => Raise TypeError end.
Definition as_str (v : BasicType R) : result string :=
  match v with VStr s => Ok s | _ => Raise TypeError end.
Definition as_float (v : BasicType R) : result R :=
  match v with VFloat x => Ok x | _ => Raise TypeError end.

(** [a // b] and [a % b] on ints. *)
Definition floordiv (a b : Z) : result Z :=
  if decide (b = 0) then Raise ZeroDivisionError else Ok (a / b).
Definition pymod (a b : Z) : result Z :=
  if decide (b = 0) then Raise ZeroDivisionError else Ok (a mod b).

(** [losses[name]] *)
Definition dict_getitem_R (d : LossDict) (name : string) : result R :=
  match d !! name with
  | Some v => Ok v
  | None => Raise KeyError
  end.

(** *** make_runstate *)

(** The objects [make_runstate] obtains from constructors and factories of
    the package before it looks at the checkpoint; [fresh_checkpoint] is the
    [TimeDispenser] after its first dispense has been consumed. *)
Record Fresh : Type := {
  fresh_env : Environment W;
  fresh_algo : A2C W;
  fresh_device : Device W;
  fresh_datalogger : DataLogger W;
  fresh_timer : Timer W;
  fresh_xstats : XStats;
  fresh_averages : RunstateAverages;
  fresh_checkpoint : TimeDispenser W;
  fresh_episodes_factories : RunstateEpisodesFactories;
  fresh_negentropy_schedule : Z -> R;
  fresh_q_estimator : Q_Estimator W;
  fresh_target_updater : TargetUpdater W
}.

(** [make_target_update_dispenser], local to [make_runstate]. *)
Definition make_target_update_dispenser (lib : Lib) (cfg : ConfigDict)
  : result (Dispenser W) :=
  let* f := attr cfg "target_update_function" in
  let* f := as_str f in
  if String.eqb f "full" then
    let* p := attr cfg "target_update_full_period" in
    let* p := as_int p in
    Ok (new_Dispenser lib 0 p)
  else
    let* f := attr cfg "target_update_function" in
    let* f := as_str f in
    if String.eqb f "polyak" then Ok (new_Dispenser lib 0 0)
    else Raise AssertionError.

Definition make_runstate (lib : Lib) (cfg : ConfigDict) (fresh : Fresh)
    (checkpoint : option Checkpoint) : result Runstate :=
  let algo := fresh_algo fresh in
  let datalogger := fresh_datalogger fresh in
  let timer := fresh_timer fresh in
  let xstats := fresh_xstats fresh in
  let averages := fresh_averages fresh in
  let* m := attr cfg "max_simulation_timesteps" in
  let* m := as_int m in
  let* n := attr cfg "num_data_logs" in
  let* n := as_int n in
  let* datalog_period := floordiv m n in
  let* tu := make_target_update_dispenser lib cfg in
  let dispensers :=
    {| target_update := tu;
       datalog := new_Dispenser lib 0 datalog_period;
       checkpoint := fresh_checkpoint fresh |} in
  let* '(algo, datalogger, timer, xstats, averages, dispensers) :=
    match checkpoint with
    | Some checkpoint =>
        let* algo := load_state_dict lib algo
                       (algo_state_dict (data checkpoint)) in
        Ok (algo,
            cp_datalogger (data checkpoint),
            cp_timer (data checkpoint),
            cp_xstats (data checkpoint),
            cp_averages (data checkpoint),
            cp_dispensers (data checkpoint))
    | None => Ok (algo, datalogger, timer, xstats, averages, dispensers)
    end in
  Ok {| env := fresh_env fresh;
        algo := algo;
        datalogger := datalogger;
        timer := timer;
        xstats := xstats;
        averages := averages;
        dispensers := dispensers;
        target_updater := fresh_target_updater fresh;
        episodes_factories := fresh_episodes_factories fresh;
        device := fresh_device fresh;
        negentropy_schedule := fresh_negentropy_schedule fresh;
        q_estimator := fresh_q_estimator fresh |}.

(** *** make_checkpoint *)

Definition make_checkpoint (lib : Lib) (cfg : ConfigDict) (runstate : Runstate)
  : result Checkpoint :=
  let config_copy := cfg in
  let* id := attr cfg "wandb_run_id" in
  let* id := as_str id in
  Ok {| metadata := {| config := config_copy; wandb_run_id := id |};
        data := {| algo_state_dict := state_dict lib (algo runstate);
                   cp_datalogger := datalogger runstate;
                   cp_timer := timer runstate;
                   cp_xstats := xstats runstate;
                   cp_averages := averages runstate;
                   cp_dispensers := dispensers runstate |} |}.

(** *** update_controlflow and run_epoch *)

Definition with_dispensers (runstate : Runstate) (d : RunstateDispensers)
  : Runstate :=
  {| env := env runstate;
     algo := algo runstate;
     datalogger := datalogger runstate;
     timer := timer runstate;
     xstats := xstats runstate;
     averages := averages runstate;
     dispensers := d;
     target_updater := target_updater runstate;
     episodes_factories := episodes_factories runstate;
     device := device runstate;
     negentropy_schedule := negentropy_schedule runstate;
     q_estimator := q_estimator runstate |}.

(** [update_controlflow]: the two [dispense] calls change the dispensers of
    the run state; the four fields of [controlflow] are assigned. *)
Definition update_controlflow (lib : Lib) (cfg : ConfigDict)
    (runstate : Runstate) : result (Runstate * Controlflow) :=
  let '(log_data, datalog') :=
    dispense lib (datalog (dispensers runstate))
      (simulation_timesteps (xstats runstate)) in
  let '(update_target, target_update') :=
    dispense lib (target_update (dispensers runstate))
      (simulation_timesteps (xstats runstate)) in
  let runstate :=
    with_dispensers runstate
      {| target_update := target_update';
         datalog := datalog';
         checkpoint := checkpoint (dispensers runstate) |} in
  let* period := attr cfg "evaluation_period" in
  let* period := as_int period in
  let* r := pymod (epoch (xstats runstate)) period in
  let evaluate := Z.eqb r 0 in
  let* evaluate_flag :=
    if evaluate then let* e := attr cfg "evaluation" in as_bool e
    else Ok false in
  let* save_modelseq_flag :=
    if log_data then let* e := attr cfg "save_modelseq" in as_bool e
    else Ok false in
  Ok (runstate,
      {| log_data := log_data;
         update_target_parameters := update_target;
         evaluate := evaluate_flag;
         save_modelseq := save_modelseq_flag |}).

(** The calls [run_epoch] makes, in order. *)
Inductive action : Type :=
| Do_log_xstats
| Do_run_evaluation
| Do_run_simulation (controlflow : Controlflow)
| Do_target_updater
| Do_run_training (controlflow : Controlflow)
| Do_save_modelseq
| Do_update_xstats_epoch
| Do_datalogger_commit.

#[export] Instance Controlflow_eq_dec : EqDecision Controlflow.
Proof. solve_decision. Defined.
#[export] Instance action_eq_dec : EqDecision action.
Proof. solve_decision. Defined.

(** [run_epoch], as the run state after [update_controlflow] and the list
    of the calls made. *)
Definition run_epoch (lib : Lib) (cfg : ConfigDict) (runstate : Runstate)
  : result (Runstate * list action) :=
  let* '(runstate, controlflow) := update_controlflow lib cfg runstate in
  let trace := [] in
  let trace :=
    if log_data controlflow then trace ++ [Do_log_xstats] else trace in
  let trace :=
    if evaluate controlflow then trace ++ [Do_run_evaluation] else trace in
  let trace := trace ++ [Do_run_simulation controlflow] in
  let trace :=
    if update_target_parameters controlflow
    then trace ++ [Do_target_updater] else trace in
  let trace := trace ++ [Do_run_training controlflow] in
  let trace :=
    if save_modelseq controlflow then trace ++ [Do_save_modelseq] else trace in
  let trace := trace ++ [Do_update_xstats_epoch] in
  let trace :=
    if log_data controlflow then trace ++ [Do_datalogger_commit] else trace in
  Ok (runstate, trace).

(** *** run_training *)

(** The values of key [k] in a list of loss dictionaries. *)
Definition column (k : string) (losses : list LossDict) : list R :=
  omap (fun l : LossDict => l !! k) losses.

(** Modelled from the spec: [average_losses] of [asym_rlpo.utils.aggregate]
    is not part of the files at hand.  It returns, for each key of the loss
    dictionaries, the average over the episodes of the losses under that
    key. *)
Definition average_losses (losses : list LossDict) : result LossDict :=
  match losses with
  | [] => Raise IndexError
  | first :: _ =>
      if decide (Forall (fun l : LossDict => dom l = dom first) losses)
      then Ok (map_imap (fun k _ => Some (mean (column k losses))) first)
      else Raise KeyError
  end.

Record TrainingData : Type := {
  negentropy_weight : R;
  losses : LossDict;
  gradient_norms : GradientNormDict W
}.

(** [run_training], up to the gradient step: the objectives handed to
    [gradient_step] and the [TrainingData] that is logged when
    [controlflow.log_data] is set. *)
Definition run_training (lib : Lib) (cfg : ConfigDict) (runstate : Runstate)
    (episodes : list (Episode W)) : result (gmap string R * TrainingData) :=
  let episodes :=
    map (fun episode => to_device lib episode (device runstate)) episodes in
  let* per_episode :=
    mapR (fun episode =>
            let* discount := attr cfg "training_discount" in
            let* discount := as_float discount in
            compute_losses lib (algo runstate) episode discount
              (q_estimator runstate))
         episodes in
  let* losses := average_losses per_episode in
  let negentropy_weight :=
    negentropy_schedule runstate (simulation_timesteps (xstats runstate)) in
  let* policy := dict_getitem_R losses "policy" in
  let* negentropy := dict_getitem_R losses "negentropy" in
  let* critic := dict_getitem_R losses "critic" in
  let objectives : gmap string R :=
    <["critic" := critic]>
      (<["actor" := add policy (mul negentropy_weight negentropy)]> empty) in
  let gradient_norms := gradient_step lib (algo runstate) objectives in
  Ok (objectives,
      {| negentropy_weight := negentropy_weight;
         losses := losses;
         gradient_norms := gradient_norms |}).

End Main.

Arguments Lib R W : clear implicits.
Arguments RunstateAverages W : clear implicits.
Arguments RunstateDispensers W : clear implicits.
Arguments RunstateEpisodesFactories W : clear implicits.
Arguments Runstate R W : clear implicits.
Arguments CheckpointMetadata R : clear implicits.
Arguments CheckpointData W : clear implicits.
Arguments Checkpoint R W : clear implicits.
Arguments Fresh R W : clear implicits.
Arguments TrainingData R W : clear implicits.

End MainA2C.

(** ** Reference definitions, in the words of the specification *)

Module Spec.

Section Ids.
(** The digits: the characters that [\d] matches, which for a [str] are the
    Unicode decimal digits. *)
Variable is_decimal : Re.char -> bool.

(** [id] is [name], then [-v], then one or more digits, and nothing else. *)
Definition versioned (name : string) (id : list Re.char) : Prop :=
  exists v : list Re.char,
    id = Re.literal name ++ Re.literal "-v" ++ v /\
    v <> [] /\
    Forall (fun c => is_decimal c = true) v.

(** The environment ids for which box2d models exist. *)
Definition box2d_id (id : list Re.char) : Prop :=
  versioned "CartPole" id \/ versioned "Acrobot" id \/
  versioned "LunarLander" id.

End Ids.

Section TD.
Import Torch.
Context {R : Type} `{Scalar R}.

(** A 2-d tensor of [T] rows and [n] columns. *)
Definition has_shape {A} (T n : nat) (t : list (list A)) : bool :=
  Nat.eqb (length t) T && forallb (fun row => Nat.eqb (length row) n) t.

(** Actions of a discrete action space of size [n]. *)
Definition actions_in_range (n : nat) (acts : list Z) : bool :=
  forallb (fun a => (0 <=? a) && (a <? Z.of_nat n)) acts.

(** The target network's qhs value at timestep [t], at the action that
    maximises the target network's qh values at timestep [t]. *)
Definition greedy_value (target_qh target_qhs : list (list R)) (t : nat)
  : result R :=
  match target_qh !! t, target_qhs !! t with
  | Some qh_row, Some qhs_row =>
      let* a := argmax qh_row in gather_at qhs_row a
  | _, _ => Raise IndexError
  end.

(** [bootstrap[t]]: 0 when [dones[t]], else the greedy value at [t+1]. *)
Definition td_bootstrap (dones : list bool)
    (target_qh target_qhs : list (list R)) (t : nat) : result R :=
  match dones !! t with
  | Some true => Ok zero
  | Some false => greedy_value target_qh target_qhs (S t)
  | None => Raise IndexError
  end.

(** [rewards[t] + discount * bootstrap[t]] *)
Definition td_target (rewards : list R) (discount : R) (dones : list bool)
    (target_qh target_qhs : list (list R)) (t : nat) : result R :=
  match rewards !! t with
  | Some r =>
      let* b := td_bootstrap dones target_qh target_qhs t in
      Ok (add r (mul discount b))
  | None => Raise IndexError
  end.

(** Mean squared error of two vectors of the same length. *)
Definition mean_squared_error (input target : list R) : R :=
  mean (zip_with (fun x y => mul (sub x y) (sub x y)) input target).

(** The target both heads are regressed to: the target network's qhs value
    at the argmax action of its qh values, rolled back one step, zeroed on
    done steps, discounted and added to the rewards. *)
Definition dual_head_target (rewards : list R) (dones : list bool)
    (discount : R) (target_qh target_qhs : list (list R)) : result (list R) :=
  let* greedy := argmax_rows target_qh in
  let* selected := gather_rows target_qhs greedy in
  let* bootstrap := where0 dones (roll (-1) selected) in
  broadcast2 add rewards (map (mul discount) bootstrap).

End TD.

Section Runs.
Import Torch PoeAdqn.
Context {R : Type} `{Scalar R} {Obs State Hid : Type}.

(** What happens between an environment and a policy during one run: the
    environment starts in a state and emits an observation; then, again and
    again, an action is taken, the environment moves to a state and emits
    an observation. *)
Record Interaction : Type := {
  first_state : State;
  first_observation : Obs;
  transitions : list (Z * State * Obs)
}.

(** The actions and observations of a run. *)
Definition visible (i : Interaction) : Obs * list (Z * Obs) :=
  (first_observation i, map (fun '(a, _, o) => (a, o)) (transitions i)).

(** One reset followed by a sequence of step calls: the policy is handed
    the observations and the actions. *)
Definition run_policy (models : Models R Obs State Hid)
    (policy : TargetPolicy R Hid) (i : Interaction) : TargetPolicy R Hid :=
  fold_left (fun policy '(a, _, o) => step models policy a o)
    (transitions i) (reset models policy (first_observation i)).

(** The input row of the history model for an action and the observation
    that follows it. *)
Definition policy_input (models : Models R Obs State Hid) (a : Z) (o : Obs)
  : list R :=
  action_model models a ++ observation_model models o.

(** The policy after each step call along an episode. *)
Fixpoint run_steps (models : Models R Obs State Hid)
    (policy : TargetPolicy R Hid) (acts : list Z) (obs : list Obs)
  : list (TargetPolicy R Hid) :=
  match acts, obs with
  | a :: acts', o :: obs' =>
      let policy := step models policy a o in
      policy :: run_steps models policy acts' obs'
  | _, _ => []
  end.

(** Acting along an episode: reset on the first observation, then step on
    each later observation with the action taken before it; the list of
    the policy after each call. *)
Definition run_episode (models : Models R Obs State Hid)
    (policy : TargetPolicy R Hid) (acts : list Z) (obs : list Obs)
  : list (TargetPolicy R Hid) :=
  match obs with
  | [] => []
  | o :: obs' =>
      let policy := reset models policy o in
      policy :: run_steps models policy acts obs'
  end.

(** The batched history features of an episode are, timestep by timestep,
    the history features of the policy run along the episode. *)
Definition batch_agrees_with_run (models : Models R Obs State Hid)
    (policy : TargetPolicy R Hid) (acts : list Z) (obs : list Obs) : Prop :=
  exists features,
    compute_history_features models acts obs = Ok features /\
    map history_features (run_episode models policy acts obs) =
    map (fun row => Some [row]) features.

(** A history model is recurrent when feeding a sequence at once is the
    same as feeding its first element and then the rest from the hidden
    state reached, and one input gives one feature row. *)
Definition recurrent
    (hm : list (list R) -> option Hid -> list (list R) * Hid) : Prop :=
  (forall x xs h,
     hm (x :: xs) h =
       let '(f, h1) := hm [x] h in
       let '(fs, h2) := hm xs (Some h1) in (f ++ fs, h2)) /\
  (forall x h, length (fst (hm [x] h)) = 1%nat) /\
  (forall h, hm [] (Some h) = ([], h)).

(** The first component of a result. *)
Definition result_fst {A B} (m : result (A * B)) : result A :=
  let* '(a, _) := m in Ok a.

End Runs.

Arguments Interaction Obs State : clear implicits.

End Spec.

(** ** Small concrete instances *)

Module Examples.
Import Torch PoeAdqn.

(** A recurrent history model on integers: the hidden state is the running
    sum of the inputs, the feature row is the hidden state and its double. *)
Fixpoint sum_rnn (inputs : list (list Z)) (h : Z) : list (list Z) * Z :=
  match inputs with
  | [] => ([], h)
  | x :: inputs' =>
      let h' := h + fold_right Z.add 0 x in
      let '(fs, h'') := sum_rnn inputs' h' in
      ([h'; 2 * h'] :: fs, h'')
  end.

Definition one_hot2 (a : Z) : list Z :=
  [if a =? 0 then 1 else 0; if a =? 1 then 1 else 0].

Definition toy_models (k : Z) : Models Z Z Z Z :=
  {| action_dim := 2;
     action_model := one_hot2;
     observation_model := fun o => [o];
     state_model := fun s => [s];
     history_model := fun inputs hidden => sum_rnn inputs (default 0 hidden);
     qh_model := fun f => [fold_right Z.add 0 f; k - fold_right Z.add 0 f];
     qhs_model := fun f => [k + fold_right Z.add 0 f; fold_right Z.mul 1 f] |}.

Definition toy_episode : Episode Z Z Z :=
  {| states := [10; 11; 12];
     observations := [1; 2; 3];
     actions := [0; 1; 0];
     rewards := [1; 0; 5];
     dones := [false; false; true] |}.

Definition short_episode : Episode Z Z Z :=
  {| states := [7];
     observations := [4];
     actions := [1];
     rewards := [2];
     dones := [true] |}.

(** The Q values of [toy_episode] under [toy_models 5] (online) and
    [toy_models 7] (target). *)
Definition toy_qh : list (list Z) := [[3; 2]; [12; -7]; [24; -19]].
Definition toy_qhs : list (list Z) := [[18; 20]; [28; 352]; [41; 1536]].
Definition toy_target_qh : list (list Z) := [[3; 4]; [12; -5]; [24; -17]].
Definition toy_target_qhs : list (list Z) := [[20; 20]; [30; 352]; [43; 1536]].

(** Two runs with the same actions and observations and different
    environment states. *)
Definition toy_run_a : Spec.Interaction Z Z :=
  {| Spec.first_state := 10;
     Spec.first_observation := 1;
     Spec.transitions := [(0, 11, 2); (1, 12, 3)] |}.

Definition toy_run_b : Spec.Interaction Z Z :=
  {| Spec.first_state := -4;
     Spec.first_observation := 1;
     Spec.transitions := [(0, 0, 2); (1, 250, 3)] |}.

(** A policy that has been through a one-step episode with observation 1. *)
Definition used_policy : TargetPolicy Z Z :=
  reset (toy_models 5) TargetPolicy_init 1.

(** The configuration module after [get_config()] and an update with the
    dictionary [{'env': 'CartPole-v1', 'seed': 3}]. *)
Definition toy_config_state : Config.ref * Config.PyState Z :=
  let '(c, st) := Config.get_config Config.module_init in
  let '(cd, st) :=
    Config.alloc_dict
      (<["env" := Config.VStr "CartPole-v1"]>
         (<["seed" := Config.VInt 3]> empty)) st in
  match Config._update c cd st with
  | Ok st => (c, st)
  | Raise _ => (c, st)
  end.

(** The copy returned by [_as_dict] in that state, and the state after. *)
Definition toy_config_copy : Config.ref * Config.PyState Z :=
  match Config._as_dict (fst toy_config_state) (snd toy_config_state) with
  | Ok r => r
  | Raise _ => (1%positive, snd toy_config_state)
  end.

(** A world in which every object is a number. *)
Definition toy_world : MainA2C.World :=
  {| MainA2C.Environment := Z;
     MainA2C.A2C := Z;
     MainA2C.StateDict := Z;
     MainA2C.DataLogger := Z;
     MainA2C.Timer := Z;
     MainA2C.InfiniteRunningAverage := Z;
     MainA2C.WindowRunningAverage := Z;
     MainA2C.Dispenser := Z * Z;
     MainA2C.TimeDispenser := Z;
     MainA2C.TargetUpdater := Z;
     MainA2C.EpisodesFactory := Z;
     MainA2C.Device := Z;
     MainA2C.Q_Estimator := Z;
     MainA2C.Episode := Q;
     MainA2C.GradientNormDict := unit |}.

(** The state dict of an algorithm is its number; a dispenser [(n, period)]
    dispenses from [n] on and then waits for [period]; the losses of an
    episode are made of its number and the discount. *)
Definition toy_lib : MainA2C.Lib Q toy_world :=
  @MainA2C.Build_Lib Q toy_world
    (* state_dict *) (fun a : Z => a)
    (* load_state_dict *) (fun (_ : Z) (sd : Z) => Ok sd)
    (* new_Dispenser *) (fun n period : Z => (n, period))
    (* dispense *)
    (fun (d : Z * Z) (n : Z) =>
       if fst d <=? n then (true, (n + snd d, snd d)) else (false, d))
    (* to_device *) (fun (e : Q) (_ : Z) => e)
    (* compute_losses *)
    (fun (_ : Z) (e : Q) (discount : Q) (_ : Z) =>
       Ok (<["policy" := e]>
             (<["negentropy" := discount]> (<["critic" := 1%Q]> empty))))
    (* gradient_step *) (fun _ _ => tt).

Definition toy_cfg : gmap string (Config.BasicType Q) :=
  list_to_map
    [ ("wandb_run_id", Config.VStr "run-1");
      ("max_simulation_timesteps", Config.VInt 2000000);
      ("num_data_logs", Config.VInt 200);
      ("target_update_function", Config.VStr "full");
      ("target_update_full_period", Config.VInt 10000);
      ("evaluation", Config.VBool true);
      ("evaluation_period", Config.VInt 10);
      ("save_modelseq", Config.VBool false);
      ("training_discount", Config.VFloat (99 # 100)) ]%string.

Definition toy_xstats (e t : Z) : MainA2C.XStats :=
  {| MainA2C.epoch := e;
     MainA2C.simulation_episodes := e;
     MainA2C.simulation_timesteps := t;
     MainA2C.training_episodes := e;
     MainA2C.training_timesteps := t;
     MainA2C.optimizer_steps := e |}.

Definition toy_averages (a : Z) : MainA2C.RunstateAverages toy_world :=
  @MainA2C.Build_RunstateAverages toy_world a a a.

Definition toy_factories : MainA2C.RunstateEpisodesFactories toy_world :=
  @MainA2C.Build_RunstateEpisodesFactories toy_world 1 2.

Definition toy_fresh : MainA2C.Fresh Q toy_world :=
  @MainA2C.Build_Fresh Q toy_world
    (* env *) 1 (* algo *) 0 (* device *) 0 (* datalogger *) 0 (* timer *) 0
    (toy_xstats 0 0) (toy_averages 0) (* checkpoint dispenser *) 0
    toy_factories (* negentropy_schedule *) (fun t => inject_Z t)
    (* q_estimator *) 0 (* target_updater *) 0.

(** A run state in its 30th epoch, after 12000 timesteps. *)
Definition toy_runstate : MainA2C.Runstate Q toy_world :=
  @MainA2C.Build_Runstate Q toy_world
    (* env *) 1 (* algo *) 42 (* datalogger *) 7 (* timer *) 8
    (toy_xstats 30 12000) (toy_averages 9)
    (@MainA2C.Build_RunstateDispensers toy_world
       (* target_update *) (20000, 10000)
       (* datalog *) (10000, 10000)
       (* checkpoint *) 5)
    (* target_updater *) 0 toy_factories (* device *) 0
    (* negentropy_schedule *) (fun t => inject_Z t) (* q_estimator *) 0.

(** Two episodes and their loss dictionaries under [toy_lib] with the
    discount of [toy_cfg]. *)
Definition toy_episodes : list Q := [1 # 2; 3 # 2].

Definition toy_losses (e : Q) : gmap string Q :=
  <["policy" := e]>
    (<["negentropy" := 99 # 100]> (<["critic" := 1%Q]> empty)).

Definition toy_per : list (gmap string Q) :=
  [toy_losses (1 # 2); toy_losses (3 # 2)].

Definition loss_keys : gset string :=
  {[ "policy"; "negentropy"; "critic" ]}.

End Examples.

(** ** asym_rlpo/algorithms/poe_adqn.py: BehaviorPolicy *)

Module Behavior.
Import Torch PoeAdqn.

(** What a call returns: a value, an exception of [exn], or the
    [AttributeError] of reading an attribute that was never assigned. *)
Inductive outcome (A : Type) : Type :=
| Returns (a : A)
| Raises (e : exn)
| AttributeError.
Arguments Returns {A} a.
Arguments Raises {A} e.
Arguments AttributeError {A}.

Definition of_result {A} (m : result A) : outcome A :=
  match m with
  | Ok a => Returns a
  | Raise e => Raises e
  end.

Section Policy.
Context {R : Type} `{Scalar R} {Obs State Hid : Type}.
(** [x < y] on Python floats. *)
Variable lt : R -> R -> bool.

(** The attributes of a [BehaviorPolicy].  [__init__] only annotates
    [epsilon]: the attribute exists if the constructor of the base class
    (defined outside this file) or the user of the policy has assigned it.
    [action_space] is used for [sample()] alone, whose result is an
    argument of [po_sample_action] below. *)
Record BehaviorPolicy : Type := {
  target_policy : TargetPolicy R Hid;
  epsilon : option R
}.

(** [BehaviorPolicy.__init__]; [base_epsilon] is the attribute as the
    constructor of the base class leaves it. *)
Definition BehaviorPolicy_init (base_epsilon : option R) : BehaviorPolicy :=
  {| target_policy := TargetPolicy_init; epsilon := base_epsilon |}.

(** The assignment [policy.epsilon = eps]. *)
Definition set_epsilon (self : BehaviorPolicy) (eps : R) : BehaviorPolicy :=
  {| target_policy := target_policy self; epsilon := Some eps |}.

(** [BehaviorPolicy.reset] *)
Definition reset (models : Models R Obs State Hid) (self : BehaviorPolicy)
    (observation : Obs) : BehaviorPolicy :=
  {| target_policy := PoeAdqn.reset models (target_policy self) observation;
     epsilon := epsilon self |}.

(** [BehaviorPolicy.step] *)
Definition step (models : Models R Obs State Hid) (self : BehaviorPolicy)
    (action : Z) (observation : Obs) : BehaviorPolicy :=
  {| target_policy :=
       PoeAdqn.step models (target_policy self) action observation;
     epsilon := epsilon self |}.

(** [BehaviorPolicy.po_sample_action]; [u] is the value of
    [random.random()] and [sample] the value [action_space.sample()]
    returns if it is called. *)
Definition po_sample_action (models : Models R Obs State Hid)
    (self : BehaviorPolicy) (u : R) (sample : Z) : outcome Z :=
  match epsilon self with
  | None => AttributeError
  | Some eps =>
      if lt u eps then Returns sample
      else of_result (PoeAdqn.po_sample_action models (target_policy self))
  end.

(** The calls of the policy interface. *)
Inductive call : Type :=
| Reset (observation : Obs)
| Step (action : Z) (observation : Obs).

Definition run_call (models : Models R Obs State Hid)
    (self : BehaviorPolicy) (c : call) : BehaviorPolicy :=
  match c with
  | Reset o => reset models self o
  | Step a o => step models self a o
  end.

Definition run_target_call (models : Models R Obs State Hid)
    (self : TargetPolicy R Hid) (c : call) : TargetPolicy R Hid :=
  match c with
  | Reset o => PoeAdqn.reset models self o
  | Step a o => PoeAdqn.step models self a o
  end.

End Policy.

Arguments BehaviorPolicy R Hid : clear implicits.
Arguments call Obs : clear implicits.

End Behavior.

(** ** Further reference definitions *)

Module Spec2.

Section Values.
Import Torch.
Context {R : Type} `{Scalar R}.

(** The value of a 2-d tensor at row [t] and column [a], as [gather]
    reads it. *)
Definition taken_value (values : list (list R)) (t : nat) (a : Z)
  : result R :=
  match values !! t with
  | Some row => gather_at row a
  | None => Raise RuntimeError
  end.

(** [gt] is a strict weak order. *)
Definition strict_weak_order (gt : R -> R -> bool) : Prop :=
  (forall x, gt x x = false) /\
  (forall x y z, gt x y = true -> gt y z = true -> gt x z = true) /\
  (forall x y z, gt x y = true -> gt x z = true \/ gt z y = true).

End Values.

(** [a] occurs before [b] in [l]. *)
Definition before {A} (a b : A) (l : list A) : Prop :=
  exists i j, (i < j)%nat /\ l !! i = Some a /\ l !! j = Some b.

Section Store.
Import Config.
Context {F : Type}.

(** Every [Config] object refers to a dictionary of the store and the
    module variable, when set, refers to a [Config] object. *)
Definition store_ok (st : PyState F) : Prop :=
  (forall c d, configs st !! c = Some d -> is_Some (dicts st !! d)) /\
  (forall c, global_config st = Some c -> is_Some (configs st !! c)).

(** The dictionary [d] holds [m] and no [Config] refers to it. *)
Definition untouched (d : ref) (m : gmap string (BasicType F))
    (st : PyState F) : Prop :=
  store_ok st /\ (forall c, configs st !! c <> Some d) /\
  dicts st !! d = Some m.

End Store.

End Spec2.

(** ** Further concrete instances *)

Module Examples2.
Import Torch PoeAdqn.

(** An episode cut off by the time limit: its last [dones] entry is
    false. *)
Definition truncated_episode : Episode Z Z Z :=
  {| states := [10; 11; 12];
     observations := [1; 2; 3];
     actions := [0; 1; 0];
     rewards := [1; 0; 5];
     dones := [false; false; false] |}.

(** An episode with an action outside the action space of size 2. *)
Definition bad_action_episode : Episode Z Z Z :=
  {| states := [10; 11; 12];
     observations := [1; 2; 3];
     actions := [0; 2; 0];
     rewards := [1; 0; 5];
     dones := [false; false; true] |}.

(** An episode without timesteps. *)
Definition empty_episode : Episode Z Z Z :=
  {| states := [];
     observations := [];
     actions := [];
     rewards := [];
     dones := [] |}.

(** A dictionary [{'seed': 4, 'device': 'cpu'}] allocated in the state of
    [Examples.toy_config_state], and that state after [_update] with it. *)
Definition toy_source : Config.ref * Config.PyState Z :=
  Config.alloc_dict
    (<["seed" := Config.VInt 4]> (<["device" := Config.VStr "cpu"]> empty))
    (snd Examples.toy_config_state).

Definition toy_updated : Config.PyState Z :=
  match Config._update (fst Examples.toy_config_state) (fst toy_source)
          (snd toy_source) with
  | Ok st => st
  | Raise _ => snd toy_source
  end.

Definition toy_cleared : Config.PyState Z :=
  match Config._clear (fst Examples.toy_config_state)
          (snd Examples.toy_config_state) with
  | Ok st => st
  | Raise _ => snd Examples.toy_config_state
  end.

(** [toy_updated] after the dictionary passed to [_update] has been
    emptied. *)
Definition toy_source_emptied : Config.PyState Z :=
  match Config.dict_mutate (fst toy_source) (fun _ => empty) toy_updated with
  | Ok st => st
  | Raise _ => toy_updated
  end.

(** The calls that lead from the initial state of the module to the state
    of [Examples.toy_config_state]. *)
Definition toy_config_calls : list (Config.call Z) :=
  [ Config.CallGetConfig;
    Config.CallNewDict
      (<["env" := Config.VStr "CartPole-v1"]>
         (<["seed" := Config.VInt 3]> empty));
    Config.CallUpdate 2 3 ].


(** Two checkpoints with the same data, saved under different
    configurations and run ids. *)
Definition toy_checkpoint_data : MainA2C.CheckpointData Examples.toy_world :=
  @MainA2C.Build_CheckpointData Examples.toy_world
    42 7 8 (Examples.toy_xstats 30 12000) (Examples.toy_averages 9)
    (MainA2C.dispensers Examples.toy_runstate).

Definition toy_checkpoint_a : MainA2C.Checkpoint Q Examples.toy_world :=
  @MainA2C.Build_Checkpoint Q Examples.toy_world
    (@MainA2C.Build_CheckpointMetadata Q Examples.toy_cfg "run-1")
    toy_checkpoint_data.

Definition toy_checkpoint_b : MainA2C.Checkpoint Q Examples.toy_world :=
  @MainA2C.Build_Checkpoint Q Examples.toy_world
    (@MainA2C.Build_CheckpointMetadata Q empty "run-2")
    toy_checkpoint_data.

(** The decimal digits of three scripts, a part of the class [\d]:
    U+0030 .. U+0039 (Basic Latin), U+0660 .. U+0669 (Arabic-Indic) and
    U+FF10 .. U+FF19 (Fullwidth). *)
Definition three_scripts (c : Re.char) : bool :=
  ((48 <=? c) && (c <=? 57) || (1632 <=? c) && (c <=? 1641)
   || (65296 <=? c) && (c <=? 65305))%N.

(** An environment with the given id. *)
Definition env_with_id (id : list Re.char) : PoeAdqn.Env unit :=
  {| PoeAdqn.spec_id := id;
     PoeAdqn.action_space := tt;
     PoeAdqn.action_space_n := 2;
     PoeAdqn.state_space := tt;
     PoeAdqn.observation_space := tt |}.

End Examples2.

(** * Properties *)

(** ** The error monad *)

Lemma bind_Ok {A B} (m : result A) (f : A -> result B) (b : B) :
  bind m f = Ok b <-> exists a, m = Ok a /\ f a = Ok b.
Proof.
  destruct m as [a|e]; simpl.
  - split; [eauto | intros (a' & [= ->] & Hf); exact Hf].
  - split; [discriminate | intros (a' & [=] & _)].
Qed.

Lemma mapR_length {A B} (f : A -> result B) xs ys :
  mapR f xs = Ok ys -> length ys = length xs.
Proof.
  revert ys; induction xs as [|x xs IH]; intros ys; simpl.
  - intros [= <-]; reflexivity.
  - destruct (f x) as [y|]; simpl; [|discriminate].
    destruct (mapR f xs) as [ys'|]; simpl; [|discriminate].
    intros [= <-]; simpl; f_equal; auto.
Qed.

Lemma mapR_lookup {A B} (f : A -> result B) xs ys i x :
  mapR f xs = Ok ys -> xs !! i = Some x ->
  exists y, ys !! i = Some y /\ f x = Ok y.
Proof.
  revert ys i; induction xs as [|x0 xs IH]; intros ys i; simpl.
  - intros _ Hx; discriminate.
  - destruct (f x0) as [y0|] eqn:E0; simpl; [|discriminate].
    destruct (mapR f xs) as [ys'|] eqn:E; simpl; [|discriminate].
    intros [= <-]; destruct i as [|i]; simpl.
    + intros [= <-]; eauto.
    + intros Hx; eapply IH; eauto.
Qed.

Lemma mapR_total {A B} (f : A -> result B) xs :
  Forall (fun x => exists y, f x = Ok y) xs -> exists ys, mapR f xs = Ok ys.
Proof.
  induction 1 as [|x xs [y Hy] _ [ys Hys]]; simpl; [eauto|].
  rewrite Hy, Hys; simpl; eauto.
Qed.

(** ** Regular expressions: the matcher decides the language *)

Module ReFacts.
Import Re.

Section Facts.
Variable is_decimal : char -> bool.

Local Abbreviation deriv := (Re.deriv is_decimal).
Local Abbreviation matches_list := (Re.matches_list is_decimal).
Local Abbreviation fullmatch := (Re.fullmatch is_decimal).
Local Abbreviation matches := (Re.matches is_decimal).

Lemma nullable_matches r : nullable r = true <-> matches r [].
Proof.
  split.
  - induction r; simpl; intros Hn; try discriminate.
    + constructor.
    + apply andb_prop in Hn as [H1 H2].
      change (@nil char) with (@nil char ++ []); constructor; auto.
    + apply orb_prop in Hn as [H1|H2]; [apply M_AltL|apply M_AltR]; auto.
    + constructor.
  - intros Hm; remember [] as s eqn:Es; induction Hm; simpl; try discriminate;
      try reflexivity.
    + apply app_eq_nil in Es as [-> ->].
      rewrite IHHm1, IHHm2; auto.
    + rewrite IHHm; auto.
    + rewrite IHHm; auto using orb_true_r.
Qed.

Lemma matches_deriv c r s : matches r (c :: s) -> matches (deriv c r) s.
Proof.
  intros Hm; remember (c :: s) as cs eqn:Ecs; revert s Ecs.
  induction Hm as [|c'|c' Hd|r1 r2 s1 s2 H1 IH1 H2 IH2|r1 r2 s' H1 IH1
                  |r1 r2 s' H2 IH2|r1|r1 s1 s2 H1 IH1 H2 IH2];
    intros s Ecs; simpl.
  - discriminate.
  - injection Ecs as <- <-. rewrite N.eqb_refl. constructor.
  - injection Ecs as <- <-. rewrite Hd. constructor.
  - destruct s1 as [|c1 s1]; simpl in Ecs.
    + subst s2. apply nullable_matches in H1 as ->.
      apply M_AltR; auto.
    + injection Ecs as -> <-.
      assert (matches (Cat (deriv c r1) r2) (s1 ++ s2)) by (constructor; auto).
      destruct (nullable r1); [apply M_AltL|]; auto.
  - apply M_AltL; auto.
  - apply M_AltR; auto.
  - discriminate.
  - destruct s1 as [|c1 s1]; simpl in Ecs.
    + auto.
    + injection Ecs as -> <-. constructor; auto.
Qed.

Lemma deriv_matches c r s : matches (deriv c r) s -> matches r (c :: s).
Proof.
  revert s; induction r as [| |c'| |r1 IH1 r2 IH2|r1 IH1 r2 IH2|r1 IH1];
    intros s; simpl.
  - inversion 1.
  - inversion 1.
  - destruct (N.eqb c c') eqn:E; [|inversion 1].
    apply N.eqb_eq in E as ->. inversion 1; subst. constructor.
  - destruct (is_decimal c) eqn:E; [|inversion 1].
    inversion 1; subst. constructor; auto.
  - assert (Hcat : forall s, matches (Cat (deriv c r1) r2) s ->
                             matches (Cat r1 r2) (c :: s)).
    { intros s' Hm; inversion Hm; subst.
      change (c :: s1 ++ s2) with ((c :: s1) ++ s2). constructor; auto. }
    destruct (nullable r1) eqn:En; [|apply Hcat].
    intros Hm; inversion Hm; subst; [apply Hcat; auto|].
    change (c :: s) with ([] ++ c :: s). constructor; auto.
    apply nullable_matches; auto.
  - inversion 1; subst; [apply M_AltL|apply M_AltR]; auto.
  - intros Hm; inversion Hm; subst.
    change (c :: s1 ++ s2) with ((c :: s1) ++ s2). constructor; auto.
Qed.

Lemma matches_list_correct r s : matches_list r s = true <-> matches r s.
Proof.
  revert r; induction s as [|c s IH]; intros r; simpl.
  - apply nullable_matches.
  - rewrite IH. split; [apply deriv_matches|apply matches_deriv].
Qed.

Lemma matches_Lit p s : matches (Lit p) s <-> s = p.
Proof.
  revert s; induction p as [|c p IH]; intros s; simpl.
  - split; [inversion 1; auto | intros ->; constructor].
  - split.
    + inversion 1 as [| | |r1 r2 s1 s2 H1 H2| | | |]; subst.
      inversion H1; subst. apply IH in H2 as ->. reflexivity.
    + intros ->. change (c :: p) with ([c] ++ p).
      constructor; [constructor | apply IH; reflexivity].
Qed.

Lemma matches_Star_Digit s :
  matches (Star Digit) s <-> forallb is_decimal s = true.
Proof.
  split.
  - intros Hm; remember (Star Digit) as r eqn:Er.
    induction Hm; try discriminate; [reflexivity|].
    injection Er as ->. inversion Hm1 as [| |c Hc| | | | |]; subst; simpl.
    rewrite IHHm2 by reflexivity. rewrite Hc. reflexivity.
  - induction s as [|c s IH]; simpl; [constructor|].
    intros [Hc Hs]%andb_prop.
    change (c :: s) with ([c] ++ s). constructor; auto.
    constructor; auto.
Qed.

Lemma matches_versioned p s :
  matches (Cat (Lit p) (Plus Digit)) s <->
  exists ds, s = p ++ ds /\ ds <> [] /\ forallb is_decimal ds = true.
Proof.
  split.
  - inversion 1 as [| | |r1 r2 s1 s2 H1 H2| | | |]; subst.
    apply matches_Lit in H1 as ->.
    exists s2; split; [reflexivity|].
    inversion H2 as [| | |r1 r2 t1 t2 Ht1 Ht2| | | |]; subst.
    inversion Ht1 as [| |c Hc| | | | |]; subst. split; [discriminate|].
    simpl. apply matches_Star_Digit in Ht2 as ->.
    rewrite Hc. reflexivity.
  - intros (ds & -> & Hne & Hd). constructor; [apply matches_Lit; auto|].
    destruct ds as [|c ds]; [congruence|]. simpl in Hd.
    apply andb_prop in Hd as [Hc Hd].
    change (c :: ds) with ([c] ++ ds). constructor; [constructor; auto|].
    apply matches_Star_Digit; auto.
Qed.

(** A full match of [p\d+] is [p] followed by one or more characters of the
    class [\d], and nothing else. *)
Lemma fullmatch_versioned p id :
  fullmatch (Cat (Lit p) (Plus Digit)) id = true <->
  exists v, id = p ++ v /\ v <> [] /\ Forall (fun c => is_decimal c = true) v.
Proof.
  unfold Re.fullmatch. rewrite matches_list_correct, matches_versioned.
  split; intros (v & Hid & Hne & Hd); exists v; repeat split; auto.
  - apply Forall_forall. intros c Hc.
    rewrite forallb_forall in Hd. apply Hd. apply list_elem_of_In; auto.
  - apply forallb_forall. intros c Hc.
    rewrite Forall_forall in Hd. apply Hd. apply list_elem_of_In; auto.
Qed.

End Facts.
End ReFacts.

(** ** POE_ADQN.make_models *)

Module MakeModelsFacts.
Import Re ReFacts PoeAdqn Spec.

Lemma pattern_versioned is_decimal (name : string) id :
  fullmatch is_decimal
    (Cat (Lit (literal name ++ literal "-v")) (Plus Digit)) id = true <->
  versioned is_decimal name id.
Proof.
  rewrite fullmatch_versioned. unfold versioned.
  split; intros (v & Hid & Hv); exists v; split; auto.
  - rewrite Hid, <- app_assoc; reflexivity.
  - rewrite Hid, <- app_assoc; reflexivity.
Qed.

Lemma make_models_cases {Space Module} is_decimal
    (lib : Representations Space Module) (env : Env Space) :
  (box2d_id is_decimal (spec_id env) /\
   make_models is_decimal lib env = Ok (make_models_box2d lib env)) \/
  (~ box2d_id is_decimal (spec_id env) /\
   make_models is_decimal lib env = Raise NotImplementedError).
Proof.
  unfold make_models, box2d_id.
  pose proof (pattern_versioned is_decimal "CartPole" (spec_id env)) as H1.
  pose proof (pattern_versioned is_decimal "Acrobot" (spec_id env)) as H2.
  pose proof (pattern_versioned is_decimal "LunarLander" (spec_id env)) as H3.
  change (fullmatch _ _ (spec_id env))
    with (fullmatch is_decimal pat_CartPole (spec_id env)) in H1.
  change (fullmatch _ _ (spec_id env))
    with (fullmatch is_decimal pat_Acrobot (spec_id env)) in H2.
  change (fullmatch _ _ (spec_id env))
    with (fullmatch is_decimal pat_LunarLander (spec_id env)) in H3.
  destruct (fullmatch _ pat_CartPole _); [left; split; auto; tauto|].
  destruct (fullmatch _ pat_Acrobot _); [left; split; auto; tauto|].
  destruct (fullmatch _ pat_LunarLander _); [left; split; auto; tauto|].
  right; split; auto. intros [H|[H|H]];
    [apply H1 in H|apply H2 in H|apply H3 in H]; discriminate.
Qed.

End MakeModelsFacts.

(** C9. [POE_ADQN.make_models] returns the dictionary of
    [make_models_box2d], whose keys are exactly [action_model],
    [observation_model], [state_model], [history_model], [qh_model] and
    [qhs_model], if and only if the id of the environment is [CartPole-v],
    [Acrobot-v] or [LunarLander-v] followed by one or more digits and nothing
    else; it raises [NotImplementedError] if and only if the id is not of
    that form.  The ids are sequences of Unicode code points and the digits
    are the characters that [\d] matches, the Unicode decimal digits
    [is_decimal], not only '0' .. '9'. *)
Theorem C9_make_models_iff {Space Module} (is_decimal : Re.char -> bool)
    (lib : PoeAdqn.Representations Space Module) (env : PoeAdqn.Env Space) :
  (PoeAdqn.make_models is_decimal lib env
     = Ok (PoeAdqn.make_models_box2d lib env)
   <-> Spec.box2d_id is_decimal (PoeAdqn.spec_id env)) /\
  (PoeAdqn.make_models is_decimal lib env = Raise NotImplementedError
   <-> ~ Spec.box2d_id is_decimal (PoeAdqn.spec_id env)) /\
  map fst (PoeAdqn.make_models_box2d lib env) =
    [ "action_model"; "observation_model"; "state_model";
      "history_model"; "qh_model"; "qhs_model" ]%string.
Proof.
  destruct (MakeModelsFacts.make_models_cases is_decimal lib env)
    as [[Hid ->]|[Hid ->]].
  - repeat split; auto; try discriminate. intros Hn; contradiction.
  - repeat split; auto; try discriminate. intros Hy; contradiction.
Qed.

(** [make_models] on some ids, with the digits of three scripts:
    ['CartPole-v1'], ['CartPole-v\u0661'] and ['LunarLander-v\uff11\uff12']
    are accepted, as is an id that mixes the scripts; an id without digits,
    with a newline after the digits, in lower case or of another environment
    is not. *)
Example make_models_ids {Module}
    (lib : PoeAdqn.Representations unit Module) :
  let run id :=
    is_ok (PoeAdqn.make_models Examples2.three_scripts lib
             (Examples2.env_with_id id)) in
  run (Re.literal "CartPole-v1") = true /\
  run (Re.literal "Acrobot-v10") = true /\
  run (Re.literal "CartPole-v" ++ [1633%N]) = true /\
  run (Re.literal "LunarLander-v" ++ [65297%N; 65298%N]) = true /\
  run (Re.literal "Acrobot-v2" ++ [1640%N; 65296%N]) = true /\
  run (Re.literal "CartPole-v") = false /\
  run (Re.literal "CartPole-v1" ++ [10%N]) = false /\
  run (Re.literal "CartPole-v1a") = false /\
  run (Re.literal "cartpole-v1") = false /\
  run (Re.literal "xCartPole-v1") = false /\
  run (Re.literal "MountainCar-v0") = false.
Proof. repeat split. Qed.

(** ** Tensor operations *)

Module TorchFacts.
Import Torch.

Section Facts.
Context {R : Type} `{Scalar R}.

Lemma roll_length {A} k (xs : list A) : length (roll k xs) = length xs.
Proof. destruct xs; [reflexivity|]. unfold roll. apply length_rotate. Qed.

(** [roll(-1, 0)] moves the first element to the end. *)
Lemma roll_back_cons {A} (x : A) xs : roll (-1) (x :: xs) = xs ++ [x].
Proof.
  unfold roll, rotate. destruct xs as [|y xs]; [reflexivity|].
  set (k := Z.to_nat _). assert (k = 1%nat) as ->.
  { subst k. rewrite Z.mod_small by (simpl length; lia). reflexivity. }
  rewrite Nat.mod_small by (simpl; lia). reflexivity.
Qed.

(** [roll(1, 0)] moves the last element to the front. *)
Lemma roll_fwd_snoc {A} (x : A) xs : roll 1 (xs ++ [x]) = x :: xs.
Proof.
  unfold roll. destruct (xs ++ [x]) as [|y ys] eqn:E.
  { destruct xs; discriminate. }
  rewrite <- E. unfold rotate. rewrite length_app. simpl length.
  set (k := Z.to_nat _). assert (k = length xs) as ->.
  { subst k.
    replace (- (1)) with (Z.of_nat (length xs) + (-1) * Z.of_nat (length xs + 1))
      by lia.
    rewrite Z.mod_add by lia. rewrite Z.mod_small by lia. lia. }
  rewrite Nat.mod_small by lia.
  rewrite drop_app_length, take_app_length. reflexivity.
Qed.

Lemma roll_back_lookup {A} (xs : list A) i :
  (S i < length xs)%nat -> roll (-1) xs !! i = xs !! S i.
Proof.
  destruct xs as [|x xs]; [simpl; lia|]. intros Hi. simpl in Hi.
  rewrite roll_back_cons, lookup_app_l by lia. reflexivity.
Qed.

Lemma broadcast2_same {A B C} (f : A -> B -> C) xs ys :
  length xs = length ys -> broadcast2 f xs ys = Ok (zip_with f xs ys).
Proof. intros E. unfold broadcast2. rewrite decide_True; auto. Qed.

Lemma gather_rows_lookup (values : list (list R)) index out :
  gather_rows values index = Ok out ->
  length out = length index /\
  forall t i, index !! t = Some i ->
    exists row x, values !! t = Some row /\ gather_at row i = Ok x /\
                  out !! t = Some x.
Proof.
  revert values out; induction index as [|i index IH]; intros values out; simpl.
  - intros [= <-]; split; [reflexivity|]. intros t i Ht; discriminate.
  - destruct values as [|row values]; [discriminate|].
    destruct (gather_at row i) as [x|] eqn:Ex; simpl; [|discriminate].
    destruct (gather_rows values index) as [xs|] eqn:Exs; simpl; [|discriminate].
    intros [= <-]. destruct (IH _ _ Exs) as [Hl Hlk].
    split; [simpl; auto|]. intros [|t] j; simpl.
    + intros [= <-]; eauto.
    + apply Hlk.
Qed.

Lemma gather_at_in_range (row : list R) i :
  0 <= i < Z.of_nat (length row) -> exists x, gather_at row i = Ok x.
Proof.
  intros Hi. unfold gather_at. rewrite decide_True by lia.
  destruct (row !! Z.to_nat i) as [x|] eqn:E; [eauto|].
  apply lookup_ge_None in E. lia.
Qed.

Lemma gather_rows_total (values : list (list R)) index :
  (length index <= length values)%nat ->
  (forall t i row, index !! t = Some i -> values !! t = Some row ->
                   0 <= i < Z.of_nat (length row)) ->
  exists out, gather_rows values index = Ok out.
Proof.
  revert values; induction index as [|i index IH]; intros values Hl Hr; simpl.
  - eauto.
  - destruct values as [|row values]; simpl in Hl; [lia|].
    destruct (gather_at_in_range row i) as [x ->].
    { apply (Hr 0%nat); reflexivity. }
    destruct (IH values) as [xs ->]; [lia| |simpl; eauto].
    intros t j r Hj Hrow. apply (Hr (S t)); auto.
Qed.

Lemma argmax_from_bound (xs : list R) best_i best i :
  (best_i < i)%nat -> (argmax_from best_i best i xs < i + length xs)%nat.
Proof.
  revert best_i best i; induction xs as [|x xs IH]; intros best_i best i Hb;
    simpl; [lia|].
  destruct (gt x best).
  - specialize (IH i x (S i)). lia.
  - specialize (IH best_i best (S i)). lia.
Qed.

Lemma argmax_range (xs : list R) a :
  argmax xs = Ok a -> 0 <= a < Z.of_nat (length xs).
Proof.
  destruct xs as [|x xs]; simpl; [discriminate|]. intros [= <-].
  pose proof (argmax_from_bound xs 0 x 1). lia.
Qed.

Lemma argmax_nonempty (xs : list R) :
  xs <> [] -> exists a, argmax xs = Ok a.
Proof. destruct xs; [congruence|]. simpl; eauto. Qed.

Lemma has_shape_spec {A} T n (t : list (list A)) :
  Spec.has_shape T n t = true <->
  length t = T /\ forall i row, t !! i = Some row -> length row = n.
Proof.
  unfold Spec.has_shape. rewrite andb_true_iff, Nat.eqb_eq, forallb_forall.
  split; intros [Hl Hr]; split; auto.
  - intros i row Hi. apply Nat.eqb_eq, Hr.
    apply list_elem_of_In, list_elem_of_lookup; eauto.
  - intros row Hin. apply list_elem_of_In, list_elem_of_lookup in Hin as [i Hi].
    apply Nat.eqb_eq; eauto.
Qed.

Lemma actions_in_range_spec n acts :
  Spec.actions_in_range n acts = true <->
  forall t a, acts !! t = Some a -> 0 <= a < Z.of_nat n.
Proof.
  unfold Spec.actions_in_range. rewrite forallb_forall. split.
  - intros Hr t a Ht.
    assert (Hin : In a acts)
      by (apply list_elem_of_In, list_elem_of_lookup; eauto).
    apply Hr in Hin. lia.
  - intros Hr a Hin. apply list_elem_of_In, list_elem_of_lookup in Hin as [t Ht].
    apply Hr in Ht. lia.
Qed.

End Facts.
End TorchFacts.

(** ** POE_ADQN.episodic_loss *)

Module LossFacts.
Import Torch TorchFacts PoeAdqn Spec.

Section Facts.
Context {R : Type} `{Scalar R} {Obs State : Type}.

Lemma argmax_rows_total (values : list (list R)) T n :
  has_shape T n values = true -> (0 < n)%nat ->
  exists greedy, argmax_rows values = Ok greedy /\
    length greedy = T /\
    forall t row, values !! t = Some row ->
      exists a, greedy !! t = Some a /\ argmax row = Ok a /\
                0 <= a < Z.of_nat n.
Proof.
  intros [Hl Hr]%has_shape_spec Hn. unfold argmax_rows.
  destruct (mapR_total argmax values) as [greedy Hg].
  { apply Forall_forall. intros row [i Hi]%list_elem_of_lookup.
    apply argmax_nonempty. apply Hr in Hi. destruct row; simpl in *; [lia|easy]. }
  exists greedy. split; [exact Hg|]. split.
  { rewrite (mapR_length _ _ _ Hg). exact Hl. }
  intros t row Ht. destruct (mapR_lookup _ _ _ _ _ Hg Ht) as (a & Ha & Harg).
  exists a. repeat split; auto; apply argmax_range in Harg;
    rewrite (Hr _ _ Ht) in Harg; lia.
Qed.

(** The target tensor built by both loss functions. *)
Lemma bootstrap_target (rewards : list R) (dones : list bool) discount
    (target_qh target_qhs : list (list R)) T n :
  length rewards = T -> length dones = T ->
  has_shape T n target_qh = true -> has_shape T n target_qhs = true ->
  (0 < n)%nat -> last dones = Some true ->
  exists greedy selected bootstrap target,
    argmax_rows target_qh = Ok greedy /\
    gather_rows target_qhs greedy = Ok selected /\
    where0 dones (roll (-1) selected) = Ok bootstrap /\
    broadcast2 add rewards (map (mul discount) bootstrap) = Ok target /\
    length target = T /\
    forall t, (t < T)%nat ->
      exists y, target !! t = Some y /\
                td_target rewards discount dones target_qh target_qhs t = Ok y.
Proof.
  intros Hlr Hld Hqh Hqhs Hn Hlast.
  destruct (argmax_rows_total _ _ _ Hqh Hn) as (greedy & Hg & Hlg & Hgr).
  pose proof Hqh as [Hlqh Hrqh]%has_shape_spec.
  pose proof Hqhs as [Hlqhs Hrqhs]%has_shape_spec.
  destruct (gather_rows_total target_qhs greedy) as [selected Hsel].
  { lia. }
  { intros t a row Ha Hrow. rewrite (Hrqhs _ _ Hrow).
    destruct (lookup_lt_is_Some_2 target_qh t) as [qrow Hq].
    { apply lookup_lt_Some in Ha. lia. }
    destruct (Hgr _ _ Hq) as (a' & Ha' & _ & Hrange). congruence. }
  destruct (gather_rows_lookup _ _ _ Hsel) as [Hlsel Hselk].
  set (bootstrap :=
         zip_with (fun (c : bool) y => if c then zero else y)
                  dones (roll (-1) selected)).
  assert (Hboot : where0 dones (roll (-1) selected) = Ok bootstrap).
  { apply broadcast2_same. rewrite roll_length. lia. }
  assert (Hlboot : length bootstrap = T).
  { unfold bootstrap. rewrite length_zip_with, roll_length. lia. }
  set (target := zip_with add rewards (map (mul discount) bootstrap)).
  assert (Htarget :
    broadcast2 add rewards (map (mul discount) bootstrap) = Ok target).
  { apply broadcast2_same. rewrite length_map. lia. }
  exists greedy, selected, bootstrap, target.
  repeat (split; [assumption|]). split.
  { unfold target. rewrite length_zip_with, length_map. lia. }
  intros t Ht.
  destruct (lookup_lt_is_Some_2 rewards t) as [r Hr]; [lia|].
  destruct (lookup_lt_is_Some_2 dones t) as [d Hd]; [lia|].
  destruct (lookup_lt_is_Some_2 (roll (-1) selected) t) as [s Hs].
  { rewrite roll_length. lia. }
  exists (add r (mul discount (if d then zero else s))). split.
  - unfold target, bootstrap.
    rewrite lookup_zip_with, Hr. simpl.
    rewrite list_lookup_fmap, lookup_zip_with, Hd. simpl. rewrite Hs.
    reflexivity.
  - unfold td_target, td_bootstrap. rewrite Hr, Hd.
    destruct d; [reflexivity|]. simpl.
    assert (HSt : (S t < T)%nat).
    { rewrite last_lookup, Hld in Hlast.
      destruct (decide (t = pred T)) as [->|]; [congruence|lia]. }
    rewrite roll_back_lookup in Hs by lia.
    destruct (lookup_lt_is_Some_2 greedy (S t)) as [a Ha]; [lia|].
    destruct (Hselk _ _ Ha) as (row & x & Hrow & Hx & Hsx).
    destruct (lookup_lt_is_Some_2 target_qh (S t)) as [qrow Hq]; [lia|].
    destruct (Hgr _ _ Hq) as (a' & Ha' & Harg & _).
    unfold greedy_value. rewrite Hq, Hrow, Harg. simpl.
    replace a' with a by congruence. rewrite Hx. simpl. congruence.
Qed.

(** The values of an online head at the actions of the episode. *)
Lemma gathered_at_actions (values : list (list R)) (acts : list Z) T n :
  has_shape T n values = true -> length acts = T ->
  actions_in_range n acts = true ->
  exists input, gather_rows values acts = Ok input /\ length input = T /\
    forall t a, acts !! t = Some a ->
      exists row x, values !! t = Some row /\
                    row !! Z.to_nat a = Some x /\ input !! t = Some x.
Proof.
  intros [Hl Hr]%has_shape_spec Hla Hrange.
  rewrite actions_in_range_spec in Hrange.
  destruct (gather_rows_total values acts) as [input Hin]; [lia| |].
  { intros t a row Ha Hrow. rewrite (Hr _ _ Hrow). eauto. }
  destruct (gather_rows_lookup _ _ _ Hin) as [Hlen Hlk].
  exists input. repeat split; [assumption|lia|].
  intros t a Ha. destruct (Hlk _ _ Ha) as (row & x & Hrow & Hx & Hix).
  exists row, x. repeat split; auto.
  unfold gather_at in Hx. destruct (decide (0 <= a)); [|discriminate].
  destruct (row !! Z.to_nat a); congruence.
Qed.

Lemma mse_loss_same (input target : list R) :
  length input = length target ->
  mse_loss input target = Ok (mean_squared_error input target).
Proof.
  intros E. unfold mse_loss. rewrite broadcast2_same by exact E. reflexivity.
Qed.

End Facts.
End LossFacts.

Section LossTheorems.
Import Torch TorchFacts PoeAdqn Spec LossFacts.
Context {R : Type} `{Scalar R} {Obs State Hid : Type}.

(** The two [..._terms] functions compute the same target, whatever the
    inputs; only the gathered head differs. *)
Lemma loss_terms_unfold (ep : Episode R Obs State) discount
    (qh qhs tqh tqhs : list (list R)) :
  qhs_loss_terms ep discount qh qhs tqh tqhs =
    (let* input := gather_rows qhs (actions ep) in
     let* target :=
       dual_head_target (rewards ep) (dones ep) discount tqh tqhs in
     Ok (input, target)) /\
  qh_loss_terms ep discount qh qhs tqh tqhs =
    (let* input := gather_rows qh (actions ep) in
     let* target :=
       dual_head_target (rewards ep) (dones ep) discount tqh tqhs in
     Ok (input, target)).
Proof.
  unfold qhs_loss_terms, qh_loss_terms, dual_head_target. split.
  - destruct (gather_rows qhs (actions ep)); simpl; [|reflexivity].
    destruct (argmax_rows tqh) as [g|]; simpl; [|reflexivity].
    destruct (gather_rows tqhs g) as [sel|]; simpl; [|reflexivity].
    destruct (where0 (dones ep) (roll (-1) sel)); reflexivity.
  - destruct (gather_rows qh (actions ep)); simpl; [|reflexivity].
    destruct (argmax_rows tqh) as [g|]; simpl; [|reflexivity].
    destruct (gather_rows tqhs g) as [sel|]; simpl; [|reflexivity].
    destruct (where0 (dones ep) (roll (-1) sel)); reflexivity.
Qed.

(** C1. For an episode whose last [dones] entry is true, [qhs_loss] is the
    mean squared error between the online qhs values gathered at the
    actions of the episode and the target whose entry [t] is
    [rewards[t] + discount * bootstrap[t]], where [bootstrap[t]] is 0 when
    [dones[t]] and otherwise the target network's qhs value at [t+1] at the
    argmax action of the target network's qh values at [t+1]; this loss is
    the qhs term of the loss of the episode. *)
Theorem C1_qhs_loss_td_target
    (models target_models : Models R Obs State Hid) (ep : Episode R Obs State)
    (discount : R) (qh qhs tqh tqhs : list (list R)) (T n : nat) :
  compute_q_values models (actions ep) (observations ep) (states ep)
    = Ok (qh, qhs) ->
  compute_q_values target_models (actions ep) (observations ep) (states ep)
    = Ok (tqh, tqhs) ->
  length (actions ep) = T -> length (rewards ep) = T ->
  length (dones ep) = T ->
  has_shape T n qh = true -> has_shape T n qhs = true ->
  has_shape T n tqh = true -> has_shape T n tqhs = true ->
  actions_in_range n (actions ep) = true ->
  last (dones ep) = Some true ->
  exists input target l_qh,
    qhs_loss_terms ep discount qh qhs tqh tqhs = Ok (input, target) /\
    qhs_loss ep discount qh qhs tqh tqhs
      = Ok (mean_squared_error input target) /\
    length input = T /\ length target = T /\
    (forall t a, actions ep !! t = Some a ->
       exists row x, qhs !! t = Some row /\ row !! Z.to_nat a = Some x /\
                     input !! t = Some x) /\
    (forall t, (t < T)%nat ->
       exists y, target !! t = Some y /\
         td_target (rewards ep) discount (dones ep) tqh tqhs t = Ok y) /\
    qh_loss ep discount qh qhs tqh tqhs = Ok l_qh /\
    episode_loss models target_models discount ep
      = Ok (div (add (mean_squared_error input target) l_qh) (of_nat 2)).
Proof.
  intros Hq Htq Hla Hlr Hld Sqh Sqhs Stqh Stqhs Hrange Hlast.
  assert (Hn : (0 < n)%nat).
  { destruct (dones ep) as [|d ds] eqn:Ed; [discriminate|].
    destruct (actions ep) as [|a acts] eqn:Ea; [simpl in *; congruence|].
    rewrite actions_in_range_spec in Hrange.
    specialize (Hrange 0%nat a eq_refl). lia. }
  destruct (bootstrap_target (rewards ep) (dones ep) discount tqh tqhs T n)
    as (greedy & selected & bootstrap & target & Hg & Hs & Hb & Ht & Hlt & Htd);
    auto.
  destruct (gathered_at_actions qhs (actions ep) T n)
    as (input & Hin & Hlin & Hink); auto.
  destruct (gathered_at_actions qh (actions ep) T n)
    as (input' & Hin' & Hlin' & _); auto.
  assert (Hterms : qhs_loss_terms ep discount qh qhs tqh tqhs
                   = Ok (input, target)).
  { unfold qhs_loss_terms. rewrite Hin; simpl. rewrite Hg; simpl.
    rewrite Hs; simpl. rewrite Hb; simpl. rewrite Ht. reflexivity. }
  assert (Hloss : qhs_loss ep discount qh qhs tqh tqhs
                  = Ok (mean_squared_error input target)).
  { unfold qhs_loss. rewrite Hterms. simpl. apply mse_loss_same. lia. }
  assert (Hloss' : qh_loss ep discount qh qhs tqh tqhs
                   = Ok (mean_squared_error input' target)).
  { unfold qh_loss, qh_loss_terms. rewrite Hin'; simpl. rewrite Hg; simpl.
    rewrite Hs; simpl. rewrite Hb; simpl. rewrite Ht. simpl.
    apply mse_loss_same. lia. }
  exists input, target, (mean_squared_error input' target).
  repeat (split; [assumption|]).
  unfold episode_loss. rewrite Hq; simpl. rewrite Htq; simpl.
  rewrite Hloss; simpl. rewrite Hloss'. reflexivity.
Qed.

(** C4. [qh_loss] and [qhs_loss] regress their heads to the same target:
    each is the mean squared error between the values of its own online
    head gathered at the actions of the episode and one and the same tensor
    [rewards + discount * bootstrap], computed from the target network's
    outputs. *)
Theorem C4_same_dual_head_target (ep : Episode R Obs State) (discount : R)
    (qh qhs tqh tqhs : list (list R)) :
  qhs_loss ep discount qh qhs tqh tqhs =
    (let* input := gather_rows qhs (actions ep) in
     let* target :=
       dual_head_target (rewards ep) (dones ep) discount tqh tqhs in
     mse_loss input target) /\
  qh_loss ep discount qh qhs tqh tqhs =
    (let* input := gather_rows qh (actions ep) in
     let* target :=
       dual_head_target (rewards ep) (dones ep) discount tqh tqhs in
     mse_loss input target) /\
  (forall input_hs target_hs input_h target_h,
     qhs_loss_terms ep discount qh qhs tqh tqhs = Ok (input_hs, target_hs) ->
     qh_loss_terms ep discount qh qhs tqh tqhs = Ok (input_h, target_h) ->
     target_h = target_hs /\
     (forall t, target_h !! t = target_hs !! t) /\
     gather_rows qhs (actions ep) = Ok input_hs /\
     gather_rows qh (actions ep) = Ok input_h).
Proof.
  destruct (loss_terms_unfold ep discount qh qhs tqh tqhs) as [E1 E2].
  unfold qhs_loss, qh_loss. rewrite E1, E2. clear E1 E2.
  split; [|split].
  - destruct (gather_rows qhs (actions ep)); simpl; [|reflexivity].
    destruct (dual_head_target _ _ _ _ _); reflexivity.
  - destruct (gather_rows qh (actions ep)); simpl; [|reflexivity].
    destruct (dual_head_target _ _ _ _ _); reflexivity.
  - intros i1 t1 i2 t2.
    destruct (gather_rows qhs (actions ep)); simpl; [|discriminate].
    destruct (gather_rows qh (actions ep)); simpl;
      destruct (dual_head_target _ _ _ _ _); simpl; try discriminate.
    intros [= <- <-] [= <- <-]. auto.
Qed.

Lemma episodic_loss_loop_spec (models target_models : Models R Obs State Hid)
    discount episodes losses :
  episodic_loss_loop models target_models discount episodes losses =
    (let* per := mapR (episode_loss models target_models discount) episodes in
     Ok (losses ++ per)).
Proof.
  revert losses; induction episodes as [|ep episodes IH]; intros losses; simpl.
  - rewrite app_nil_r. reflexivity.
  - destruct (episode_loss models target_models discount ep) as [l|]; simpl;
      [|reflexivity].
    rewrite IH.
    destruct (mapR _ episodes) as [per|]; simpl; [|reflexivity].
    rewrite <- app_assoc. reflexivity.
Qed.

(** C3. [episodic_loss] returns the sum of the losses of the episodes
    (started at 0) divided by the number of episodes, where the loss of an
    episode is [(qhs_loss + qh_loss) / 2] on the Q values of the online and
    of the target models. *)
Theorem C3_episodic_loss_mean (models target_models : Models R Obs State Hid)
    (discount : R) (episodes : list (Episode R Obs State)) :
  episodic_loss models target_models discount episodes =
    (let* per := mapR (episode_loss models target_models discount) episodes in
     Ok (div (sum_from zero per) (of_nat (length episodes)))) /\
  (forall ep qh qhs tqh tqhs,
     compute_q_values models (actions ep) (observations ep) (states ep)
       = Ok (qh, qhs) ->
     compute_q_values target_models (actions ep) (observations ep) (states ep)
       = Ok (tqh, tqhs) ->
     episode_loss models target_models discount ep =
       (let* l_qhs := qhs_loss ep discount qh qhs tqh tqhs in
        let* l_qh := qh_loss ep discount qh qhs tqh tqhs in
        Ok (div (add l_qhs l_qh) (of_nat 2)))).
Proof.
  split.
  - unfold episodic_loss. rewrite episodic_loss_loop_spec.
    destruct (mapR _ episodes) as [per|] eqn:E; simpl; [|reflexivity].
    rewrite (mapR_length _ _ _ E). reflexivity.
  - intros ep qh qhs tqh tqhs E1 E2. unfold episode_loss.
    rewrite E1; simpl. rewrite E2; reflexivity.
Qed.

End LossTheorems.

(** Witness of [C1_qhs_loss_td_target]: a three-step episode on integer
    models. *)
Lemma C1_qhs_loss_td_target_witness :
  exists input target l_qh,
    PoeAdqn.qhs_loss_terms Examples.toy_episode 2
      Examples.toy_qh Examples.toy_qhs
      Examples.toy_target_qh Examples.toy_target_qhs = Ok (input, target) /\
    PoeAdqn.qhs_loss Examples.toy_episode 2
      Examples.toy_qh Examples.toy_qhs
      Examples.toy_target_qh Examples.toy_target_qhs
      = Ok (Spec.mean_squared_error input target) /\
    length input = 3%nat /\ length target = 3%nat /\
    (forall t a, PoeAdqn.actions Examples.toy_episode !! t = Some a ->
       exists row x, Examples.toy_qhs !! t = Some row /\
                     row !! Z.to_nat a = Some x /\ input !! t = Some x) /\
    (forall t, (t < 3)%nat ->
       exists y, target !! t = Some y /\
         Spec.td_target (PoeAdqn.rewards Examples.toy_episode) 2
           (PoeAdqn.dones Examples.toy_episode)
           Examples.toy_target_qh Examples.toy_target_qhs t = Ok y) /\
    PoeAdqn.qh_loss Examples.toy_episode 2
      Examples.toy_qh Examples.toy_qhs
      Examples.toy_target_qh Examples.toy_target_qhs = Ok l_qh /\
    PoeAdqn.episode_loss (Examples.toy_models 5) (Examples.toy_models 7) 2
      Examples.toy_episode
      = Ok (Torch.div
              (Torch.add (Spec.mean_squared_error input target) l_qh)
              (Torch.of_nat 2)).
Proof.
  apply (C1_qhs_loss_td_target
           (Examples.toy_models 5) (Examples.toy_models 7)
           Examples.toy_episode 2
           Examples.toy_qh Examples.toy_qhs
           Examples.toy_target_qh Examples.toy_target_qhs 3 2);
    reflexivity.
Defined.

(** The loss functions on the integer models, evaluated. *)
Example toy_loss_terms :
  PoeAdqn.qhs_loss_terms Examples.toy_episode 2
    Examples.toy_qh Examples.toy_qhs
    Examples.toy_target_qh Examples.toy_target_qhs
  = Ok ([18; 352; 41], [61; 86; 5]).
Proof. reflexivity. Qed.

Example toy_episodic_loss :
  PoeAdqn.episodic_loss (Examples.toy_models 5) (Examples.toy_models 7) 2
    [Examples.toy_episode; Examples.short_episode]
  = Ok 19530 /\
  PoeAdqn.episode_loss (Examples.toy_models 5) (Examples.toy_models 7) 2
    Examples.toy_episode = Ok 14378 /\
  PoeAdqn.episode_loss (Examples.toy_models 5) (Examples.toy_models 7) 2
    Examples.short_episode = Ok 24682.
Proof. repeat split; reflexivity. Qed.

(** ** TargetPolicy *)

Section PolicyTheorems.
Import Torch TorchFacts PoeAdqn Spec.
Context {R : Type} `{Scalar R} {Obs State Hid : Type}.

Lemma run_policy_visible (models : Models R Obs State Hid)
    (policy : TargetPolicy R Hid) (i : Interaction Obs State) :
  run_policy models policy i =
  fold_left (fun policy '(a, o) => step models policy a o)
    (snd (visible i)) (reset models policy (fst (visible i))).
Proof.
  unfold run_policy, visible; simpl.
  generalize (reset models policy (first_observation i)).
  induction (transitions i) as [|[[a s] o] ts IH]; intros p; simpl;
    [reflexivity|apply IH].
Qed.

Lemma compute_q_values_qh (models : Models R Obs State Hid) acts obs sts :
  result_fst (compute_q_values models acts obs sts) =
  (let* history_features := compute_history_features models acts obs in
   if decide (length history_features = length sts)
   then Ok (map (qh_model models) history_features)
   else Raise RuntimeError).
Proof.
  unfold result_fst, compute_q_values, cat_last.
  destruct (compute_history_features models acts obs) as [hf|]; simpl;
    [|reflexivity].
  rewrite length_map. destruct (decide _); reflexivity.
Qed.

(** C2. The action chosen by a [TargetPolicy] depends on the actions and
    observations it was given and not on the states of the environment: two
    runs (a reset followed by step calls) from the same policy with the same
    actions and observations leave the policy with the same attributes and
    [po_sample_action] returns the same action, whatever the states were;
    and the qh values of [compute_q_values] do not depend on the states
    (of which there are equally many) either. *)
Theorem C2_action_independent_of_state (models : Models R Obs State Hid)
    (policy : TargetPolicy R Hid) (i1 i2 : Interaction Obs State)
    (acts : list Z) (obs : list Obs) (sts1 sts2 : list State) :
  visible i1 = visible i2 ->
  length sts1 = length sts2 ->
  run_policy models policy i1 = run_policy models policy i2 /\
  po_sample_action models (run_policy models policy i1) =
    po_sample_action models (run_policy models policy i2) /\
  result_fst (compute_q_values models acts obs sts1) =
    result_fst (compute_q_values models acts obs sts2).
Proof.
  intros Hv Hl.
  assert (E : run_policy models policy i1 = run_policy models policy i2)
    by (rewrite !run_policy_visible, Hv; reflexivity).
  repeat split; [exact E|rewrite E; reflexivity|].
  rewrite !compute_q_values_qh, Hl. reflexivity.
Qed.

End PolicyTheorems.

(** Witness of [C2_action_independent_of_state]: two runs of the integer
    models that differ in every state. *)
Lemma C2_action_independent_of_state_witness :
  Spec.run_policy (Examples.toy_models 5) PoeAdqn.TargetPolicy_init
    Examples.toy_run_a =
  Spec.run_policy (Examples.toy_models 5) PoeAdqn.TargetPolicy_init
    Examples.toy_run_b /\
  PoeAdqn.po_sample_action (Examples.toy_models 5)
    (Spec.run_policy (Examples.toy_models 5) PoeAdqn.TargetPolicy_init
       Examples.toy_run_a) =
  PoeAdqn.po_sample_action (Examples.toy_models 5)
    (Spec.run_policy (Examples.toy_models 5) PoeAdqn.TargetPolicy_init
       Examples.toy_run_b) /\
  Spec.result_fst
    (PoeAdqn.compute_q_values (Examples.toy_models 5)
       [0; 1; 0] [1; 2; 3] [10; 11; 12]) =
  Spec.result_fst
    (PoeAdqn.compute_q_values (Examples.toy_models 5)
       [0; 1; 0] [1; 2; 3] [-4; 0; 250]).
Proof.
  apply (C2_action_independent_of_state (Examples.toy_models 5)
           PoeAdqn.TargetPolicy_init Examples.toy_run_a Examples.toy_run_b
           [0; 1; 0] [1; 2; 3] [10; 11; 12] [-4; 0; 250]);
    reflexivity.
Defined.

(** The policy on the integer models, evaluated: after observation 1,
    action 0 and observation 2, action 1 and observation 3. *)
Example toy_policy_action :
  PoeAdqn.po_sample_action (Examples.toy_models 5)
    (Spec.run_policy (Examples.toy_models 5) PoeAdqn.TargetPolicy_init
       Examples.toy_run_a) = Ok 0 /\
  PoeAdqn.history_features
    (Spec.run_policy (Examples.toy_models 5) PoeAdqn.TargetPolicy_init
       Examples.toy_run_a) = Some [[8; 16]].
Proof. split; reflexivity. Qed.

(** ** Batched and sequential history features *)

Module HistoryFacts.
Import Torch TorchFacts PoeAdqn Spec.

Section Facts.
Context {R : Type} `{Scalar R} {Obs State Hid : Type}.
Variable models : Models R Obs State Hid.
Hypothesis Hrec : recurrent (history_model models).

Local Abbreviation input := (policy_input models).

Lemma inputs_zip acts obs :
  zip_with (@app R) (map (action_model models) acts)
    (map (observation_model models) obs) = zip_with input acts obs.
Proof.
  revert obs; induction acts as [|a acts IH]; intros [|o obs]; simpl;
    try reflexivity.
  rewrite IH. reflexivity.
Qed.

Lemma zip_with_snoc_l {A B C} (f : A -> B -> C) xs x ys :
  length xs = length ys -> zip_with f (xs ++ [x]) ys = zip_with f xs ys.
Proof.
  revert ys; induction xs as [|x0 xs IH]; intros [|y ys]; simpl;
    try reflexivity; try discriminate.
  intros [= E]. rewrite IH by exact E. reflexivity.
Qed.

Lemma single_row x h :
  exists row h1, history_model models [x] h = ([row], h1).
Proof.
  destruct Hrec as (_ & Hone & _). specialize (Hone x h).
  destruct (history_model models [x] h) as [[|row [|row' f]] h1];
    simpl in Hone; try discriminate.
  eauto.
Qed.

(** Stepping along the inputs reproduces the rows of the batch. *)
Lemma run_steps_rows acts obs (policy : TargetPolicy R Hid) h fs hfin :
  hidden policy = Some h ->
  history_model models (zip_with input acts obs) (Some h) = (fs, hfin) ->
  map history_features (run_steps models policy acts obs) =
  map (fun row => Some [row]) fs.
Proof.
  revert obs policy h fs hfin.
  induction acts as [|a acts IH]; intros obs policy h fs hfin Hh Hm.
  - simpl in *. destruct Hrec as (_ & _ & Hnil). rewrite Hnil in Hm.
    injection Hm as <- <-. reflexivity.
  - destruct obs as [|o obs].
    + simpl in *. destruct Hrec as (_ & _ & Hnil). rewrite Hnil in Hm.
      injection Hm as <- <-. reflexivity.
    + simpl in Hm. destruct Hrec as (Hcons & _ & _). rewrite Hcons in Hm.
      destruct (single_row (input a o) (Some h)) as (row & h1 & E1).
      rewrite E1 in Hm.
      destruct (history_model models (zip_with input acts obs) (Some h1))
        as [fs' h2] eqn:E2.
      injection Hm as <- <-.
      simpl. unfold step at 1, _update. fold (input a o).
      rewrite Hh, E1. simpl. f_equal.
      unfold step, _update. fold (input a o). rewrite Hh, E1.
      eapply IH; [reflexivity|exact E2].
Qed.

(** On a freshly constructed policy, acting along an episode yields the
    batched history features. *)
Lemma fresh_policy_agrees acts obs :
  (forall a, length (action_model models a) = action_dim models) ->
  length acts = length obs -> obs <> [] ->
  batch_agrees_with_run models TargetPolicy_init acts obs.
Proof.
  intros Hdim Hlen Hne.
  destruct obs as [|o0 obs]; [congruence|clear Hne].
  destruct (exists_last (l := acts)) as (acts' & al & ->).
  { destruct acts; simpl in Hlen; congruence. }
  rewrite length_app in Hlen. simpl in Hlen.
  assert (Hlen' : length acts' = length obs) by lia.
  assert (Ez : map (fun _ : R => zero) (action_model models al)
               = zeros (action_dim models)).
  { unfold zeros. rewrite <- (Hdim al).
    induction (action_model models al); simpl; [reflexivity|f_equal; auto]. }
  set (x0 := zeros (action_dim models) ++ observation_model models o0).
  pose proof Hrec as (Hcons & _ & _).
  destruct (single_row x0 None) as (row & h0 & E0).
  destruct (history_model models (zip_with input acts' obs) (Some h0))
    as [fs h2] eqn:E2.
  exists (row :: fs). split.
  - unfold compute_history_features.
    rewrite map_app. simpl map. rewrite roll_fwd_snoc.
    unfold zero_first_row, cat_last. simpl bind.
    rewrite decide_True by (simpl; rewrite !length_map; lia).
    simpl. rewrite Ez, inputs_zip. fold x0.
    rewrite Hcons, E0, E2. reflexivity.
  - simpl. unfold reset at 1, _update. fold x0. simpl hidden. rewrite E0.
    simpl. f_equal.
    unfold reset, _update. fold x0. simpl hidden. rewrite E0.
    eapply run_steps_rows; [reflexivity|].
    rewrite zip_with_snoc_l by lia. exact E2.
Qed.

End Facts.
End HistoryFacts.

(** C8, at a policy that is used a second time.  [reset] leaves the hidden
    state of the previous episode in place: on the integer models, after an
    episode with observation 1, acting on the one-step episode with
    observation 4 gives the history features [[5; 10]], while
    [compute_q_values], which starts every episode without a hidden state,
    gives [[4; 8]] for that episode. *)
Theorem C8_reset_keeps_hidden_state :
  PoeAdqn.compute_history_features (Examples.toy_models 5) [1] [4]
    = Ok [[4; 8]] /\
  map PoeAdqn.history_features
    (Spec.run_episode (Examples.toy_models 5) Examples.used_policy [1] [4])
    = [Some [[5; 10]]] /\
  map PoeAdqn.history_features
    (Spec.run_episode (Examples.toy_models 5) PoeAdqn.TargetPolicy_init
       [1] [4])
    = [Some [[4; 8]]] /\
  ~ Spec.batch_agrees_with_run (Examples.toy_models 5) Examples.used_policy
      [1] [4].
Proof.
  repeat split; try reflexivity.
  intros (features & Hb & Hs). vm_compute in Hb. injection Hb as <-.
  vm_compute in Hs. discriminate.
Qed.

(** The integer history model is recurrent, so the agreement on a fresh
    policy applies to it. *)
Lemma toy_models_recurrent k :
  Spec.recurrent (PoeAdqn.history_model (Examples.toy_models k)).
Proof.
  unfold Spec.recurrent; simpl. split; [|split].
  - intros x xs h. destruct (Examples.sum_rnn xs _) as [fs h2]. reflexivity.
  - intros x h. reflexivity.
  - intros h. reflexivity.
Qed.

Example toy_fresh_policy_agrees :
  Spec.batch_agrees_with_run (Examples.toy_models 5)
    PoeAdqn.TargetPolicy_init [0; 1; 0] [1; 2; 3].
Proof.
  apply HistoryFacts.fresh_policy_agrees;
    [apply toy_models_recurrent|reflexivity|reflexivity|discriminate].
Qed.

(** ** The configuration singleton *)

Module ConfigFacts.
Import Config.

Section Facts.
Context {F : Type}.

Lemma new_ref_fresh (st : PyState F) :
  dicts st !! new_ref st = None /\ configs st !! new_ref st = None.
Proof.
  unfold new_ref.
  pose proof (is_fresh (dom (dicts st) ∪ dom (configs st))) as Hf.
  split; apply not_elem_of_dom; set_solver.
Qed.

Lemma get_config_global (st : PyState F) :
  global_config (snd (get_config st)) = Some (fst (get_config st)).
Proof.
  unfold get_config. destruct (global_config st) as [c|] eqn:E; simpl; auto.
Qed.

Lemma dict_mutate_global r f (st st' : PyState F) :
  dict_mutate r f st = Ok st' -> global_config st' = global_config st.
Proof.
  unfold dict_mutate. destruct (dict_read r st); simpl; [|discriminate].
  intros [= <-]. reflexivity.
Qed.

(** No call assigns the module variable once it is set. *)
Lemma run_call_global (c : call F) (st : PyState F) cfg :
  global_config st = Some cfg -> global_config (run_call c st) = Some cfg.
Proof.
  intros Hg. destruct c; simpl; auto.
  - unfold get_config. rewrite Hg. exact Hg.
  - unfold _clear. destruct (self_config self st); simpl; auto.
    destruct (dict_mutate _ _ st) eqn:E; auto.
    rewrite (dict_mutate_global _ _ _ _ E). exact Hg.
  - unfold _update. destruct (self_config self st); simpl; auto.
    destruct (dict_read cd st); simpl; auto.
    destruct (dict_mutate _ _ st) eqn:E; auto.
    rewrite (dict_mutate_global _ _ _ _ E). exact Hg.
  - unfold _as_dict. destruct (self_config self st); simpl; auto.
    destruct (dict_read _ st); simpl; auto.
  - destruct (dict_mutate r f st) eqn:E; auto.
    rewrite (dict_mutate_global _ _ _ _ E). exact Hg.
Qed.

Lemma run_calls_global (cs : list (call F)) (st : PyState F) cfg :
  global_config st = Some cfg -> global_config (run_calls cs st) = Some cfg.
Proof.
  revert st; induction cs as [|c cs IH]; intros st Hg; simpl; auto.
  apply IH, run_call_global, Hg.
Qed.

Lemma get_config_same (cs : list (call F)) (st : PyState F) :
  get_config (run_calls cs (snd (get_config st))) =
  (fst (get_config st), run_calls cs (snd (get_config st))).
Proof.
  pose proof (run_calls_global cs _ _ (get_config_global st)) as Hg.
  unfold get_config at 1. rewrite Hg. reflexivity.
Qed.

(** The first call creates the object, with a new dictionary. *)
Lemma get_config_first (st : PyState F) :
  global_config st = None ->
  configs st !! fst (get_config st) = None /\
  self_config (fst (get_config st)) (snd (get_config st)) = Ok (new_ref st).
Proof.
  intros Hg.
  unfold get_config, Config_new, alloc_dict, alloc_config, self_config.
  rewrite Hg. simpl. split.
  - set (st1 := {| dicts := _ |}). apply (new_ref_fresh st1).
  - rewrite lookup_insert_eq. reflexivity.
Qed.

Lemma as_dict_copy (self : ref) (st st' : PyState F) d :
  _as_dict self st = Ok (d, st') ->
  exists r m,
    configs st !! self = Some r /\ dicts st !! r = Some m /\
    dicts st !! d = None /\ r <> d /\
    dicts st' = <[d := m]> (dicts st) /\ configs st' = configs st.
Proof.
  unfold _as_dict, self_config, dict_read.
  destruct (configs st !! self) as [r|] eqn:Er; simpl; [|discriminate].
  destruct (dicts st !! r) as [m|] eqn:Em; simpl; [|discriminate].
  unfold alloc_dict. intros [= <- <-]. simpl.
  destruct (new_ref_fresh st) as [Hd _].
  exists r, m. repeat split; auto. intros ->. congruence.
Qed.

End Facts.
End ConfigFacts.

(** C10. In every state of the module, and so in its initial state, all
    calls of [get_config] return the same object, whatever calls of the
    module come in between; if the module variable is still [None], the
    first call creates this object, which did not exist before, with a new
    empty dictionary, and [_as_dict] returns on it.  Whenever [_as_dict]
    returns, the dictionary it returns is a new object with the contents of
    the stored one, and after any mutation of it [_get] and
    [Config.__getattr__] return what they returned before. *)
Theorem C10_singleton_and_copy {F : Type} (st : Config.PyState F)
    (cs : list (Config.call F)) :
  fst (Config.get_config (Config.run_calls cs (snd (Config.get_config st))))
    = fst (Config.get_config st) /\
  (Config.global_config st = None ->
   Config.configs st !! fst (Config.get_config st) = None /\
   Config.self_config (fst (Config.get_config st)) (snd (Config.get_config st))
     = Ok (Config.new_ref st) /\
   Config.dict_read (Config.new_ref st) (snd (Config.get_config st))
     = Ok empty /\
   is_ok (Config._as_dict (fst (Config.get_config st))
            (snd (Config.get_config st))) = true) /\
  forall (self d : Config.ref) (st' : Config.PyState F)
         (f : gmap string (Config.BasicType F)
              -> gmap string (Config.BasicType F)),
    Config._as_dict self st = Ok (d, st') ->
    Config.dicts st !! d = None /\
    (exists r, Config.self_config self st = Ok r /\ r <> d /\
               Config.dict_read d st' = Config.dict_read r st) /\
    exists st'',
      Config.dict_mutate d f st' = Ok st'' /\
      forall name default,
        Config._get self name default st''
          = Config._get self name default st /\
        Config.__getattr__ self name st'' = Config.__getattr__ self name st.
Proof.
  split; [rewrite ConfigFacts.get_config_same; reflexivity|].
  split.
  { intros Hg. destruct (ConfigFacts.get_config_first st Hg) as [Hc Hs].
    split; [exact Hc|]. split; [exact Hs|].
    assert (Hd : Config.dict_read (Config.new_ref st)
                   (snd (Config.get_config st)) = Ok empty).
    { unfold Config.get_config, Config.Config_new, Config.alloc_dict,
        Config.alloc_config, Config.dict_read.
      rewrite Hg. simpl. rewrite lookup_insert_eq. reflexivity. }
    split; [exact Hd|].
    unfold Config._as_dict. rewrite Hs. simpl. rewrite Hd. reflexivity. }
  intros self d st' f Has.
  destruct (ConfigFacts.as_dict_copy _ _ _ _ Has)
    as (r & m & Hr & Hm & Hd & Hne & Hds & Hcs).
  split; [exact Hd|]. split.
  { exists r. unfold Config.self_config, Config.dict_read.
    rewrite Hr, Hds, lookup_insert_eq, Hm. auto. }
  unfold Config.dict_mutate, Config.dict_read.
  rewrite Hds, lookup_insert_eq. simpl. eexists. split; [reflexivity|].
  intros name default.
  unfold Config._get, Config.__getattr__, Config.self_config, Config.dict_read.
  simpl. rewrite Hcs, Hr. simpl.
  rewrite !lookup_insert_ne by congruence. rewrite Hm. auto.
Qed.

(** Witness of [C10_singleton_and_copy]: from the initial state of the
    module, [get_config] after a second call, a new dictionary and an update
    with it returns the object that the first call created; and the copy of
    a configuration with two entries is cleared. *)
Lemma C10_singleton_and_copy_witness :
  (fst (Config.get_config
          (Config.run_calls Examples2.toy_config_calls
             (snd (Config.get_config (@Config.module_init Z)))))
     = fst (Config.get_config (@Config.module_init Z)) /\
   Config.configs (@Config.module_init Z)
     !! fst (Config.get_config (@Config.module_init Z)) = None /\
   Config.self_config (fst (Config.get_config (@Config.module_init Z)))
     (snd (Config.get_config (@Config.module_init Z)))
     = Ok (Config.new_ref (@Config.module_init Z)) /\
   Config.dict_read (Config.new_ref (@Config.module_init Z))
     (snd (Config.get_config (@Config.module_init Z))) = Ok empty /\
   is_ok (Config._as_dict (fst (Config.get_config (@Config.module_init Z)))
            (snd (Config.get_config (@Config.module_init Z)))) = true) /\
  Config.dicts (snd Examples.toy_config_state)
    !! fst Examples.toy_config_copy = None /\
  (exists r,
     Config.self_config (fst Examples.toy_config_state)
       (snd Examples.toy_config_state) = Ok r /\
     r <> fst Examples.toy_config_copy /\
     Config.dict_read (fst Examples.toy_config_copy)
       (snd Examples.toy_config_copy)
     = Config.dict_read r (snd Examples.toy_config_state)) /\
  exists st'',
    Config.dict_mutate (fst Examples.toy_config_copy) (fun _ => empty)
      (snd Examples.toy_config_copy) = Ok st'' /\
    forall name default,
      Config._get (fst Examples.toy_config_state) name default st''
      = Config._get (fst Examples.toy_config_state) name default
          (snd Examples.toy_config_state) /\
      Config.__getattr__ (fst Examples.toy_config_state) name st''
      = Config.__getattr__ (fst Examples.toy_config_state) name
          (snd Examples.toy_config_state).
Proof.
  split.
  - destruct (C10_singleton_and_copy (@Config.module_init Z)
                Examples2.toy_config_calls) as (Hsame & Hfirst & _).
    split; [exact Hsame | apply Hfirst; reflexivity].
  - destruct (C10_singleton_and_copy (snd Examples.toy_config_state) [])
      as (_ & _ & Hcopy).
    apply (Hcopy (fst Examples.toy_config_state)
             (fst Examples.toy_config_copy) (snd Examples.toy_config_copy)
             (fun _ => empty)).
    vm_compute. reflexivity.
Defined.

(** The configuration module, evaluated: reads through the [Config] before
    and after the returned copy has been cleared. *)
Example toy_config_reads :
  Config.__getattr__ (fst Examples.toy_config_state) "seed"
    (snd Examples.toy_config_state) = Ok (Config.VInt 3) /\
  Config.__getattr__ (fst Examples.toy_config_state) "device"
    (snd Examples.toy_config_state) = Raise KeyError /\
  (let* st := Config.dict_mutate (fst Examples.toy_config_copy)
                (fun _ => empty) (snd Examples.toy_config_copy) in
   Config.__getattr__ (fst Examples.toy_config_state) "seed" st)
  = Ok (Config.VInt 3) /\
  (let* st := Config._clear (fst Examples.toy_config_state)
                (snd Examples.toy_config_copy) in
   Config.__getattr__ (fst Examples.toy_config_state) "seed" st)
  = Raise KeyError.
Proof. repeat split; vm_compute; reflexivity. Qed.

(** ** main_a2c.py *)

Module MainFacts.
Import Torch Config MainA2C.

Section Facts.
Context {R : Type} `{Scalar R} {W : World}.

Lemma attr_lookup (cfg : gmap string (BasicType R)) name v :
  cfg !! name = Some v -> attr cfg name = Ok v.
Proof. intros E. unfold attr, dict_getitem. rewrite E. reflexivity. Qed.

(** [make_runstate] without a checkpoint, as long as it returns, fixes
    what it returns with one. *)
Lemma make_runstate_resume (lib : Lib R W) cfg (fresh : Fresh R W)
    (cp : Checkpoint R W) rs0 algo' :
  make_runstate lib cfg fresh None = Ok rs0 ->
  load_state_dict lib (fresh_algo fresh) (algo_state_dict (data cp))
    = Ok algo' ->
  make_runstate lib cfg fresh (Some cp) =
    Ok {| env := env rs0;
          algo := algo';
          datalogger := cp_datalogger (data cp);
          timer := cp_timer (data cp);
          xstats := cp_xstats (data cp);
          averages := cp_averages (data cp);
          dispensers := cp_dispensers (data cp);
          target_updater := target_updater rs0;
          episodes_factories := episodes_factories rs0;
          device := device rs0;
          negentropy_schedule := negentropy_schedule rs0;
          q_estimator := q_estimator rs0 |}.
Proof.
  unfold make_runstate. intros H0 Hl.
  destruct (attr cfg "max_simulation_timesteps") as [v1|]; simpl in *;
    [|discriminate].
  destruct (as_int v1) as [m|]; simpl in *; [|discriminate].
  destruct (attr cfg "num_data_logs") as [v2|]; simpl in *; [|discriminate].
  destruct (as_int v2) as [n|]; simpl in *; [|discriminate].
  destruct (floordiv m n) as [p|]; simpl in *; [|discriminate].
  destruct (make_target_update_dispenser lib cfg) as [tu|]; simpl in *;
    [|discriminate].
  rewrite Hl. simpl. injection H0 as <-. reflexivity.
Qed.

End Facts.
End MainFacts.

Section MainTheorems.
Import Torch Config MainA2C MainFacts.
Context {R : Type} `{Scalar R} {W : World}.

(** C5. [make_checkpoint] stores the state dict of the algorithm, the
    datalogger, the timer, the xstats, the averages and the dispensers of
    the run state, and the configuration dictionary and the wandb run id as
    metadata; [make_runstate] on that checkpoint returns a run state with
    these six components (the state dict through [load_state_dict]) in
    place of the freshly constructed ones, and with the freshly constructed
    other components. *)
Theorem C5_checkpoint_roundtrip (lib : Lib R W)
    (cfg cfg' : gmap string (BasicType R)) (fresh : Fresh R W)
    (rs rs0 : Runstate R W) (id : string) (algo' : A2C W) :
  cfg !! "wandb_run_id" = Some (VStr id) ->
  (forall a sd a', load_state_dict lib a sd = Ok a' -> state_dict lib a' = sd) ->
  load_state_dict lib (fresh_algo fresh) (state_dict lib (algo rs))
    = Ok algo' ->
  make_runstate lib cfg' fresh None = Ok rs0 ->
  exists cp rs',
    make_checkpoint lib cfg rs = Ok cp /\
    metadata cp = {| config := cfg; wandb_run_id := id |} /\
    data cp = {| algo_state_dict := state_dict lib (algo rs);
                 cp_datalogger := datalogger rs;
                 cp_timer := timer rs;
                 cp_xstats := xstats rs;
                 cp_averages := averages rs;
                 cp_dispensers := dispensers rs |} /\
    make_runstate lib cfg' fresh (Some cp) = Ok rs' /\
    state_dict lib (algo rs') = state_dict lib (algo rs) /\
    datalogger rs' = datalogger rs /\
    timer rs' = timer rs /\
    xstats rs' = xstats rs /\
    averages rs' = averages rs /\
    dispensers rs' = dispensers rs /\
    env rs' = env rs0 /\
    target_updater rs' = target_updater rs0 /\
    episodes_factories rs' = episodes_factories rs0 /\
    device rs' = device rs0 /\
    negentropy_schedule rs' = negentropy_schedule rs0 /\
    q_estimator rs' = q_estimator rs0.
Proof.
  intros Hid Hlaw Hload Hfresh.
  eexists. eexists. split.
  { unfold make_checkpoint. rewrite (attr_lookup _ _ _ Hid). reflexivity. }
  split; [reflexivity|]. split; [reflexivity|]. split.
  { apply (make_runstate_resume lib cfg' fresh _ rs0 algo' Hfresh).
    exact Hload. }
  simpl. split; [apply (Hlaw _ _ _ Hload)|]. repeat split; reflexivity.
Qed.

End MainTheorems.

(** Witness of [C5_checkpoint_roundtrip]: the run state of the 30th epoch
    is saved and resumed. *)
Lemma C5_checkpoint_roundtrip_witness :
  exists (cp : MainA2C.Checkpoint Q Examples.toy_world)
         (rs' : MainA2C.Runstate Q Examples.toy_world),
    MainA2C.make_checkpoint Examples.toy_lib Examples.toy_cfg
      Examples.toy_runstate = Ok cp /\
    MainA2C.metadata cp
      = @MainA2C.Build_CheckpointMetadata Q Examples.toy_cfg "run-1" /\
    MainA2C.data cp
      = @MainA2C.Build_CheckpointData Examples.toy_world
          42 7 8 (Examples.toy_xstats 30 12000) (Examples.toy_averages 9)
          (MainA2C.dispensers Examples.toy_runstate) /\
    MainA2C.make_runstate Examples.toy_lib Examples.toy_cfg
      Examples.toy_fresh (Some cp) = Ok rs' /\
    MainA2C.algo rs' = 42 /\
    MainA2C.datalogger rs' = 7 /\
    MainA2C.timer rs' = 8 /\
    MainA2C.xstats rs' = Examples.toy_xstats 30 12000 /\
    MainA2C.averages rs' = Examples.toy_averages 9 /\
    MainA2C.dispensers rs' = MainA2C.dispensers Examples.toy_runstate /\
    MainA2C.env rs' = 1.
Proof.
  destruct (C5_checkpoint_roundtrip Examples.toy_lib
              Examples.toy_cfg Examples.toy_cfg Examples.toy_fresh
              Examples.toy_runstate
              (@MainA2C.Build_Runstate Q Examples.toy_world
                 1 0 0 0 (Examples.toy_xstats 0 0) (Examples.toy_averages 0)
                 (@MainA2C.Build_RunstateDispensers Examples.toy_world
                    (0, 10000) (0, 10000) 0)
                 0 Examples.toy_factories 0 (fun t => inject_Z t) 0)
              "run-1" 42)
    as (cp & rs' & H1 & H2 & H3 & H4 & H5 & H6 & H7 & H8 & H9 & H10 & H11 & _).
  - reflexivity.
  - intros a sd a' [= ->]. reflexivity.
  - reflexivity.
  - vm_compute. reflexivity.
  - exists cp, rs'. repeat split; assumption.
Defined.

Section ControlTheorems.
Import Torch Config MainA2C MainFacts.
Context {R : Type} `{Scalar R} {W : World}.

Lemma make_runstate_dispensers (lib : Lib R W) cfg (fresh : Fresh R W)
    (m k fp : Z) (tuf : string) :
  cfg !! "max_simulation_timesteps" = Some (VInt m) ->
  cfg !! "num_data_logs" = Some (VInt k) -> k <> 0 ->
  cfg !! "target_update_function" = Some (VStr tuf) ->
  (tuf = "full" /\ cfg !! "target_update_full_period" = Some (VInt fp)) \/
  (tuf = "polyak" /\ fp = 0) ->
  exists rs0,
    make_runstate lib cfg fresh None = Ok rs0 /\
    datalog (dispensers rs0) = new_Dispenser lib 0 (m / k) /\
    target_update (dispensers rs0) = new_Dispenser lib 0 fp.
Proof.
  intros Hm Hk Hk0 Htuf Hcase.
  unfold make_runstate, make_target_update_dispenser, floordiv.
  rewrite (attr_lookup _ _ _ Hm); simpl.
  rewrite (attr_lookup _ _ _ Hk); simpl.
  rewrite decide_False by exact Hk0. simpl.
  rewrite (attr_lookup _ _ _ Htuf); simpl.
  destruct Hcase as [[-> Hfp]|[-> ->]]; simpl.
  - rewrite (attr_lookup _ _ _ Hfp); simpl. eexists; repeat split.
  - eexists; repeat split.
Qed.

(** C7. In an epoch, evaluation runs exactly when the evaluation flag is set
    and the epoch number is divisible by [evaluation_period]; the xstats
    are logged and the datalogger committed exactly when the datalog
    dispenser dispenses at the current [simulation_timesteps], and the
    target parameters are updated exactly when the target-update dispenser
    does; [make_runstate] constructs the datalog dispenser as
    [Dispenser(0, max_simulation_timesteps // num_data_logs)] and the
    target-update dispenser as [Dispenser(0, target_update_full_period)]
    for 'full' and [Dispenser(0, 0)] for 'polyak'. *)
Theorem C7_periodic_events (lib : Lib R W) (cfg : gmap string (BasicType R))
    (fresh : Fresh R W) (rs : Runstate R W)
    (period m k fp : Z) (ev sm : bool) (tuf : string) :
  cfg !! "evaluation_period" = Some (VInt period) -> period <> 0 ->
  cfg !! "evaluation" = Some (VBool ev) ->
  cfg !! "save_modelseq" = Some (VBool sm) ->
  cfg !! "max_simulation_timesteps" = Some (VInt m) ->
  cfg !! "num_data_logs" = Some (VInt k) -> k <> 0 ->
  cfg !! "target_update_function" = Some (VStr tuf) ->
  (tuf = "full" /\ cfg !! "target_update_full_period" = Some (VInt fp)) \/
  (tuf = "polyak" /\ fp = 0) ->
  let now := simulation_timesteps (xstats rs) in
  let log := dispense lib (datalog (dispensers rs)) now in
  let upd := dispense lib (target_update (dispensers rs)) now in
  (exists rs0,
     make_runstate lib cfg fresh None = Ok rs0 /\
     datalog (dispensers rs0) = new_Dispenser lib 0 (m / k) /\
     target_update (dispensers rs0) = new_Dispenser lib 0 fp) /\
  (exists rs' trace controlflow,
     run_epoch lib cfg rs = Ok (rs', trace) /\
     (In Do_run_evaluation trace <->
        ev = true /\ (period | epoch (xstats rs))) /\
     (In Do_log_xstats trace <-> fst log = true) /\
     (In Do_datalogger_commit trace <-> fst log = true) /\
     (In Do_target_updater trace <-> fst upd = true) /\
     (In Do_save_modelseq trace <-> fst log = true /\ sm = true) /\
     In (Do_run_simulation controlflow) trace /\
     In (Do_run_training controlflow) trace /\
     log_data controlflow = fst log /\
     update_target_parameters controlflow = fst upd /\
     datalog (dispensers rs') = snd log /\
     target_update (dispensers rs') = snd upd).
Proof.
  intros Hp Hp0 Hev Hsm Hm Hk Hk0 Htuf Hcase now log upd.
  split; [eapply make_runstate_dispensers; eauto|].
  unfold run_epoch, update_controlflow. fold now. fold log. fold upd.
  destruct log as [ld d1]. destruct upd as [lu d2]. simpl fst. simpl snd.
  rewrite (attr_lookup _ _ _ Hp); simpl. unfold pymod.
  rewrite decide_False by exact Hp0. simpl.
  assert (Hdiv : (epoch (xstats rs) mod period =? 0) = true <->
                 (period | epoch (xstats rs))).
  { rewrite Z.eqb_eq. apply Z.mod_divide. exact Hp0. }
  destruct (epoch (xstats rs) mod period =? 0);
    [rewrite (attr_lookup _ _ _ Hev); simpl|];
    (destruct ld; [rewrite (attr_lookup _ _ _ Hsm); simpl|]);
    destruct ev, sm, lu; simpl;
    (eexists; eexists; eexists; split; [reflexivity|]);
    simpl; repeat split; try tauto;
    try (intros; intuition (discriminate || auto)).
Qed.

End ControlTheorems.

(** Witness of [C7_periodic_events]: the 30th epoch of a run with the
    default periods; the datalog dispenser dispenses, the target-update
    dispenser does not, and evaluation runs. *)
Lemma C7_periodic_events_witness :
  let now := MainA2C.simulation_timesteps (MainA2C.xstats Examples.toy_runstate) in
  let log :=
    MainA2C.dispense Examples.toy_lib
      (MainA2C.datalog (MainA2C.dispensers Examples.toy_runstate)) now in
  let upd :=
    MainA2C.dispense Examples.toy_lib
      (MainA2C.target_update (MainA2C.dispensers Examples.toy_runstate)) now in
  (exists rs0,
     MainA2C.make_runstate Examples.toy_lib Examples.toy_cfg
       Examples.toy_fresh None = Ok rs0 /\
     MainA2C.datalog (MainA2C.dispensers rs0)
       = MainA2C.new_Dispenser Examples.toy_lib 0 (2000000 / 200) /\
     MainA2C.target_update (MainA2C.dispensers rs0)
       = MainA2C.new_Dispenser Examples.toy_lib 0 10000) /\
  (exists rs' trace controlflow,
     MainA2C.run_epoch Examples.toy_lib Examples.toy_cfg
       Examples.toy_runstate = Ok (rs', trace) /\
     (In MainA2C.Do_run_evaluation trace <->
        true = true /\
        (10 | MainA2C.epoch (MainA2C.xstats Examples.toy_runstate))) /\
     (In MainA2C.Do_log_xstats trace <-> fst log = true) /\
     (In MainA2C.Do_datalogger_commit trace <-> fst log = true) /\
     (In MainA2C.Do_target_updater trace <-> fst upd = true) /\
     (In MainA2C.Do_save_modelseq trace <-> fst log = true /\ false = true) /\
     In (MainA2C.Do_run_simulation controlflow) trace /\
     In (MainA2C.Do_run_training controlflow) trace /\
     MainA2C.log_data controlflow = fst log /\
     MainA2C.update_target_parameters controlflow = fst upd /\
     MainA2C.datalog (MainA2C.dispensers rs') = snd log /\
     MainA2C.target_update (MainA2C.dispensers rs') = snd upd).
Proof.
  apply (C7_periodic_events Examples.toy_lib Examples.toy_cfg
           Examples.toy_fresh Examples.toy_runstate
           10 2000000 200 10000 true false "full");
    try reflexivity; try discriminate.
  left. split; reflexivity.
Defined.

(** The 30th epoch, evaluated. *)
Example toy_run_epoch :
  (let* '(_, trace) :=
     MainA2C.run_epoch Examples.toy_lib Examples.toy_cfg
       Examples.toy_runstate in
   Ok trace)
  = Ok [ MainA2C.Do_log_xstats;
         MainA2C.Do_run_evaluation;
         MainA2C.Do_run_simulation
           {| MainA2C.log_data := true;
              MainA2C.update_target_parameters := false;
              MainA2C.evaluate := true;
              MainA2C.save_modelseq := false |};
         MainA2C.Do_run_training
           {| MainA2C.log_data := true;
              MainA2C.update_target_parameters := false;
              MainA2C.evaluate := true;
              MainA2C.save_modelseq := false |};
         MainA2C.Do_update_xstats_epoch;
         MainA2C.Do_datalogger_commit ].
Proof. vm_compute. reflexivity. Qed.

Section TrainingTheorems.
Import Torch Config MainA2C MainFacts.
Context {R : Type} `{Scalar R} {W : World}.

Lemma mapR_ext {A B} (f g : A -> result B) xs :
  (forall x, f x = g x) -> mapR f xs = mapR g xs.
Proof.
  intros E. induction xs as [|x xs IH]; simpl; [reflexivity|].
  rewrite E, IH. reflexivity.
Qed.

Lemma column_length (K : gset string) (key : string)
    (per : list (gmap string R)) :
  Forall (fun l : gmap string R => dom l = K) per -> key ∈ K ->
  length (column key per) = length per.
Proof.
  intros Hdom Hkey. unfold column.
  induction Hdom as [|l per Hl _ IH]; simpl; [reflexivity|].
  assert (Hin : key ∈ dom l) by (rewrite Hl; exact Hkey).
  apply elem_of_dom in Hin as [v Hv]. rewrite Hv. simpl. f_equal. exact IH.
Qed.

Lemma average_losses_lookup (K : gset string) (per : list (gmap string R)) :
  per <> [] -> Forall (fun l : gmap string R => dom l = K) per ->
  exists avg,
    average_losses per = Ok avg /\
    forall key, key ∈ K -> avg !! key = Some (mean (column key per)).
Proof.
  intros Hne Hdom. destruct per as [|first rest]; [congruence|].
  pose proof (Forall_inv Hdom) as Hfirst. simpl in Hfirst.
  unfold average_losses. rewrite decide_True.
  - eexists. split; [reflexivity|]. intros key Hkey.
    rewrite map_lookup_imap.
    assert (Hin : key ∈ dom first) by (rewrite Hfirst; exact Hkey).
    apply elem_of_dom in Hin as [v Hv]. rewrite Hv. reflexivity.
  - eapply Forall_impl; [exact Hdom|]. simpl. intros l ->. auto.
Qed.

(** C6. In a training step the actor objective is
    [losses['policy'] + w * losses['negentropy']] with [w] the negentropy
    schedule at the current [simulation_timesteps], the critic objective is
    [losses['critic']], and the losses are, key by key, the average over
    the episodes of the losses computed for each episode with the training
    discount. *)
Theorem C6_training_objectives (lib : Lib R W)
    (cfg : gmap string (BasicType R)) (rs : Runstate R W)
    (episodes : list (Episode W)) (discount : R)
    (per : list (gmap string R)) (K : gset string) :
  cfg !! "training_discount" = Some (VFloat discount) ->
  mapR (fun episode =>
          compute_losses lib (algo rs) episode discount (q_estimator rs))
       (map (fun episode => to_device lib episode (device rs)) episodes)
    = Ok per ->
  episodes <> [] ->
  Forall (fun l : gmap string R => dom l = K) per ->
  "policy" ∈ K -> "negentropy" ∈ K -> "critic" ∈ K ->
  let w := negentropy_schedule rs (simulation_timesteps (xstats rs)) in
  exists objectives data,
    run_training lib cfg rs episodes = Ok (objectives, data) /\
    negentropy_weight data = w /\
    (forall key, key ∈ K ->
       losses data !! key = Some (mean (column key per)) /\
       length (column key per) = length episodes) /\
    objectives !! "actor" =
      Some (add (mean (column "policy" per))
                (mul w (mean (column "negentropy" per)))) /\
    objectives !! "critic" = Some (mean (column "critic" per)) /\
    dom objectives = {[ "actor"; "critic" ]}.
Proof.
  intros Hd Hper Hne Hdom Hp Hn Hc w.
  pose proof (mapR_length _ _ _ Hper) as Hlen. rewrite length_map in Hlen.
  destruct (average_losses_lookup K per) as (avg & Havg & Hlk); auto.
  { intros ->. destruct episodes; [congruence|discriminate]. }
  unfold run_training.
  rewrite (mapR_ext _
             (fun episode =>
                compute_losses lib (algo rs) episode discount (q_estimator rs))).
  2:{ intros ep. rewrite (attr_lookup _ _ _ Hd). reflexivity. }
  rewrite Hper. simpl. rewrite Havg. simpl.
  unfold dict_getitem_R. rewrite !Hlk by assumption. simpl.
  eexists. eexists. split; [reflexivity|]. simpl.
  split; [reflexivity|]. split.
  { intros key Hkey. split; [apply Hlk; exact Hkey|].
    rewrite (column_length K) by assumption. exact Hlen. }
  split; [rewrite lookup_insert_ne by discriminate; apply lookup_insert_eq|].
  split; [apply lookup_insert_eq|].
  rewrite !dom_insert_L, dom_empty_L. set_solver.
Qed.

End TrainingTheorems.

(** Witness of [C6_training_objectives]: a training step on two episodes. *)
Lemma C6_training_objectives_witness :
  let w :=
    MainA2C.negentropy_schedule Examples.toy_runstate
      (MainA2C.simulation_timesteps (MainA2C.xstats Examples.toy_runstate)) in
  exists objectives data,
    MainA2C.run_training Examples.toy_lib Examples.toy_cfg
      Examples.toy_runstate Examples.toy_episodes = Ok (objectives, data) /\
    MainA2C.negentropy_weight data = w /\
    (forall key, key ∈ Examples.loss_keys ->
       MainA2C.losses data !! key
         = Some (Torch.mean (MainA2C.column key Examples.toy_per)) /\
       length (MainA2C.column key Examples.toy_per)
         = length Examples.toy_episodes) /\
    objectives !! "actor" =
      Some (Torch.add
              (Torch.mean (MainA2C.column "policy" Examples.toy_per))
              (Torch.mul w
                 (Torch.mean (MainA2C.column "negentropy" Examples.toy_per)))) /\
    objectives !! "critic"
      = Some (Torch.mean (MainA2C.column "critic" Examples.toy_per)) /\
    dom objectives = {[ "actor"; "critic" ]}.
Proof.
  apply (C6_training_objectives Examples.toy_lib Examples.toy_cfg
           Examples.toy_runstate Examples.toy_episodes (99 # 100)
           Examples.toy_per Examples.loss_keys).
  - reflexivity.
  - reflexivity.
  - discriminate.
  - repeat (constructor; [vm_compute; reflexivity|]). constructor.
  - vm_compute. reflexivity.
  - vm_compute. reflexivity.
  - vm_compute. reflexivity.
Defined.

(** The training step, evaluated: the averaged policy loss is
    [(0 + 1/2 + 3/2) / 2] and the entropy weight is the schedule at 12000
    timesteps. *)
Example toy_run_training :
  (let* '(objectives, data) :=
     MainA2C.run_training Examples.toy_lib Examples.toy_cfg
       Examples.toy_runstate Examples.toy_episodes in
   Ok (objectives !! "actor", objectives !! "critic",
       MainA2C.losses data !! "policy"))
  = Ok (Some (Torch.add ((0 + (1 # 2) + (3 # 2)) / inject_Z 2)%Q
                (Torch.mul (inject_Z 12000)
                   ((0 + (99 # 100) + (99 # 100)) / inject_Z 2)%Q)),
        Some ((0 + 1 + 1) / inject_Z 2)%Q,
        Some ((0 + (1 # 2) + (3 # 2)) / inject_Z 2)%Q).
Proof. vm_compute. reflexivity. Qed.

(** * Further properties *)

(** ** compute_q_values: shapes and exceptions *)

Module QValueFacts.
Import Torch TorchFacts PoeAdqn Spec.

Section Facts.
Context {R : Type} `{Scalar R} {Obs State Hid : Type}.

Lemma cat_last_Ok (a b c : list (list R)) :
  cat_last a b = Ok c -> length a = length b /\ length c = length a.
Proof.
  unfold cat_last. destruct (decide (length a = length b)) as [E|];
    [|discriminate].
  intros [= <-]. rewrite length_zip_with. split; [exact E|lia].
Qed.

Lemma zero_first_row_length (t t' : list (list R)) :
  zero_first_row t = Ok t' -> t <> [] /\ length t' = length t.
Proof.
  destruct t as [|row rest]; simpl; [discriminate|].
  intros [= <-]. split; [discriminate|reflexivity].
Qed.

Lemma history_features_Ok (models : Models R Obs State Hid) acts obs hf :
  compute_history_features models acts obs = Ok hf ->
  acts <> [] /\ length acts = length obs.
Proof.
  unfold compute_history_features.
  destruct (zero_first_row _) as [af|] eqn:Ez; simpl; [|discriminate].
  destruct (cat_last af _) as [inputs|] eqn:Ec; simpl; [|discriminate].
  intros _. apply zero_first_row_length in Ez as [Hne Hl].
  apply cat_last_Ok in Ec as [Hc _].
  rewrite roll_length, length_map in Hl. rewrite length_map in Hc.
  split; [|lia]. intros ->. apply Hne. reflexivity.
Qed.

Lemma history_features_empty (models : Models R Obs State Hid) obs :
  compute_history_features models [] obs = Raise IndexError.
Proof. reflexivity. Qed.

Lemma history_features_mismatch (models : Models R Obs State Hid) acts obs :
  acts <> [] -> length acts <> length obs ->
  compute_history_features models acts obs = Raise RuntimeError.
Proof.
  intros Hne Hl. unfold compute_history_features.
  destruct (zero_first_row _) as [af|] eqn:Ez; simpl.
  - apply zero_first_row_length in Ez as [_ Hlaf].
    rewrite roll_length, length_map in Hlaf.
    unfold cat_last. rewrite decide_False; [reflexivity|].
    rewrite length_map. lia.
  - destruct acts as [|a acts]; [congruence|].
    destruct (exists_last (l := a :: acts)) as (acts' & al & E);
      [discriminate|].
    rewrite E, map_app in Ez. simpl map in Ez. rewrite roll_fwd_snoc in Ez.
    discriminate.
Qed.

End Facts.
End QValueFacts.

Section QValueTheorems.
Import Torch TorchFacts PoeAdqn Spec QValueFacts.
Context {R : Type} `{Scalar R} {Obs State Hid : Type}.

(** X1. When [compute_q_values] returns, the episode is not empty, it has
    as many actions as observations, and both Q tensors have one row for
    each state. *)
Theorem X1_compute_q_values_rows (models : Models R Obs State Hid)
    (acts : list Z) (obs : list Obs) (sts : list State)
    (qh qhs : list (list R)) :
  compute_q_values models acts obs sts = Ok (qh, qhs) ->
  acts <> [] /\ length acts = length obs /\
  length qh = length sts /\ length qhs = length sts.
Proof.
  unfold compute_q_values.
  destruct (compute_history_features models acts obs) as [hf|] eqn:Eh; simpl;
    [|discriminate].
  destruct (cat_last hf _) as [inputs|] eqn:Ec; simpl; [|discriminate].
  intros [= <- <-]. apply history_features_Ok in Eh as [Hne Hl].
  apply cat_last_Ok in Ec as [Hc Hi]. rewrite length_map in Hc.
  rewrite !length_map. repeat split; auto; lia.
Qed.

(** X2. [compute_q_values] raises [IndexError] on an episode without
    actions (the assignment to row 0 of the action features fails) and
    [RuntimeError] when the numbers of actions and of observations
    differ. *)
Theorem X2_compute_q_values_raises (models : Models R Obs State Hid)
    (acts : list Z) (obs : list Obs) (sts : list State) :
  (acts = [] ->
   compute_q_values models acts obs sts = Raise IndexError) /\
  (acts <> [] -> length acts <> length obs ->
   compute_q_values models acts obs sts = Raise RuntimeError).
Proof.
  unfold compute_q_values. split.
  - intros ->. rewrite history_features_empty. reflexivity.
  - intros Hne Hl. rewrite history_features_mismatch by assumption.
    reflexivity.
Qed.

(** X3. [episodic_loss] raises the exception of the first episode whose
    loss raises, whatever episodes follow it. *)
Theorem X3_episodic_loss_first_failure
    (models target_models : Models R Obs State Hid) (discount : R)
    (before : list (Episode R Obs State)) (ep : Episode R Obs State)
    (after : list (Episode R Obs State)) (losses : list R) (e : exn) :
  mapR (episode_loss models target_models discount) before = Ok losses ->
  episode_loss models target_models discount ep = Raise e ->
  episodic_loss models target_models discount (before ++ ep :: after)
    = Raise e.
Proof.
  intros Hb He. unfold episodic_loss. rewrite episodic_loss_loop_spec.
  assert (E : mapR (episode_loss models target_models discount)
                (before ++ ep :: after) = Raise e).
  { clear -Hb He. revert losses Hb.
    induction before as [|b before IH]; intros losses Hb; simpl.
    - rewrite He. reflexivity.
    - simpl in Hb.
      destruct (episode_loss models target_models discount b); simpl in *;
        [|discriminate].
      destruct (mapR _ before) as [ls|] eqn:E; simpl in *; [|discriminate].
      rewrite (IH ls eq_refl). reflexivity. }
  rewrite E. reflexivity.
Qed.

(** X4. The Q values of an episode do not depend on its last action: the
    features of the last action are rolled to the first row, which is set
    to zero (two actions whose features have the same width). *)
Theorem X4_last_action_unused (models : Models R Obs State Hid)
    (acts : list Z) (a a' : Z) (obs : list Obs) (sts : list State) :
  length (action_model models a) = length (action_model models a') ->
  compute_q_values models (acts ++ [a]) obs sts =
  compute_q_values models (acts ++ [a']) obs sts.
Proof.
  intros Hw. unfold compute_q_values, compute_history_features.
  rewrite !map_app. simpl map. rewrite !roll_fwd_snoc. simpl zero_first_row.
  assert (E : forall xs ys : list R, length xs = length ys ->
                map (fun _ : R => zero) xs = map (fun _ : R => zero) ys).
  { induction xs as [|x xs IH]; intros [|y ys]; simpl; try discriminate;
      [reflexivity|]. intros [= E]. f_equal. apply IH, E. }
  rewrite (E _ _ Hw). reflexivity.
Qed.

End QValueTheorems.

(** Witness of [X1_compute_q_values_rows]. *)
Lemma X1_compute_q_values_rows_witness :
  [0; 1; 0] <> [] /\ length [0; 1; 0] = length [1; 2; 3] /\
  length Examples.toy_qh = length [10; 11; 12] /\
  length Examples.toy_qhs = length [10; 11; 12].
Proof.
  apply (X1_compute_q_values_rows (Examples.toy_models 5)
           [0; 1; 0] [1; 2; 3] [10; 11; 12]
           Examples.toy_qh Examples.toy_qhs).
  reflexivity.
Defined.

(** Witness of [X3_episodic_loss_first_failure]: the second of three
    episodes is empty. *)
Lemma X3_episodic_loss_first_failure_witness :
  PoeAdqn.episodic_loss (Examples.toy_models 5) (Examples.toy_models 7) 2
    ([Examples.toy_episode] ++
     Examples2.empty_episode :: [Examples.short_episode])
  = Raise IndexError.
Proof.
  apply (X3_episodic_loss_first_failure
           (Examples.toy_models 5) (Examples.toy_models 7) 2
           [Examples.toy_episode] Examples2.empty_episode
           [Examples.short_episode] [14378] IndexError);
    reflexivity.
Defined.

(** Witness of [X4_last_action_unused]. *)
Lemma X4_last_action_unused_witness :
  PoeAdqn.compute_q_values (Examples.toy_models 5)
    ([0; 1] ++ [0]) [1; 2; 3] [10; 11; 12] =
  PoeAdqn.compute_q_values (Examples.toy_models 5)
    ([0; 1] ++ [1]) [1; 2; 3] [10; 11; 12].
Proof.
  apply (X4_last_action_unused (Examples.toy_models 5)
           [0; 1] 0 1 [1; 2; 3] [10; 11; 12]).
  reflexivity.
Defined.

(** ** The loss functions: bootstrap at the end of an episode, actions *)

Module LossFacts2.
Import Torch TorchFacts PoeAdqn Spec Spec2 LossFacts.

Section Facts.
Context {R : Type} `{Scalar R}.

Lemma roll_back_lookup_mod {A} (xs : list A) t :
  (t < length xs)%nat ->
  roll (-1) xs !! t = xs !! (S t mod length xs)%nat.
Proof.
  destruct xs as [|x xs]; [simpl; lia|]. intros Ht. simpl in Ht.
  rewrite roll_back_cons. simpl length.
  destruct (decide (t = length xs)) as [->|Hne].
  - rewrite Nat.Div0.mod_same.
    rewrite lookup_app_r by lia. rewrite Nat.sub_diag. reflexivity.
  - rewrite Nat.mod_small by lia. rewrite lookup_app_l by lia. reflexivity.
Qed.

(** The target tensor, whatever the last [dones] entry is. *)
Lemma bootstrap_target_any (rewards : list R) (dones : list bool) discount
    (target_qh target_qhs : list (list R)) T n :
  length rewards = T -> length dones = T ->
  has_shape T n target_qh = true -> has_shape T n target_qhs = true ->
  (0 < n)%nat ->
  exists target,
    dual_head_target rewards dones discount target_qh target_qhs = Ok target /\
    length target = T /\
    forall t, (t < T)%nat ->
      exists r (d : bool) v,
        rewards !! t = Some r /\ dones !! t = Some d /\
        greedy_value target_qh target_qhs (S t mod T)%nat = Ok v /\
        target !! t = Some (add r (mul discount (if d then zero else v))).
Proof.
  intros Hlr Hld Hqh Hqhs Hn.
  destruct (argmax_rows_total _ _ _ Hqh Hn) as (greedy & Hg & Hlg & Hgr).
  pose proof Hqh as [Hlqh Hrqh]%has_shape_spec.
  pose proof Hqhs as [Hlqhs Hrqhs]%has_shape_spec.
  destruct (gather_rows_total target_qhs greedy) as [selected Hsel].
  { lia. }
  { intros t a row Ha Hrow. rewrite (Hrqhs _ _ Hrow).
    destruct (lookup_lt_is_Some_2 target_qh t) as [qrow Hq].
    { apply lookup_lt_Some in Ha. lia. }
    destruct (Hgr _ _ Hq) as (a' & Ha' & _ & Hrange). congruence. }
  destruct (gather_rows_lookup _ _ _ Hsel) as [Hlsel Hselk].
  unfold dual_head_target. rewrite Hg; simpl. rewrite Hsel; simpl.
  unfold where0. rewrite broadcast2_same by (rewrite roll_length; lia).
  simpl. rewrite broadcast2_same
    by (rewrite length_map, length_zip_with, roll_length; lia).
  eexists. split; [reflexivity|]. split.
  { rewrite length_zip_with, length_map, length_zip_with, roll_length. lia. }
  intros t Ht.
  destruct (lookup_lt_is_Some_2 rewards t) as [r Hr]; [lia|].
  destruct (lookup_lt_is_Some_2 dones t) as [d Hd]; [lia|].
  assert (Hmod : ((S t mod T) < T)%nat) by (apply Nat.mod_upper_bound; lia).
  destruct (lookup_lt_is_Some_2 greedy (S t mod T)%nat) as [a Ha]; [lia|].
  destruct (Hselk _ _ Ha) as (row & x & Hrow & Hx & Hsx).
  destruct (lookup_lt_is_Some_2 target_qh (S t mod T)%nat) as [qrow Hq]; [lia|].
  destruct (Hgr _ _ Hq) as (a' & Ha' & Harg & _).
  exists r, d, x. repeat split; auto.
  - unfold greedy_value. rewrite Hq, Hrow, Harg. simpl.
    replace a' with a by congruence. exact Hx.
  - rewrite lookup_zip_with, Hr. simpl.
    rewrite list_lookup_fmap, lookup_zip_with, Hd. simpl.
    rewrite roll_back_lookup_mod by lia.
    rewrite Hlsel, Hlg, Hsx. reflexivity.
Qed.

Lemma gather_at_raises (row : list R) i e :
  gather_at row i = Raise e -> e = RuntimeError.
Proof.
  unfold gather_at. destruct (decide (0 <= i)); [|congruence].
  destruct (row !! Z.to_nat i); congruence.
Qed.

Lemma gather_at_out_of_range (row : list R) i :
  ~ (0 <= i < Z.of_nat (length row)) -> gather_at row i = Raise RuntimeError.
Proof.
  intros Hi. unfold gather_at. destruct (decide (0 <= i)); [|reflexivity].
  destruct (row !! Z.to_nat i) as [x|] eqn:E; [|reflexivity].
  apply lookup_lt_Some in E. lia.
Qed.

(** One index out of range makes the whole [gather] fail. *)
Lemma gather_rows_out_of_range (values : list (list R)) index t a :
  index !! t = Some a ->
  (forall row, values !! t = Some row ->
               ~ (0 <= a < Z.of_nat (length row))) ->
  gather_rows values index = Raise RuntimeError.
Proof.
  revert values t; induction index as [|i index IH]; intros values t Ht Hr.
  - discriminate.
  - destruct values as [|row values]; [reflexivity|]. simpl.
    destruct t as [|t]; simpl in Ht.
    + injection Ht as ->.
      rewrite gather_at_out_of_range by (apply Hr; reflexivity). reflexivity.
    + destruct (gather_at row i) as [x|e] eqn:Ex; simpl.
      * rewrite (IH values t Ht) by (intros r Hrow; apply Hr; exact Hrow).
        reflexivity.
      * apply gather_at_raises in Ex as ->. reflexivity.
Qed.

(** [gather] reads the values at the given positions only. *)
Lemma gather_rows_ext (values values' : list (list R)) index :
  (forall t a, index !! t = Some a ->
               taken_value values t a = taken_value values' t a) ->
  gather_rows values index = gather_rows values' index.
Proof.
  revert values values'; induction index as [|i index IH];
    intros values values' Hv; [reflexivity|].
  pose proof (Hv 0%nat i eq_refl) as H0. unfold taken_value in H0.
  assert (Hrest : forall vs vs' : list (list R),
            (forall t a, index !! t = Some a ->
                         taken_value vs t a = taken_value vs' t a) ->
            gather_rows vs index = gather_rows vs' index) by exact IH.
  destruct values as [|row values], values' as [|row' values'];
    simpl in *.
  - reflexivity.
  - rewrite <- H0. reflexivity.
  - rewrite H0. reflexivity.
  - rewrite H0. destruct (gather_at row' i); simpl; [|reflexivity].
    rewrite (Hrest values values'); [reflexivity|].
    intros t j Hj. apply (Hv (S t) j Hj).
Qed.

End Facts.
End LossFacts2.

Section LossTheorems2.
Import Torch TorchFacts PoeAdqn Spec Spec2 LossFacts LossFacts2.
Context {R : Type} `{Scalar R} {Obs State : Type}.

(** X5. Whatever the last [dones] entry is, entry [t] of the target of
    both losses is [rewards[t] + discount * b] with [b] zero on a done step
    and otherwise the greedy target value at timestep [(t + 1) mod T]: at
    the last step of an episode that does not end with [done], the
    bootstrap value is the one of the first timestep of that episode. *)
Theorem X5_bootstrap_wraps_around (ep : Episode R Obs State) (discount : R)
    (qh qhs tqh tqhs : list (list R)) (T n : nat) :
  length (actions ep) = T -> length (rewards ep) = T ->
  length (dones ep) = T ->
  has_shape T n qh = true -> has_shape T n qhs = true ->
  has_shape T n tqh = true -> has_shape T n tqhs = true ->
  actions_in_range n (actions ep) = true -> (0 < n)%nat ->
  exists input_hs input_h target,
    qhs_loss_terms ep discount qh qhs tqh tqhs = Ok (input_hs, target) /\
    qh_loss_terms ep discount qh qhs tqh tqhs = Ok (input_h, target) /\
    length target = T /\
    forall t, (t < T)%nat ->
      exists r (d : bool) v,
        rewards ep !! t = Some r /\ dones ep !! t = Some d /\
        greedy_value tqh tqhs (S t mod T)%nat = Ok v /\
        target !! t = Some (add r (mul discount (if d then zero else v))).
Proof.
  intros Hla Hlr Hld Sqh Sqhs Stqh Stqhs Hrange Hn.
  destruct (bootstrap_target_any (rewards ep) (dones ep) discount tqh tqhs T n)
    as (target & Ht & Hlt & Htd); auto.
  destruct (gathered_at_actions qhs (actions ep) T n)
    as (input & Hin & _); auto.
  destruct (gathered_at_actions qh (actions ep) T n)
    as (input' & Hin' & _); auto.
  destruct (loss_terms_unfold ep discount qh qhs tqh tqhs)
    as [E1 E2].
  exists input, input', target.
  rewrite E1, E2, Hin, Hin', Ht. simpl. auto.
Qed.

(** X6. An action outside the range of the columns of the Q tensors makes
    both losses raise [RuntimeError]. *)
Theorem X6_action_out_of_range (ep : Episode R Obs State) (discount : R)
    (qh qhs tqh tqhs : list (list R)) (T n t : nat) (a : Z) :
  has_shape T n qh = true -> has_shape T n qhs = true ->
  actions ep !! t = Some a -> ~ (0 <= a < Z.of_nat n) ->
  qhs_loss ep discount qh qhs tqh tqhs = Raise RuntimeError /\
  qh_loss ep discount qh qhs tqh tqhs = Raise RuntimeError.
Proof.
  intros [_ Hqh]%has_shape_spec [_ Hqhs]%has_shape_spec Ha Hr.
  unfold qhs_loss, qhs_loss_terms, qh_loss, qh_loss_terms.
  rewrite (gather_rows_out_of_range qhs _ t a Ha)
    by (intros row Hrow; rewrite (Hqhs _ _ Hrow); exact Hr).
  rewrite (gather_rows_out_of_range qh _ t a Ha)
    by (intros row Hrow; rewrite (Hqh _ _ Hrow); exact Hr).
  split; reflexivity.
Qed.

(** X7. A loss depends on the online network through the values of its
    own head at the actions taken only: [qhs_loss] is the same for two
    online qhs tensors that agree at these positions, whatever the two
    online qh tensors are; and [qh_loss] is the same for two online qh
    tensors that agree at these positions, whatever the two online qhs
    tensors are. *)
Theorem X7_only_taken_actions (ep : Episode R Obs State) (discount : R)
    (qh qh' qhs qhs' tqh tqhs : list (list R)) :
  ((forall t a, actions ep !! t = Some a ->
      taken_value qhs t a = taken_value qhs' t a) ->
   qhs_loss ep discount qh qhs tqh tqhs
     = qhs_loss ep discount qh' qhs' tqh tqhs) /\
  ((forall t a, actions ep !! t = Some a ->
      taken_value qh t a = taken_value qh' t a) ->
   qh_loss ep discount qh qhs tqh tqhs
     = qh_loss ep discount qh' qhs' tqh tqhs).
Proof.
  split; intros Hv; unfold qhs_loss, qhs_loss_terms, qh_loss, qh_loss_terms.
  - rewrite (gather_rows_ext qhs qhs' _ Hv). reflexivity.
  - rewrite (gather_rows_ext qh qh' _ Hv). reflexivity.
Qed.

End LossTheorems2.

(** Witness of [X5_bootstrap_wraps_around]: a three-step episode that
    ends without [done]. *)
Lemma X5_bootstrap_wraps_around_witness :
  exists input_hs input_h target,
    PoeAdqn.qhs_loss_terms Examples2.truncated_episode 2
      Examples.toy_qh Examples.toy_qhs
      Examples.toy_target_qh Examples.toy_target_qhs
      = Ok (input_hs, target) /\
    PoeAdqn.qh_loss_terms Examples2.truncated_episode 2
      Examples.toy_qh Examples.toy_qhs
      Examples.toy_target_qh Examples.toy_target_qhs
      = Ok (input_h, target) /\
    length target = 3%nat /\
    forall t, (t < 3)%nat ->
      exists r (d : bool) v,
        PoeAdqn.rewards Examples2.truncated_episode !! t = Some r /\
        PoeAdqn.dones Examples2.truncated_episode !! t = Some d /\
        Spec.greedy_value Examples.toy_target_qh Examples.toy_target_qhs
          (S t mod 3)%nat = Ok v /\
        target !! t
          = Some (Torch.add r (Torch.mul 2 (if d then Torch.zero else v))).
Proof.
  apply (X5_bootstrap_wraps_around Examples2.truncated_episode 2
           Examples.toy_qh Examples.toy_qhs
           Examples.toy_target_qh Examples.toy_target_qhs 3 2);
    try reflexivity.
  lia.
Defined.

(** The target of the truncated episode, evaluated: the last entry is
    [5 + 2 * 20], with 20 the greedy target value of timestep 0. *)
Example truncated_episode_target :
  PoeAdqn.qhs_loss_terms Examples2.truncated_episode 2
    Examples.toy_qh Examples.toy_qhs
    Examples.toy_target_qh Examples.toy_target_qhs
  = Ok ([18; 352; 41], [61; 86; 45]).
Proof. reflexivity. Qed.

(** Witness of [X6_action_out_of_range]: action 2 with two columns. *)
Lemma X6_action_out_of_range_witness :
  PoeAdqn.qhs_loss Examples2.bad_action_episode 2
    Examples.toy_qh Examples.toy_qhs
    Examples.toy_target_qh Examples.toy_target_qhs = Raise RuntimeError /\
  PoeAdqn.qh_loss Examples2.bad_action_episode 2
    Examples.toy_qh Examples.toy_qhs
    Examples.toy_target_qh Examples.toy_target_qhs = Raise RuntimeError.
Proof.
  apply (X6_action_out_of_range Examples2.bad_action_episode 2
           Examples.toy_qh Examples.toy_qhs
           Examples.toy_target_qh Examples.toy_target_qhs 3 2 1 2);
    try reflexivity.
  simpl. lia.
Defined.

(** Witness of [X7_only_taken_actions]: for [qhs_loss] the online qhs
    values are changed at every position that is not taken and the online qh
    values everywhere, also at the actions taken and in their shape; for
    [qh_loss] the other way round. *)
Lemma X7_only_taken_actions_witness :
  PoeAdqn.qhs_loss Examples.toy_episode 2
    Examples.toy_qh Examples.toy_qhs
    Examples.toy_target_qh Examples.toy_target_qhs
  = PoeAdqn.qhs_loss Examples.toy_episode 2
      [[100; 200; 300]] [[18; 0]; [0; 352]; [41; 0]]
      Examples.toy_target_qh Examples.toy_target_qhs /\
  PoeAdqn.qh_loss Examples.toy_episode 2
    Examples.toy_qh Examples.toy_qhs
    Examples.toy_target_qh Examples.toy_target_qhs
  = PoeAdqn.qh_loss Examples.toy_episode 2
      [[3; 9]; [9; -7]; [24; 9]] [[100; 200; 300]]
      Examples.toy_target_qh Examples.toy_target_qhs.
Proof.
  split.
  - apply (proj1 (X7_only_taken_actions Examples.toy_episode 2
                    Examples.toy_qh [[100; 200; 300]]
                    Examples.toy_qhs [[18; 0]; [0; 352]; [41; 0]]
                    Examples.toy_target_qh Examples.toy_target_qhs)).
    intros [|[|[|t]]] a; simpl; intros [= <-]; reflexivity.
  - apply (proj2 (X7_only_taken_actions Examples.toy_episode 2
                    Examples.toy_qh [[3; 9]; [9; -7]; [24; 9]]
                    Examples.toy_qhs [[100; 200; 300]]
                    Examples.toy_target_qh Examples.toy_target_qhs)).
    intros [|[|[|t]]] a; simpl; intros [= <-]; reflexivity.
Defined.

(** ** The policies *)

Module PolicyFacts.
Import Torch TorchFacts PoeAdqn Spec Spec2.

Section Facts.
Context {R : Type} `{Scalar R}.

(** [argmax_from] keeps the first maximal element of what it has seen. *)
Lemma argmax_from_first_max (seen xs : list R) best_i best :
  strict_weak_order gt ->
  (seen ++ xs) !! best_i = Some best -> (best_i < length seen)%nat ->
  (forall j x, (j < length seen)%nat -> (seen ++ xs) !! j = Some x ->
               gt x best = false) ->
  (forall j x, (j < best_i)%nat -> (seen ++ xs) !! j = Some x ->
               gt best x = true) ->
  let k := argmax_from best_i best (length seen) xs in
  exists v, (seen ++ xs) !! k = Some v /\
    (forall j x, (seen ++ xs) !! j = Some x -> gt x v = false) /\
    (forall j x, (j < k)%nat -> (seen ++ xs) !! j = Some x -> gt v x = true).
Proof.
  intros (Hirr & Htr & Hco). revert seen best_i best.
  induction xs as [|x xs IH]; intros seen best_i best Hb Hbi Hall Hlow; simpl.
  - exists best. split; [exact Hb|]. split; [|exact Hlow].
    intros j y Hj. apply (Hall j y); [|exact Hj].
    apply lookup_lt_Some in Hj. rewrite app_nil_r in Hj. exact Hj.
  - assert (Hx : (seen ++ x :: xs) !! length seen = Some x).
    { rewrite lookup_app_r by lia. rewrite Nat.sub_diag. reflexivity. }
    assert (Hl : length (seen ++ [x]) = S (length seen)).
    { rewrite length_app. simpl. lia. }
    assert (Happ : seen ++ x :: xs = (seen ++ [x]) ++ xs).
    { rewrite <- app_assoc. reflexivity. }
    destruct (gt x best) eqn:Eg.
    + specialize (IH (seen ++ [x]) (length seen) x).
      rewrite Hl, <- Happ in IH. apply IH; [exact Hx|lia| |].
      * intros j y Hj Hy. destruct (decide (j = length seen)) as [->|Hne].
        { rewrite Hx in Hy. injection Hy as <-. apply Hirr. }
        destruct (gt y x) eqn:Eyx; [|reflexivity].
        rewrite <- (Hall j y); [|lia|exact Hy].
        symmetry. apply (Htr y x best); assumption.
      * intros j y Hj Hy.
        destruct (Hco x best y Eg) as [Hxy|Hyb]; [exact Hxy|].
        rewrite (Hall j y) in Hyb; [discriminate|lia|exact Hy].
    + specialize (IH (seen ++ [x]) best_i best).
      rewrite Hl, <- Happ in IH. apply IH; [exact Hb|lia| |exact Hlow].
      intros j y Hj Hy. destruct (decide (j = length seen)) as [->|Hne].
      { rewrite Hx in Hy. injection Hy as <-. exact Eg. }
      apply (Hall j y); [lia|exact Hy].
Qed.

Lemma argmax_first_max (qs : list R) a :
  strict_weak_order gt -> argmax qs = Ok a ->
  0 <= a < Z.of_nat (length qs) /\
  exists v, qs !! Z.to_nat a = Some v /\
    (forall j x, qs !! j = Some x -> gt x v = false) /\
    (forall j x, (j < Z.to_nat a)%nat -> qs !! j = Some x -> gt v x = true).
Proof.
  intros Hswo Ha. split; [apply argmax_range; exact Ha|].
  destruct qs as [|q qs]; simpl in Ha; [discriminate|]. injection Ha as <-.
  rewrite Nat2Z.id.
  apply (argmax_from_first_max [q] qs 0%nat q Hswo); simpl;
    [reflexivity|lia| |intros j x Hj; lia].
  intros [|j] x Hj; [|lia]. intros [= <-]. apply Hswo.
Qed.

End Facts.
End PolicyFacts.

Section PolicyTheorems2.
Import Torch TorchFacts PoeAdqn Spec Spec2 PolicyFacts.
Context {R : Type} `{Scalar R} {Obs State Hid : Type}.

(** X8. [po_sample_action] is greedy: when the comparison of Q values is
    a strict weak order and the policy holds one row of history features,
    the action returned is an index of the qh values of that row, no qh
    value is greater than the one at that index, and every qh value at a
    smaller index is smaller (ties go to the first action). *)
Theorem X8_po_sample_action_greedy (models : Models R Obs State Hid)
    (self : TargetPolicy R Hid) (row : list R) (a : Z) :
  strict_weak_order gt ->
  history_features self = Some [row] ->
  po_sample_action models self = Ok a ->
  let qs := qh_model models row in
  0 <= a < Z.of_nat (length qs) /\
  exists v, qs !! Z.to_nat a = Some v /\
    (forall j x, qs !! j = Some x -> gt x v = false) /\
    (forall j x, (j < Z.to_nat a)%nat -> qs !! j = Some x -> gt v x = true).
Proof.
  intros Hswo Hf Ha qs. unfold po_sample_action in Ha. rewrite Hf in Ha.
  simpl in Ha. rewrite app_nil_r in Ha.
  apply argmax_first_max; assumption.
Qed.

(** X9. On a [TargetPolicy] that has gone through calls of [reset] and
    [step] since its construction, [po_sample_action] raises [TypeError]
    exactly when there was no call at all; after a call the hidden state
    and the history features are set. *)
Theorem X9_sample_before_reset (models : Models R Obs State Hid)
    (cs : list (Behavior.call Obs)) :
  let policy :=
    fold_left (Behavior.run_target_call models) cs TargetPolicy_init in
  (po_sample_action models policy = Raise TypeError <-> cs = []) /\
  (cs <> [] -> is_Some (history_features policy) /\ is_Some (hidden policy)).
Proof.
  intros policy.
  assert (Hset : cs <> [] ->
            is_Some (history_features policy) /\ is_Some (hidden policy)).
  { intros Hne. destruct (exists_last (l := cs) Hne) as (cs' & c & E).
    subst policy. rewrite E, fold_left_app. simpl.
    set (p := fold_left _ cs' _).
    destruct c as [o|a o]; simpl; unfold reset, step, _update;
      destruct (history_model models _ _); simpl; split; eauto. }
  split; [|exact Hset]. split.
  - intros Hraise. destruct cs as [|c cs]; [reflexivity|].
    destruct Hset as [[fs Hfs] _]; [discriminate|].
    unfold po_sample_action in Hraise. rewrite Hfs in Hraise.
    destruct (concat _); simpl in Hraise; discriminate.
  - intros ->. reflexivity.
Qed.

(** X10. A [BehaviorPolicy] keeps its inner policy in step with a
    [TargetPolicy] given the same calls and never changes [epsilon]; its
    [po_sample_action] raises [AttributeError] while [epsilon] is not
    assigned, returns the sampled action when the random number is below
    [epsilon] (even before any reset), and otherwise returns what the
    [TargetPolicy] returns. *)
Theorem X10_behavior_policy (lt : R -> R -> bool)
    (models : Models R Obs State Hid) (self : Behavior.BehaviorPolicy R Hid)
    (cs : list (Behavior.call Obs)) (u : R) (sample : Z) :
  let self' := fold_left (Behavior.run_call models) cs self in
  let inner :=
    fold_left (Behavior.run_target_call models) cs
      (Behavior.target_policy self) in
  Behavior.target_policy self' = inner /\
  Behavior.epsilon self' = Behavior.epsilon self /\
  (Behavior.epsilon self = None ->
   Behavior.po_sample_action lt models self' u sample
     = Behavior.AttributeError) /\
  (forall eps, Behavior.epsilon self = Some eps -> lt u eps = true ->
   Behavior.po_sample_action lt models self' u sample
     = Behavior.Returns sample) /\
  (forall eps, Behavior.epsilon self = Some eps -> lt u eps = false ->
   Behavior.po_sample_action lt models self' u sample
     = Behavior.of_result (po_sample_action models inner)).
Proof.
  intros self' inner.
  assert (E : Behavior.target_policy self' = inner /\
              Behavior.epsilon self' = Behavior.epsilon self).
  { subst self' inner. revert self.
    induction cs as [|c cs IH]; intros self; simpl; [auto|].
    destruct (IH (Behavior.run_call models self c)) as [E1 E2].
    rewrite E1, E2. destruct c; simpl; auto. }
  destruct E as [E1 E2]. repeat split; auto.
  - intros Hn. unfold Behavior.po_sample_action. rewrite E2, Hn. reflexivity.
  - intros eps He Hl. unfold Behavior.po_sample_action.
    rewrite E2, He, Hl. reflexivity.
  - intros eps He Hl. unfold Behavior.po_sample_action.
    rewrite E2, He, Hl, E1. reflexivity.
Qed.

End PolicyTheorems2.

(** Witness of [X8_po_sample_action_greedy]: the integer policy after three
    calls; its qh values are [[24; -19]]. *)
Lemma X8_po_sample_action_greedy_witness :
  let qs := PoeAdqn.qh_model (Examples.toy_models 5) [8; 16] in
  0 <= 0 < Z.of_nat (length qs) /\
  exists v, qs !! Z.to_nat 0 = Some v /\
    (forall j x, qs !! j = Some x -> Torch.gt x v = false) /\
    (forall j x, (j < Z.to_nat 0)%nat -> qs !! j = Some x ->
                 Torch.gt v x = true).
Proof.
  apply (X8_po_sample_action_greedy (Examples.toy_models 5)
           (Spec.run_policy (Examples.toy_models 5)
              PoeAdqn.TargetPolicy_init Examples.toy_run_a)
           [8; 16] 0).
  - unfold Spec2.strict_weak_order. simpl. repeat split; intros; lia.
  - reflexivity.
  - reflexivity.
Defined.

(** ** The configuration store *)

Module ConfigFacts2.
Import Config Spec2.

Section Facts.
Context {F : Type}.

Lemma dict_mutate_Ok r f (st st' : PyState F) :
  dict_mutate r f st = Ok st' ->
  exists m, dicts st !! r = Some m /\
    dicts st' = <[r := f m]> (dicts st) /\
    configs st' = configs st /\ global_config st' = global_config st.
Proof.
  unfold dict_mutate, dict_read.
  destruct (dicts st !! r) as [m|]; simpl; [|discriminate].
  intros [= <-]. exists m. auto.
Qed.

Lemma update_Ok self cd (st st' : PyState F) :
  _update self cd st = Ok st' ->
  exists d old new,
    configs st !! self = Some d /\ dicts st !! d = Some old /\
    dicts st !! cd = Some new /\
    dicts st' = <[d := new ∪ old]> (dicts st) /\
    configs st' = configs st /\ global_config st' = global_config st.
Proof.
  unfold _update, self_config, dict_read.
  destruct (configs st !! self) as [d|]; simpl; [|discriminate].
  destruct (dicts st !! cd) as [new|] eqn:En; simpl; [|discriminate].
  intros (old & Ho & Hd & Hc & Hg)%dict_mutate_Ok.
  exists d, old, new. repeat split; try assumption; reflexivity.
Qed.

Lemma clear_Ok self (st st' : PyState F) :
  _clear self st = Ok st' ->
  exists d old,
    configs st !! self = Some d /\ dicts st !! d = Some old /\
    dicts st' = <[d := empty]> (dicts st) /\
    configs st' = configs st /\ global_config st' = global_config st.
Proof.
  unfold _clear, self_config.
  destruct (configs st !! self) as [d|]; simpl; [|discriminate].
  intros (old & Ho & Hd & Hc & Hg)%dict_mutate_Ok.
  exists d, old. repeat split; try assumption; reflexivity.
Qed.

Lemma as_dict_Ok self d (st st' : PyState F) :
  _as_dict self st = Ok (d, st') ->
  exists r m,
    configs st !! self = Some r /\ dicts st !! r = Some m /\
    dicts st !! d = None /\
    dicts st' = <[d := m]> (dicts st) /\
    configs st' = configs st /\ global_config st' = global_config st.
Proof.
  unfold _as_dict, self_config, dict_read.
  destruct (configs st !! self) as [r|] eqn:Er; simpl; [|discriminate].
  destruct (dicts st !! r) as [m|] eqn:Em; simpl; [|discriminate].
  unfold alloc_dict. intros [= <- <-]. simpl.
  destruct (ConfigFacts.new_ref_fresh st) as [Hd _].
  exists r, m. repeat split; try assumption; reflexivity.
Qed.

(** Reads through a [Config] look at its own dictionary only. *)
Lemma reads_frame (st st' : PyState F) self d :
  configs st !! self = Some d -> configs st' !! self = Some d ->
  dicts st' !! d = dicts st !! d ->
  forall name default,
    _get self name default st' = _get self name default st /\
    __getattr__ self name st' = __getattr__ self name st.
Proof.
  intros Hc Hc' Hd name default.
  unfold _get, __getattr__, self_config, dict_read.
  rewrite Hc, Hc'. simpl. rewrite Hd. auto.
Qed.

Lemma store_ok_step (st st' : PyState F) :
  store_ok st ->
  (forall d, is_Some (dicts st !! d) -> is_Some (dicts st' !! d)) ->
  configs st' = configs st -> global_config st' = global_config st ->
  store_ok st'.
Proof.
  intros [H1 H2] Hd Hc Hg. split.
  - intros c d. rewrite Hc. intros Hcd. apply Hd, (H1 c d Hcd).
  - intros c. rewrite Hg, Hc. apply H2.
Qed.

Lemma is_Some_insert {V} (m : gmap ref V) r v d :
  is_Some (m !! d) -> is_Some (<[r := v]> m !! d).
Proof.
  intros Hs. destruct (decide (r = d)) as [->|Hne].
  - rewrite lookup_insert_eq. eauto.
  - rewrite lookup_insert_ne by exact Hne. exact Hs.
Qed.

Lemma store_ok_get_config (st : PyState F) :
  store_ok st -> store_ok (snd (get_config st)).
Proof.
  intros Hok. unfold get_config.
  destruct (global_config st) as [c|] eqn:Eg; [exact Hok|].
  unfold Config_new, alloc_dict, alloc_config. simpl.
  destruct Hok as [H1 H2]. split; simpl.
  - intros c d Hcd. apply lookup_insert_Some in Hcd as [[_ <-]|[_ Hcd]].
    + rewrite lookup_insert_eq. eauto.
    + apply is_Some_insert, (H1 c d Hcd).
  - intros c [= <-]. rewrite lookup_insert_eq. eauto.
Qed.

(** Every call keeps the store well formed. *)
Lemma store_ok_run_call (c : call F) (st : PyState F) :
  store_ok st -> store_ok (run_call c st).
Proof.
  intros Hok. destruct c; simpl; auto.
  - apply store_ok_get_config, Hok.
  - destruct (_clear self st) as [st'|] eqn:E; [|exact Hok].
    apply clear_Ok in E as (d & old & _ & _ & Hd & Hc & Hg).
    apply (store_ok_step st); auto. intros r. rewrite Hd.
    apply is_Some_insert.
  - destruct (_update self cd st) as [st'|] eqn:E; [|exact Hok].
    apply update_Ok in E as (d & old & new & _ & _ & _ & Hd & Hc & Hg).
    apply (store_ok_step st); auto. intros r. rewrite Hd.
    apply is_Some_insert.
  - destruct (_as_dict self st) as [[d st']|] eqn:E; [|exact Hok].
    unfold _as_dict in E.
    destruct (self_config self st); simpl in E; [|discriminate].
    destruct (dict_read _ st); simpl in E; [|discriminate].
    injection E as <- <-. apply (store_ok_step st); auto.
    intros r. apply is_Some_insert.
  - apply (store_ok_step st); auto. intros r. apply is_Some_insert.
  - destruct (dict_mutate r f st) as [st'|] eqn:E; [|exact Hok].
    apply dict_mutate_Ok in E as (m & _ & Hd & Hc & Hg).
    apply (store_ok_step st); auto. intros r'. rewrite Hd.
    apply is_Some_insert.
Qed.

Lemma store_ok_run_calls (cs : list (call F)) (st : PyState F) :
  store_ok st -> store_ok (run_calls cs st).
Proof.
  revert st; induction cs as [|c cs IH]; intros st Hok; simpl; auto.
  apply IH, store_ok_run_call, Hok.
Qed.

Lemma store_ok_init : store_ok (@module_init F).
Proof. split; simpl; intros; [rewrite lookup_empty in *|]; discriminate. Qed.

(** A dictionary that no [Config] refers to keeps its contents under
    every call that is not a mutation of that dictionary. *)
Lemma untouched_run_call d m (c : call F) (st : PyState F) :
  (forall f, c <> CallMutate d f) ->
  untouched d m st -> untouched d m (run_call c st).
Proof.
  intros Hc (Hok & Hno & Hd).
  split; [apply store_ok_run_call, Hok|].
  assert (Hfresh : forall st0 : PyState F,
            dicts st0 !! d = Some m -> new_ref st0 <> d).
  { intros st0 Hd0 E. destruct (ConfigFacts.new_ref_fresh st0) as [Hf _].
    rewrite E in Hf. congruence. }
  destruct c; simpl; auto.
  - unfold get_config. destruct (global_config st); [auto|].
    unfold Config_new, alloc_dict, alloc_config. simpl. split.
    + intros c Hcd. apply lookup_insert_Some in Hcd as [[_ E]|[_ Hcd]].
      * apply (Hfresh st Hd E).
      * apply (Hno c Hcd).
    + rewrite lookup_insert_ne by (apply Hfresh, Hd). exact Hd.
  - destruct (_clear self st) as [st'|] eqn:E; [|auto].
    apply clear_Ok in E as (r & old & Hr & _ & Hds & Hcs & _).
    rewrite Hcs, Hds. split; [exact Hno|].
    rewrite lookup_insert_ne; [exact Hd|]. intros ->. apply (Hno self Hr).
  - destruct (_update self cd st) as [st'|] eqn:E; [|auto].
    apply update_Ok in E as (r & old & new & Hr & _ & _ & Hds & Hcs & _).
    rewrite Hcs, Hds. split; [exact Hno|].
    rewrite lookup_insert_ne; [exact Hd|]. intros ->. apply (Hno self Hr).
  - destruct (_as_dict self st) as [[r st']|] eqn:E; [|auto].
    unfold _as_dict in E.
    destruct (self_config self st); simpl in E; [|discriminate].
    destruct (dict_read _ st); simpl in E; [|discriminate].
    injection E as <- <-. simpl. split; [exact Hno|].
    rewrite lookup_insert_ne by (apply Hfresh, Hd). exact Hd.
  - split; [exact Hno|].
    rewrite lookup_insert_ne by (apply Hfresh, Hd). exact Hd.
  - destruct (dict_mutate r f st) as [st'|] eqn:E; [|auto].
    apply dict_mutate_Ok in E as (m' & _ & Hds & Hcs & _).
    rewrite Hcs, Hds. split; [exact Hno|].
    rewrite lookup_insert_ne; [exact Hd|]. intros ->. apply (Hc f eq_refl).
Qed.

Lemma untouched_run_calls d m (cs : list (call F)) (st : PyState F) :
  Forall (fun c => forall f, c <> CallMutate d f) cs ->
  untouched d m st -> untouched d m (run_calls cs st).
Proof.
  intros Hcs. revert st. induction Hcs as [|c cs Hc _ IH]; intros st Hu;
    simpl; auto.
  apply IH, untouched_run_call; assumption.
Qed.

End Facts.
End ConfigFacts2.

Section ConfigTheorems2.
Import Config Spec2 ConfigFacts2.
Context {F : Type}.

(** X11. After [_update] with a dictionary, the methods [_get] and
    [__getattr__] called with a name that this dictionary has return its
    value there, and called with any other name they return what they
    returned before.  [__getattr__] is the method Python calls for an
    attribute that normal lookup does not find: the statement is about the
    method, and says nothing of the attributes that normal lookup finds
    ([_config], the methods of the class and the attributes of [object]),
    which never reach it. *)
Theorem X11_update_then_read (st st' : PyState F) (self cd : ref)
    (name : string) (default : BasicType F) :
  _update self cd st = Ok st' ->
  exists new,
    dict_read cd st = Ok new /\
    match new !! name with
    | Some v =>
        _get self name default st' = Ok v /\
        __getattr__ self name st' = Ok v
    | None =>
        _get self name default st' = _get self name default st /\
        __getattr__ self name st' = __getattr__ self name st
    end.
Proof.
  intros (d & old & new & Hc & Ho & Hn & Hd & Hcs & _)%update_Ok.
  exists new. split; [unfold dict_read; rewrite Hn; reflexivity|].
  unfold _get, __getattr__, self_config, dict_read, dict_get, dict_getitem.
  rewrite Hcs, !Hc. simpl. rewrite Hd, lookup_insert_eq, Ho. simpl.
  destruct (new !! name) as [v|] eqn:Ev.
  - rewrite (lookup_union_Some_l new old name v Ev). auto.
  - rewrite (lookup_union_r new old name Ev). auto.
Qed.

(** X12. [_update] copies the entries: when the dictionary passed in is not
    the one of the [Config], a later mutation of it changes nothing of what
    is read through the [Config]. *)
Theorem X12_update_copies_entries (st st1 st2 : PyState F) (self cd d : ref)
    (f : gmap string (BasicType F) -> gmap string (BasicType F)) :
  _update self cd st = Ok st1 ->
  self_config self st = Ok d -> d <> cd ->
  dict_mutate cd f st1 = Ok st2 ->
  forall name default,
    _get self name default st2 = _get self name default st1 /\
    __getattr__ self name st2 = __getattr__ self name st1.
Proof.
  intros (d' & old & new & Hc & _ & _ & _ & Hcs & _)%update_Ok Hself Hne
         (m & _ & Hd2 & Hcs2 & _)%dict_mutate_Ok.
  unfold self_config in Hself. rewrite Hc in Hself. injection Hself as ->.
  apply (reads_frame st1 st2 self d).
  - rewrite Hcs. exact Hc.
  - rewrite Hcs2, Hcs. exact Hc.
  - rewrite Hd2. apply lookup_insert_ne. congruence.
Qed.

(** X13. After [_clear], the method [_get] returns the default for every
    name and the method [__getattr__] raises [KeyError] for every name it is
    called with.  Python calls [__getattr__] only for an attribute that
    normal lookup does not find: [_config], the methods of the class and the
    attributes of [object] are found as before and never reach it. *)
Theorem X13_clear_forgets (st st' : PyState F) (self : ref)
    (name : string) (default : BasicType F) :
  _clear self st = Ok st' ->
  _get self name default st' = Ok default /\
  __getattr__ self name st' = Raise KeyError.
Proof.
  intros (d & old & Hc & _ & Hd & Hcs & _)%clear_Ok.
  unfold _get, __getattr__, self_config, dict_read, dict_get, dict_getitem.
  rewrite Hcs, Hc. simpl. rewrite Hd, lookup_insert_eq. simpl.
  rewrite lookup_empty. auto.
Qed.

(** X14. The dictionary returned by [_as_dict] is a snapshot: in a well
    formed store no later call of the module, and no mutation of another
    dictionary, changes its contents. *)
Theorem X14_as_dict_snapshot (st st1 : PyState F) (self d : ref)
    (cs : list (call F)) :
  store_ok st ->
  _as_dict self st = Ok (d, st1) ->
  Forall (fun c => forall f, c <> CallMutate d f) cs ->
  dict_read d (run_calls cs st1) = dict_read d st1 /\
  exists r, self_config self st = Ok r /\
            dict_read d st1 = dict_read r st.
Proof.
  intros Hok Has Hcs.
  destruct (as_dict_Ok _ _ _ _ Has)
    as (r & m & Hr & Hm & Hd & Hds & Hcfs & Hgs).
  assert (Hu : untouched d m st1).
  { split; [|split].
    - apply (store_ok_step st); auto. intros r'. rewrite Hds.
      apply is_Some_insert.
    - intros c Hc. rewrite Hcfs in Hc. destruct Hok as [H1 _].
      destruct (H1 c d Hc) as [m' Hm']. congruence.
    - rewrite Hds. apply lookup_insert_eq. }
  destruct (untouched_run_calls d m cs st1 Hcs Hu) as (_ & _ & Hd').
  split.
  - unfold dict_read. destruct Hu as (_ & _ & Hd1). rewrite Hd', Hd1.
    reflexivity.
  - exists r. unfold self_config, dict_read.
    rewrite Hr, Hds, lookup_insert_eq, Hm. auto.
Qed.

(** X15. Whatever calls are made from the initial state of the module, the
    store stays well formed, and [_get] on the object returned by
    [get_config] returns and attribute access on it returns or raises
    [KeyError]. *)
Theorem X15_singleton_always_readable (cs : list (call F)) (name : string)
    (default : BasicType F) :
  let st := run_calls cs (@module_init F) in
  let c := fst (get_config st) in
  let st' := snd (get_config st) in
  store_ok st' /\
  (exists v, _get c name default st' = Ok v) /\
  ((exists v, __getattr__ c name st' = Ok v) \/
   __getattr__ c name st' = Raise KeyError).
Proof.
  intros st c st'.
  assert (Hok : store_ok st')
    by (apply store_ok_get_config, store_ok_run_calls, store_ok_init).
  split; [exact Hok|].
  pose proof (ConfigFacts.get_config_global st) as Hg. fold c st' in Hg.
  destruct Hok as [H1 H2]. destruct (H2 c Hg) as [d Hd].
  destruct (H1 c d Hd) as [m Hm].
  unfold _get, __getattr__, self_config, dict_read, dict_getitem.
  rewrite Hd. simpl. rewrite Hm. simpl. split; [eauto|].
  destruct (m !! name); eauto.
Qed.

(** X16. A newly constructed [Config] shares nothing with the existing
    ones: it is a different object, it starts empty, and updating it leaves
    what is read through any existing [Config] unchanged. *)
Theorem X16_new_config_independent (st : PyState F) (c0 d0 : ref) :
  store_ok st -> configs st !! c0 = Some d0 ->
  let c := fst (Config_new st) in
  let st1 := snd (Config_new st) in
  c <> c0 /\
  (forall name default, _get c name default st1 = Ok default) /\
  (forall cd st2 name default,
     _update c cd st1 = Ok st2 ->
     _get c0 name default st2 = _get c0 name default st /\
     __getattr__ c0 name st2 = __getattr__ c0 name st).
Proof.
  intros [H1 _] Hc0 c st1.
  destruct (H1 c0 d0 Hc0) as [m0 Hm0].
  destruct (ConfigFacts.new_ref_fresh st) as [Hfd _].
  assert (Hd : new_ref st <> d0) by (intros E; rewrite E in Hfd; congruence).
  subst c st1. unfold Config_new, alloc_dict, alloc_config. simpl.
  set (st' := {| dicts := _ |}).
  destruct (ConfigFacts.new_ref_fresh st') as [_ Hfc]. simpl in Hfc.
  assert (Hc : new_ref st' <> c0) by (intros E; rewrite E in Hfc; congruence).
  split; [exact Hc|]. split.
  - intros name default. unfold _get, self_config, dict_read, dict_get.
    simpl. rewrite lookup_insert_eq. simpl. rewrite lookup_insert_eq. simpl.
    rewrite lookup_empty. reflexivity.
  - intros cd st2 name default
           (d & old & new & Hcd & _ & _ & Hds & Hcs & _)%update_Ok.
    simpl in Hcd, Hds, Hcs. rewrite lookup_insert_eq in Hcd.
    injection Hcd as <-.
    apply (reads_frame st st2 c0 d0); auto.
    + rewrite Hcs. rewrite lookup_insert_ne by exact Hc. exact Hc0.
    + rewrite Hds. rewrite !lookup_insert_ne by exact Hd. reflexivity.
Qed.

End ConfigTheorems2.

(** The example state is reached by calls of the module, hence well
    formed. *)
Lemma toy_config_state_ok : Spec2.store_ok (snd Examples.toy_config_state).
Proof.
  replace (snd Examples.toy_config_state)
    with (Config.run_calls Examples2.toy_config_calls
            (@Config.module_init Z))
    by (vm_compute; reflexivity).
  apply ConfigFacts2.store_ok_run_calls, ConfigFacts2.store_ok_init.
Qed.

(** Witness of [X11_update_then_read]: 'seed' is overwritten by the
    update. *)
Lemma X11_update_then_read_witness :
  exists new,
    Config.dict_read (fst Examples2.toy_source) (snd Examples2.toy_source)
      = Ok new /\
    match new !! "seed" with
    | Some v =>
        Config._get (fst Examples.toy_config_state) "seed" Config.VNone
          Examples2.toy_updated = Ok v /\
        Config.__getattr__ (fst Examples.toy_config_state) "seed"
          Examples2.toy_updated = Ok v
    | None =>
        Config._get (fst Examples.toy_config_state) "seed" Config.VNone
          Examples2.toy_updated
        = Config._get (fst Examples.toy_config_state) "seed" Config.VNone
            (snd Examples2.toy_source) /\
        Config.__getattr__ (fst Examples.toy_config_state) "seed"
          Examples2.toy_updated
        = Config.__getattr__ (fst Examples.toy_config_state) "seed"
            (snd Examples2.toy_source)
    end.
Proof.
  apply (X11_update_then_read (snd Examples2.toy_source)
           Examples2.toy_updated (fst Examples.toy_config_state)
           (fst Examples2.toy_source) "seed" Config.VNone).
  vm_compute. reflexivity.
Defined.

(** The configuration after the update, evaluated. *)
Example toy_updated_reads :
  Config.__getattr__ 2 "seed" Examples2.toy_updated = Ok (Config.VInt 4) /\
  Config.__getattr__ 2 "device" Examples2.toy_updated
    = Ok (Config.VStr "cpu") /\
  Config.__getattr__ 2 "env" Examples2.toy_updated
    = Ok (Config.VStr "CartPole-v1") /\
  Config.__getattr__ 2 "seed" Examples2.toy_source_emptied
    = Ok (Config.VInt 4) /\
  Config.__getattr__ 2 "seed" Examples2.toy_cleared = Raise KeyError.
Proof. repeat split; vm_compute; reflexivity. Qed.

(** Witness of [X12_update_copies_entries]: the source dictionary is
    emptied after the update. *)
Lemma X12_update_copies_entries_witness :
  Config._get (fst Examples.toy_config_state) "seed" Config.VNone
    Examples2.toy_source_emptied
  = Config._get (fst Examples.toy_config_state) "seed" Config.VNone
      Examples2.toy_updated /\
  Config.__getattr__ (fst Examples.toy_config_state) "seed"
    Examples2.toy_source_emptied
  = Config.__getattr__ (fst Examples.toy_config_state) "seed"
      Examples2.toy_updated.
Proof.
  refine (X12_update_copies_entries (snd Examples2.toy_source)
            Examples2.toy_updated Examples2.toy_source_emptied
            (fst Examples.toy_config_state) (fst Examples2.toy_source) 1
            (fun _ => empty) _ _ _ _ "seed" Config.VNone).
  - vm_compute. reflexivity.
  - vm_compute. reflexivity.
  - vm_compute. discriminate.
  - vm_compute. reflexivity.
Defined.

(** Witness of [X13_clear_forgets]. *)
Lemma X13_clear_forgets_witness :
  Config._get (fst Examples.toy_config_state) "seed" (Config.VInt 0)
    Examples2.toy_cleared = Ok (Config.VInt 0) /\
  Config.__getattr__ (fst Examples.toy_config_state) "seed"
    Examples2.toy_cleared = Raise KeyError.
Proof.
  apply (X13_clear_forgets (snd Examples.toy_config_state)
           Examples2.toy_cleared (fst Examples.toy_config_state)
           "seed" (Config.VInt 0)).
  vm_compute. reflexivity.
Defined.

(** Witness of [X14_as_dict_snapshot]: the configuration is cleared and
    another dictionary is emptied after the copy has been taken. *)
Lemma X14_as_dict_snapshot_witness :
  Config.dict_read (fst Examples.toy_config_copy)
    (Config.run_calls
       [Config.CallClear 2; Config.CallGetConfig;
        Config.CallMutate 3 (fun _ => empty)]
       (snd Examples.toy_config_copy))
  = Config.dict_read (fst Examples.toy_config_copy)
      (snd Examples.toy_config_copy) /\
  exists r,
    Config.self_config (fst Examples.toy_config_state)
      (snd Examples.toy_config_state) = Ok r /\
    Config.dict_read (fst Examples.toy_config_copy)
      (snd Examples.toy_config_copy)
    = Config.dict_read r (snd Examples.toy_config_state).
Proof.
  apply (X14_as_dict_snapshot (snd Examples.toy_config_state)
           (snd Examples.toy_config_copy) (fst Examples.toy_config_state)
           (fst Examples.toy_config_copy)
           [Config.CallClear 2; Config.CallGetConfig;
            Config.CallMutate 3 (fun _ => empty)]).
  - apply toy_config_state_ok.
  - vm_compute. reflexivity.
  - repeat constructor; intros f; discriminate.
Defined.

(** Witness of [X16_new_config_independent]: a second [Config] next to the
    one of the example state. *)
Lemma X16_new_config_independent_witness :
  let c := fst (Config.Config_new (snd Examples.toy_config_state)) in
  let st1 := snd (Config.Config_new (snd Examples.toy_config_state)) in
  c <> 2%positive /\
  (forall name default, Config._get c name default st1 = Ok default) /\
  (forall cd st2 name default,
     Config._update c cd st1 = Ok st2 ->
     Config._get 2 name default st2
       = Config._get 2 name default (snd Examples.toy_config_state) /\
     Config.__getattr__ 2 name st2
       = Config.__getattr__ 2 name (snd Examples.toy_config_state)).
Proof.
  apply (X16_new_config_independent (snd Examples.toy_config_state) 2 1).
  - apply toy_config_state_ok.
  - vm_compute. reflexivity.
Defined.

(** ** make_runstate and run_epoch: exceptions and order *)


Section MainTheorems2.
Import Torch Config MainA2C MainFacts Spec2.
Context {R : Type} `{Scalar R} {W : World}.


(** X17. Once the environment, the algorithm and the other objects are
    constructed, [make_runstate] raises [KeyError] when the configuration
    has no [max_simulation_timesteps], [ZeroDivisionError] when
    [num_data_logs] is 0, and [AssertionError] when
    [target_update_function] is a string other than 'full' and 'polyak';
    with or without a checkpoint. *)
Theorem X17_make_runstate_raises (lib : Lib R W)
    (cfg : gmap string (BasicType R)) (fresh : Fresh R W)
    (checkpoint : option (Checkpoint R W)) :
  (cfg !! "max_simulation_timesteps" = None ->
   make_runstate lib cfg fresh checkpoint = Raise KeyError) /\
  (forall m,
     cfg !! "max_simulation_timesteps" = Some (VInt m) ->
     cfg !! "num_data_logs" = Some (VInt 0) ->
     make_runstate lib cfg fresh checkpoint = Raise ZeroDivisionError) /\
  (forall m k tuf,
     cfg !! "max_simulation_timesteps" = Some (VInt m) ->
     cfg !! "num_data_logs" = Some (VInt k) -> k <> 0 ->
     cfg !! "target_update_function" = Some (VStr tuf) ->
     tuf <> "full" -> tuf <> "polyak" ->
     make_runstate lib cfg fresh checkpoint = Raise AssertionError).
Proof.
  unfold make_runstate, make_target_update_dispenser, floordiv, attr,
    dict_getitem.
  split; [|split].
  - intros ->. reflexivity.
  - intros m -> ->. reflexivity.
  - intros m k tuf -> -> Hk -> Hf Hp. simpl.
    rewrite decide_False by exact Hk. simpl.
    apply String.eqb_neq in Hf, Hp. rewrite Hf, Hp. reflexivity.
Qed.

(** X18. [make_runstate] does not look at the metadata of the checkpoint:
    two checkpoints with the same data give the same run state, whatever
    configuration and run id they were saved with. *)
Theorem X18_resume_ignores_metadata (lib : Lib R W)
    (cfg : gmap string (BasicType R)) (fresh : Fresh R W)
    (cp cp' : Checkpoint R W) :
  data cp = data cp' ->
  make_runstate lib cfg fresh (Some cp) =
  make_runstate lib cfg fresh (Some cp').
Proof. intros E. unfold make_runstate. rewrite E. reflexivity. Qed.


End MainTheorems2.

Section MainTheorems3.
Import Torch Config MainA2C MainFacts Spec2.
Context {R : Type} `{Scalar R} {W : World}.


End MainTheorems3.

(** Witness of [X18_resume_ignores_metadata]. *)
Lemma X18_resume_ignores_metadata_witness :
  MainA2C.make_runstate Examples.toy_lib Examples.toy_cfg Examples.toy_fresh
    (Some Examples2.toy_checkpoint_a) =
  MainA2C.make_runstate Examples.toy_lib Examples.toy_cfg Examples.toy_fresh
    (Some Examples2.toy_checkpoint_b).
Proof.
  apply (X18_resume_ignores_metadata Examples.toy_lib Examples.toy_cfg
           Examples.toy_fresh
           Examples2.toy_checkpoint_a Examples2.toy_checkpoint_b).
  reflexivity.
Defined.



(** [run_epoch] without the two flags in the configuration, evaluated: in
    the 31st epoch, before the datalog dispenser is due, the epoch runs;
    in the 30th it raises [KeyError]. *)
Example toy_run_epoch_without_flags :
  (let* '(_, trace) :=
     MainA2C.run_epoch Examples.toy_lib
       (<["evaluation_period" := Config.VInt 10]> empty)
       (@MainA2C.Build_Runstate Q Examples.toy_world 1 42 7 8
          (Examples.toy_xstats 31 12000) (Examples.toy_averages 9)
          (@MainA2C.Build_RunstateDispensers Examples.toy_world
             (20000, 10000) (20000, 10000) 5)
          0 Examples.toy_factories 0 (fun t => inject_Z t) 0) in
   Ok (length trace)) = Ok 3%nat /\
  MainA2C.run_epoch Examples.toy_lib
    (<["evaluation_period" := Config.VInt 10]> empty)
    Examples.toy_runstate = Raise KeyError.
Proof. split; vm_compute; reflexivity. Qed.

(** ** The inputs of the history model *)

Section HistoryTheorems2.
Import Torch TorchFacts PoeAdqn Spec HistoryFacts.
Context {R : Type} `{Scalar R} {Obs State Hid : Type}.

(** X21. Acting along an episode gives, call by call, the feature rows
    that a recurrent history model returns for the whole sequence of
    inputs (zero action features with the first observation, then each
    action with the observation that follows it) started from the hidden
    state the policy has when [reset] is called. *)
Theorem X21_run_is_history_model (models : Models R Obs State Hid)
    (policy : TargetPolicy R Hid) (acts : list Z) (o0 : Obs)
    (obs : list Obs) :
  recurrent (history_model models) ->
  let inputs :=
    (zeros (action_dim models) ++ observation_model models o0)
      :: zip_with (policy_input models) acts obs in
  map history_features (run_episode models policy acts (o0 :: obs)) =
  map (fun row => Some [row])
    (fst (history_model models inputs (hidden policy))).
Proof.
  intros Hrec inputs. subst inputs.
  set (x0 := zeros (action_dim models) ++ observation_model models o0).
  pose proof Hrec as (Hcons & _ & _). rewrite Hcons.
  destruct (single_row models Hrec x0 (hidden policy)) as (row & h0 & E0).
  rewrite E0.
  destruct (history_model models (zip_with (policy_input models) acts obs)
              (Some h0)) as [fs h2] eqn:E2.
  simpl. unfold reset at 1, _update. fold x0. rewrite E0. simpl. f_equal.
  unfold reset, _update. fold x0. rewrite E0.
  eapply (run_steps_rows models Hrec); [reflexivity|exact E2].
Qed.

(** X22. [compute_q_values] feeds the history model, without a hidden
    state, one row for each timestep: the first is zeros (as wide as the
    features of the last action) with the features of the first
    observation, and row [t + 1] is the features of action [t] with the
    features of observation [t + 1]; the last action occurs in no row. *)
Theorem X22_history_inputs (models : Models R Obs State Hid)
    (acts : list Z) (a_last : Z) (o0 : Obs) (obs : list Obs) :
  length acts = length obs ->
  let inputs :=
    (zeros (length (action_model models a_last))
       ++ observation_model models o0)
      :: zip_with (policy_input models) acts obs in
  compute_history_features models (acts ++ [a_last]) (o0 :: obs) =
  Ok (fst (history_model models inputs None)) /\
  length inputs = length (o0 :: obs).
Proof.
  intros Hl inputs. subst inputs. split.
  - unfold compute_history_features.
    rewrite map_app. simpl map. rewrite roll_fwd_snoc.
    unfold zero_first_row, cat_last. simpl bind.
    rewrite decide_True by (simpl; rewrite !length_map; lia).
    simpl. rewrite inputs_zip.
    assert (Ez : map (fun _ : R => zero) (action_model models a_last)
                 = zeros (length (action_model models a_last))).
    { unfold zeros.
      induction (action_model models a_last); simpl; [reflexivity|].
      f_equal; auto. }
    rewrite Ez. destruct (history_model models _ None). reflexivity.
  - simpl. rewrite length_zip_with. lia.
Qed.

End HistoryTheorems2.

(** Witness of [X21_run_is_history_model]: the policy that has already
    been through an episode. *)
Lemma X21_run_is_history_model_witness :
  let inputs :=
    (Torch.zeros (PoeAdqn.action_dim (Examples.toy_models 5))
       ++ PoeAdqn.observation_model (Examples.toy_models 5) 4)
      :: zip_with (Spec.policy_input (Examples.toy_models 5)) [1; 0] [5] in
  map PoeAdqn.history_features
    (Spec.run_episode (Examples.toy_models 5) Examples.used_policy
       [1; 0] (4 :: [5])) =
  map (fun row => Some [row])
    (fst (PoeAdqn.history_model (Examples.toy_models 5) inputs
            (PoeAdqn.hidden Examples.used_policy))).
Proof.
  apply (X21_run_is_history_model (Examples.toy_models 5)
           Examples.used_policy [1; 0] 4 [5]).
  apply toy_models_recurrent.
Defined.

(** Witness of [X22_history_inputs]. *)
Lemma X22_history_inputs_witness :
  let inputs :=
    (Torch.zeros
       (length (PoeAdqn.action_model (Examples.toy_models 5) 0))
       ++ PoeAdqn.observation_model (Examples.toy_models 5) 1)
      :: zip_with (Spec.policy_input (Examples.toy_models 5)) [0; 1] [2; 3] in
  PoeAdqn.compute_history_features (Examples.toy_models 5)
    ([0; 1] ++ [0]) (1 :: [2; 3]) =
  Ok (fst (PoeAdqn.history_model (Examples.toy_models 5) inputs None)) /\
  length inputs = length (1 :: [2; 3]).
Proof.
  apply (X22_history_inputs (Examples.toy_models 5) [0; 1] 0 1 [2; 3]).
  reflexivity.
Defined.

(** The behaviour policy on the integer models, evaluated: without
    [epsilon], exploring before any reset, not exploring before any reset,
    and greedy after three calls. *)
Example toy_behavior_policy :
  Behavior.po_sample_action Z.ltb (Examples.toy_models 5)
    (Behavior.BehaviorPolicy_init None) 0 1 = Behavior.AttributeError /\
  Behavior.po_sample_action Z.ltb (Examples.toy_models 5)
    (Behavior.BehaviorPolicy_init (Some 3)) 0 1 = Behavior.Returns 1 /\
  Behavior.po_sample_action Z.ltb (Examples.toy_models 5)
    (Behavior.BehaviorPolicy_init (Some 3)) 3 1
    = Behavior.Raises TypeError /\
  Behavior.po_sample_action Z.ltb (Examples.toy_models 5)
    (fold_left (Behavior.run_call (Examples.toy_models 5))
       [Behavior.Reset 1; Behavior.Step 0 2; Behavior.Step 1 3]
       (Behavior.BehaviorPolicy_init (Some 3))) 3 1
    = Behavior.Returns 0.
Proof. repeat split; reflexivity. Qed.
